(* ===== verification/_CoqProject ===== *)
-Q . S2P
Prelude.v
JsValue.v
JsArray.v
I18n.v
Constants.v
LayoutValidation.v
AxisItems.v
Store.v
History.v
Actions.v
MenuBar.v
SelectedItems.v
DimensionItem.v
Integration.v
HideLegend.v
FontStylesTest.v
