(* ===== verification/Prelude.v ===== *)
(** * A verification development for the data-visualizer app

    The app edits a chart ("visualization") in a Redux store: the store
    holds the saved [visualization] and the edited copy [current], the ui
    state, a metadata cache, the user and transient flags; thunks load,
    rename, save and delete visualizations through the analytics API and
    the browser history; the menu bar and the dimension panels call them
    and validate a layout before it is shown.  Each file models one part as
    a shallow embedding of the JavaScript source and proves what that part
    promises.

    ** Files, in dependency order

    - [Prelude] (this file): the [result] type of a computation that may
      throw, its bind notation [x <- r ;; k] in [dv_scope], the judgement
      [raises_only] with the hint databases [dv] and [dv_rw], and the
      tactics [res_inv], [raises_step] and [decide_true].
    - [JsValue]: the JavaScript values the code handles ([jsval]: objects
      as association lists that keep key order, arrays, strings, numbers
      as [Z]), exceptions ([TypeError], [new Error(m)], thrown values),
      truthiness, [typeof], property access with [.] (throws on [null] and
      [undefined]) and [?.], object spread, iteration and [Array.find] and
      [map] with their exceptions.
    - [JsArray]: [indexOf], [splice] with its clamping of indices, and
      lodash's stable [sortBy], with lemmas relating them to [take],
      [drop], [filter] and permutations: [sortBy] sorts ([StronglySorted]
      of stdpp), a list without duplicates is sorted by [indexOf], and
      moving an element there and back restores an array.
    - [I18n]: [i18n.t]'s interpolation of [{{key}}] and [{{- key}}] (the
      translation catalogue is the identity).  [interpolate] recurses on
      fuel; [i18n_t] gives it the template's length, which is enough since
      every call consumes at least one character.
    - [Constants]: the constants the code imports from
      [@dhis2/analytics], [modules/chartTypes] and [modules/fields],
      modelled from the spec.
    - [LayoutValidation] ([modules/layoutValidation.js]): [errorLabels],
      the validity checks and the three chart-type validators, all on
      [jsval]; Module [Spec] gives typed layouts, their encoding and the
      ordered list of rules each chart type must satisfy.  Module [Facts]
      proves the refinement ([validateLayout_refines]: on every typed
      layout the validator returns or throws exactly what the rules say),
      that it raises nothing but a [TypeError] or a labelled [Error], that
      with unique dimension ids the period check agrees with the spec's
      "a valid period dimension on any axis", and the quirks: only the
      first dimension of an axis and the first period dimension are
      inspected, a missing [filters] is a [TypeError], the period message
      is the only thrown message that keeps a broken placeholder, and the
      year-over-year columns message names the wrong axis.
    - [AxisItems] ([adaptAxisItems], [actions/index.js]): the adapter of
      a loaded visualization's axes; it is idempotent, its output is
      described item by item, and it throws exactly on a truthy non-array
      or an array with a [null] or [undefined] element, always a
      [TypeError].
    - [Store] ([reducers/index.js], [reducers/user.js], the metadata
      reducer as [reducers/__tests__/metadata.js] expects it): the root
      reducer as a record of slices, [visualization] and [current] as
      references into a heap ([loc]) so that [===] is equality of
      locations.  The slice reducers outside [src] are modelled from the
      spec.  Theorems: the metadata merge laws, no action ever evicts a
      metadata entry, and the user slice is the last received user.
    - [History]: [history.push] and [history.replace] on a list of
      entries, modelled from the spec.
    - [Actions] ([actions/index.js]): a state and exception monad [M] over
      a [world] (heap, next free location, store, history, log of
      effects), with [dispatch], [getState], [navigate], [emit] for API
      calls and logging, and [await] of an API result given as an
      argument.  The library functions the thunks call form the class
      [Analytics], with the laws the proofs need in [AnalyticsLaws] and a
      model instance.  [clearAll] and the load, rename, save and delete
      thunks are written out call by call.  Module [ActionsFacts] gives a
      weakest-precondition calculus ([wp], [wp_err], the tactic [wp_run])
      and proves each thunk's effect on every branch: the rename keeps
      [visualization] and [current] one reference when they were, a load
      publishes one adapted object or the error kind, an adapter exception
      escapes the load uncaught, a save navigates with push or replace, a
      non-OK answer stalls with the loading flag set, a rejected save
      reports the generic error, an unnamed save is named ["Untitled
      <type> visualization, <date>"] with both values in full, a delete
      notifies and goes home.
    - [MenuBar] ([components/MenuBar/MenuBar.js]): [onOpen], [onNew], the
      dispatching handlers of [mapDispatchToProps] as computations of [M]
      (destructuring [{name, description}] throws on [null]), and the
      [onSave] prop gated on [getVisualizationState]; [mapStateToProps],
      the [getOn*] callbacks, the props [UnconnectedMenuBar] gives the
      file menu, and the connected [MenuBar] as their composition.  The
      connected menu passes [onSave] exactly when [current] is set and a
      different reference from [visualization]; a rename keeps that
      decision; a load withdraws it; the Save as callback's default
      [details = {}] covers [undefined] but not [null], which throws;
      re-opening the visualization shown replaces the history entry
      instead of adding one; [onError] shows the dashboard message for
      [E4030] and throws on a [null] error.
    - [SelectedItems] ([components/Dimensions/Dialogs/SelectedItems.js]):
      the component's state and each handler as a function from props and
      state to the callbacks it calls and the next state; [render] as the
      list of [Item] props it builds, for the connected component reading
      the store's metadata.  The list renders exactly when every item
      has metadata or shows the drag count, and throws a [TypeError]
      otherwise.  A multi-item
      drag is a permutation of the items, inserting the highlighted ones
      as one block in the order they have among the items; the adjusted
      destination stays in [0, drop index]; a stale highlighted id makes
      [splice(-1, 1)] drop the last item; a drop at the same index is
      ignored whatever the droppable; a single move is a permutation
      placing the dragged id at the destination, and the move back
      restores the items; a drag start ghosts the other highlighted items.
    - [DimensionItem] ([components/Dimensions/DimensionItem.js]): the hover
      flags, the handlers and the rendering decisions, the item on the page
      as a step function with an inductive [reachable]; the reachable
      states are exactly those where a clicked options button goes with
      the hover, only a toggle clears a clicked hover, and from every
      reachable state a fixed sequence of events (leave, deselect, toggle,
      reselect) brings the flags back to their initial value.
    - [Integration]: after [adaptAxisItems], an axis whose first dimension
      has no items passes [isAxisValid] exactly when that dimension is not
      one of [dx], [pe], [ou], [co].
    - [HideLegend] ([components/VisualizationOptions/Options/HideLegend.js]):
      the props the legend option passes to [CheckboxBaseOption].
    - [FontStylesTest] ([cypress/integration/options/fontStyles.cy.js]):
      the end-to-end test of the font style options as data: Module
      [FontStylesTest] writes the suite as a tree of [describe]/[it]
      blocks whose bodies are lists of the Cypress commands it calls (one
      constructor of [step] per imported helper), with [setFontStyleOptions]
      and the randomize helpers as functions of the random booleans.  The
      random draws of a run are the record [suite_draws]; the configuration
      defaults, tab names and [VIS_TYPE_COLUMN] are section variables.
      No property is stated about it: what the test checks depends on the
      browser helpers and the chart library, which are not modelled.

    ** What is not modelled

    The JSX markup, styles and React's rendering are not modelled; only the
    decisions the render functions take are.  Asynchrony is sequential:
    an API call's answer is an argument of the thunk, and a promise that is
    not awaited is modelled by where its exception goes.  The functions
    imported from outside [src] are parameters: the [Analytics] class,
    [toggler], [getErrorVariantByStatusCode] and the visualization types;
    [CheckboxBaseOption], which renders the legend option, is not modelled.
    In the Cypress test, what the helpers of [cypress/elements] and
    [cypress/utils] do in the browser is not modelled: the test is the
    sequence of their calls and the values it passes and expects. *)

From stdpp Require Import base gmap strings list.
From Stdlib Require Import String ZArith Lia.

(** ** Results: the value or the exception a JavaScript call produces *)

Inductive result (A E : Type) : Type :=
| Ok (a : A)
| Err (e : E).
Arguments Ok {A E} a.
Arguments Err {A E} e.

Definition rbind {A B E} (r : result A E) (f : A -> result B E) : result B E :=
  match r with
  | Ok a => f a
  | Err e => Err e
  end.

Definition rmap {A B E} (f : A -> B) (r : result A E) : result B E :=
  match r with
  | Ok a => Ok (f a)
  | Err e => Err e
  end.

Definition is_ok {A E} (r : result A E) : bool :=
  match r with Ok _ => true | Err _ => false end.

Declare Scope dv_scope.
Delimit Scope dv_scope with dv.
Notation "x <- r ;; k" := (rbind r (fun x => k))
  (at level 100, r at next level, right associativity) : dv_scope.
Notation "r ;;; k" := (rbind r (fun _ => k))
  (at level 100, right associativity) : dv_scope.
Notation "'throw' e" := (Err e) (at level 10, e at level 9) : dv_scope.
Open Scope dv_scope.

(** ** Generic lemmas on results *)

Lemma rbind_Ok_inv {A B E} (r : result A E) (f : A -> result B E) b :
  rbind r f = Ok b -> exists a, r = Ok a /\ f a = Ok b.
Proof. destruct r; simpl; [eauto | discriminate]. Qed.

Lemma rbind_Err_inv {A B E} (r : result A E) (f : A -> result B E) e :
  rbind r f = Err e -> r = Err e \/ exists a, r = Ok a /\ f a = Err e.
Proof. destruct r; simpl; [eauto | intros H; injection H as <-; auto]. Qed.

Lemma rbind_ok {A B E} (a : A) (f : A -> result B E) : rbind (Ok a) f = f a.
Proof. reflexivity. Qed.

Lemma rbind_err {A B E} (e : E) (f : A -> result B E) : rbind (Err e) f = Err e.
Proof. reflexivity. Qed.

Create HintDb dv discriminated.
Create Rewrite HintDb dv_rw.
#[export] Hint Rewrite @rbind_ok @rbind_err : dv_rw.

(** [res_inv] splits every hypothesis [rbind r f = Ok b] into the results it
    is made of, the way a reader follows the code's sequence of calls. *)
Ltac res_inv :=
  repeat match goal with
  | H : rbind ?r _ = Ok _ |- _ =>
      let a := fresh "a" in let Ha := fresh "Ha" in
      apply rbind_Ok_inv in H as (a & Ha & H)
  | H : Ok _ = Ok _ |- _ => injection H as H; subst
  | H : Err _ = Ok _ |- _ => discriminate H
  | H : Ok _ = Err _ |- _ => discriminate H
  end.

(** ** Generic lemmas on lists and strings used by several components *)

Lemma bool_decide_string_eq_refl (s : string) : bool_decide (s = s) = true.
Proof. by apply bool_decide_eq_true. Qed.
#[export] Hint Rewrite bool_decide_string_eq_refl : dv_rw.

(** ** Which exceptions a computation can raise *)

Definition raises_only {A E} (P : E -> Prop) (r : result A E) : Prop :=
  forall e, r = Err e -> P e.

Lemma raises_only_ok {A E} (P : E -> Prop) (a : A) : raises_only P (Ok a).
Proof. by intros e. Qed.

Lemma raises_only_err {A E} (P : E -> Prop) (e : E) : P e -> raises_only (A:=A) P (Err e).
Proof. intros He e' [= <-]. exact He. Qed.

Lemma raises_only_bind {A B E} (P : E -> Prop) (r : result A E) (f : A -> result B E) :
  raises_only P r -> (forall a, raises_only P (f a)) -> raises_only P (rbind r f).
Proof. intros Hr Hf e. destruct r as [a|e']; simpl; [exact (Hf a e) | intros [= ->]; by apply Hr]. Qed.

Lemma raises_only_if {A E} (P : E -> Prop) (b : bool) (r1 r2 : result A E) :
  raises_only P r1 -> raises_only P r2 -> raises_only P (if b then r1 else r2).
Proof. by destruct b. Qed.

Lemma raises_only_weaken {A E} (P Q : E -> Prop) (r : result A E) :
  (forall e, P e -> Q e) -> raises_only P r -> raises_only Q r.
Proof. intros HPQ HP e He. by apply HPQ, HP. Qed.

#[export] Hint Resolve raises_only_ok raises_only_bind raises_only_if : dv.

(** ** Strings *)

Lemma string_app_nil_r (s : string) : (s ++ "")%string = s.
Proof. induction s as [|c s IH]; [reflexivity | exact (f_equal (String c) IH)]. Qed.

(** ** [find] on a list whose keys are unique *)

Lemma find_eqb_NoDup {A} (f : A -> string) (l : list A) (k : string) (d : A) :
  NoDup (map f l) ->
  find (fun x => String.eqb (f x) k) l = Some d <-> d ∈ l /\ f d = k.
Proof.
  induction l as [|a l IH]; simpl; intros Hnd.
  { split; [discriminate | intros [Hin _]; by apply elem_of_nil in Hin]. }
  apply NoDup_cons in Hnd as [Hnotin Hnd].
  destruct (String.eqb_spec (f a) k) as [Hk|Hk].
  - split.
    + intros [= <-]. split; [apply elem_of_cons; by left | done].
    + intros [[->|Hin]%elem_of_cons Hd]; [done|].
      exfalso. apply Hnotin. subst k. rewrite <- Hd, list_elem_of_In.
      apply in_map. by apply list_elem_of_In.
  - rewrite IH by done. split.
    + intros [Hin Hd]. split; [apply elem_of_cons; by right | done].
    + intros [[->|Hin]%elem_of_cons Hd]; [done | by split].
Qed.

(** [raises_step] follows a computation through its binds and branches,
    leaving one goal per call whose exceptions are to be bounded. *)
Ltac raises_step :=
  match goal with
  | |- raises_only _ (rbind _ _) => apply raises_only_bind; [| intros ?]
  | |- raises_only _ (if _ then _ else _) => apply raises_only_if
  | |- raises_only _ (Ok _) => apply raises_only_ok
  | |- raises_only _ (Err _) => apply raises_only_err
  end.

Lemma Forall2_Forall_ex_r {A B} (P : A -> B -> Prop) (xs : list A) (ys : list B) :
  Forall2 P xs ys -> Forall (fun y => exists x, P x y) ys.
Proof. induction 1; constructor; eauto. Qed.

(** [decide_true] proves a decidable proposition on concrete data by
    evaluating its decision procedure. *)
Ltac decide_true := apply (bool_decide_unpack _); vm_compute; reflexivity.
