(* ===== verification/JsValue.v ===== *)
(** * JavaScript values as the modelled code sees them

    The validator and the axis-item adapter take untyped JavaScript data
    (objects decoded from the analytics API).  This file models the part of
    the JavaScript value space they inspect: primitives, arrays and plain
    objects with their own properties in insertion order, the exceptions a
    property read or an iteration can raise, and the library predicates the
    code calls ([lodash]'s [isObject], [Array.isArray], [typeof], truthiness,
    [Array.prototype.find], [includes], spread).  Numbers are integers
    (no [NaN], no fractions); functions, prototypes and symbols are not
    modelled, since no modelled code reads them. *)

From stdpp Require Import base gmap strings list pretty.
From Stdlib Require Import String ZArith Lia.
From S2P Require Import Prelude.

Open Scope string_scope.

#[local] Set Warnings "-register-all".
Inductive jsval : Type :=
| JUndefined
| JNull
| JBool (b : bool)
| JNum (n : Z)
| JStr (s : string)
| JArr (xs : list jsval)
| JObj (fs : list (string * jsval)).

(** The exceptions the modelled code can raise: a [TypeError] from reading a
    property of [null]/[undefined] or spreading a non-iterable, an [Error]
    built with [new Error(message)], and any other value a rejected promise
    carries into an [await]. *)
Inductive js_exn : Type :=
| TypeError
| Error (msg : string)
| Thrown (v : jsval).

Definition js_result (A : Type) := result A js_exn.

(** ** Primitive predicates *)

Definition is_nullish (v : jsval) : bool :=
  match v with JUndefined | JNull => true | _ => false end.

(** ECMAScript ToBoolean. *)
Definition truthy (v : jsval) : bool :=
  match v with
  | JUndefined | JNull => false
  | JBool b => b
  | JNum n => negb (Z.eqb n 0)
  | JStr s => negb (String.eqb s "")
  | JArr _ | JObj _ => true
  end.

Definition typeof (v : jsval) : string :=
  match v with
  | JUndefined => "undefined"
  | JBool _ => "boolean"
  | JNum _ => "number"
  | JStr _ => "string"
  | JNull | JArr _ | JObj _ => "object"
  end.

(** [lodash-es/isObject]: non-null and of type object or function. *)
Definition isObject (v : jsval) : bool :=
  match v with JArr _ | JObj _ => true | _ => false end.

Definition isArray (v : jsval) : bool :=
  match v with JArr _ => true | _ => false end.

(** [v === s] for a string constant [s]. *)
Definition eq_str (v : jsval) (s : string) : bool :=
  match v with JStr s' => String.eqb s' s | _ => false end.

(** [v === n] for a number constant [n]. *)
Definition eq_num (v : jsval) (n : Z) : bool :=
  match v with JNum n' => Z.eqb n' n | _ => false end.

(** [[s1, ..., sk].includes(v)] on an array of strings (SameValueZero). *)
Definition includes_str (l : list string) (v : jsval) : bool :=
  match v with JStr s => existsb (String.eqb s) l | _ => false end.

(** [String(v)], as a template literal [`${v}`] converts [v]: an array
    joins its elements with commas, [null] and [undefined] elements giving
    the empty string. *)
Fixpoint js_to_string (v : jsval) : string :=
  match v with
  | JUndefined => "undefined"
  | JNull => "null"
  | JBool b => if b then "true" else "false"
  | JNum n => pretty n
  | JStr s => s
  | JArr xs =>
      (fix join (xs : list jsval) : string :=
         match xs with
         | [] => ""
         | [x] => if is_nullish x then "" else js_to_string x
         | x :: xs' => (if is_nullish x then "" else js_to_string x) ++ "," ++ join xs'
         end) xs
  | JObj _ => "[object Object]"
  end.

(** ** Properties *)

Fixpoint assoc (k : string) (fs : list (string * jsval)) : option jsval :=
  match fs with
  | [] => None
  | (k', v) :: fs' => if String.eqb k' k then Some v else assoc k fs'
  end.

(** The own property [k] of a non-nullish value: fields of objects, and
    [length] of arrays and strings. *)
Definition prop_of (v : jsval) (k : string) : jsval :=
  match v with
  | JObj fs => default JUndefined (assoc k fs)
  | JArr xs => if String.eqb k "length" then JNum (Z.of_nat (List.length xs)) else JUndefined
  | JStr s => if String.eqb k "length" then JNum (Z.of_nat (String.length s)) else JUndefined
  | _ => JUndefined
  end.

(** [v.k]: throws on [null] and [undefined]. *)
Definition get_prop (v : jsval) (k : string) : js_result jsval :=
  if is_nullish v then throw TypeError else Ok (prop_of v k).

(** [v?.k]: short-circuits to [undefined] on [null] and [undefined]. *)
Definition opt_get (v : jsval) (k : string) : jsval :=
  if is_nullish v then JUndefined else prop_of v k.

(** [a[0]] for an array [a] (the code reads it only behind
    [Array.isArray]). *)
Definition elem0 (v : jsval) : jsval :=
  match v with JArr (x :: _) => x | _ => JUndefined end.

(** [o.k = v] / the field [k: v] of an object literal: an existing key keeps
    its position, a new key is appended. *)
Fixpoint obj_set (k : string) (v : jsval) (fs : list (string * jsval)) : list (string * jsval) :=
  match fs with
  | [] => [(k, v)]
  | (k', v') :: fs' =>
      if String.eqb k' k then (k', v) :: fs' else (k', v') :: obj_set k v fs'
  end.

(** The own enumerable properties copied by [{...v}]: array and string
    indices become the keys ["0"], ["1"], ...; primitives contribute none. *)
Definition index_keys {A} (xs : list A) : list (string * A) :=
  imap (fun i x => (pretty (N.of_nat i), x)) xs.

Definition spread_fields (v : jsval) : list (string * jsval) :=
  match v with
  | JObj fs => fs
  | JArr xs => index_keys xs
  | JStr s => index_keys (map (fun c => JStr (String c EmptyString)) (list_ascii_of_string s))
  | _ => []
  end.

(** [{...base, k1: v1, ..., kn: vn}]: the copied properties, then each
    property of the literal set in order. *)
Definition obj_literal (base : jsval) (kvs : list (string * jsval)) : jsval :=
  JObj (fold_left (fun fs kv => obj_set kv.1 kv.2 fs) kvs (spread_fields base)).
Arguments obj_literal : simpl never.

(** ** Iteration *)

(** [[...v]]: arrays and strings are iterable, anything else throws. *)
Definition iter_list (v : jsval) : js_result (list jsval) :=
  match v with
  | JArr xs => Ok xs
  | JStr s => Ok (map (fun c => JStr (String c EmptyString)) (list_ascii_of_string s))
  | _ => throw TypeError
  end.

(** [xs.find(p)] with a callback that may throw. *)
Fixpoint js_find (p : jsval -> js_result bool) (xs : list jsval) : js_result jsval :=
  match xs with
  | [] => Ok JUndefined
  | x :: xs' => b <- p x ;; if b then Ok x else js_find p xs'
  end.

(** [xs.map(f)] with a callback that may throw. *)
Fixpoint js_map (f : jsval -> js_result jsval) (xs : list jsval) : js_result (list jsval) :=
  match xs with
  | [] => Ok []
  | x :: xs' => y <- f x ;; ys <- js_map f xs' ;; Ok (y :: ys)
  end.

(** ** Well-formed objects: no key occurs twice *)

Definition wf_fields (fs : list (string * jsval)) : Prop := NoDup (map fst fs).

(** ** Lemmas *)

(** [find] over the encoding of a typed list, when the callback never
    throws on encoded elements, is the encoding of Rocq's [find]. *)
Lemma js_find_map {A} (enc : A -> jsval) (p : jsval -> js_result bool) (q : A -> bool)
    (l : list A) :
  (forall x, p (enc x) = Ok (q x)) ->
  js_find p (map enc l) = Ok (match find q l with Some x => enc x | None => JUndefined end).
Proof.
  intros Hpq. induction l as [|x l IH]; simpl; [done|].
  rewrite Hpq. simpl. by destruct (q x).
Qed.

Lemma get_prop_obj fs k : get_prop (JObj fs) k = Ok (default JUndefined (assoc k fs)).
Proof. reflexivity. Qed.

#[export] Hint Rewrite get_prop_obj : dv_rw.

Lemma assoc_obj_set_eq k v fs : assoc k (obj_set k v fs) = Some v.
Proof.
  induction fs as [|[k' v'] fs IH]; simpl; [by rewrite String.eqb_refl|].
  destruct (String.eqb_spec k' k) as [->|Hne]; simpl; [by rewrite String.eqb_refl|].
  apply String.eqb_neq in Hne. by rewrite Hne.
Qed.

Lemma assoc_obj_set_ne k k' v fs : k <> k' -> assoc k' (obj_set k v fs) = assoc k' fs.
Proof.
  intros Hne. induction fs as [|[k0 v0] fs IH]; simpl.
  - apply String.eqb_neq in Hne. by rewrite Hne.
  - destruct (String.eqb_spec k0 k) as [->|Hk]; simpl.
    + apply String.eqb_neq in Hne. by rewrite Hne.
    + by rewrite IH.
Qed.

(** A property of an object literal is the last value the literal gives
    it, else the copied one. *)
Lemma obj_set_obj_set k v w fs : obj_set k v (obj_set k w fs) = obj_set k v fs.
Proof.
  induction fs as [|[k' v'] fs IH]; simpl; [by rewrite String.eqb_refl|].
  destruct (String.eqb_spec k' k); simpl.
  - subst. by rewrite String.eqb_refl.
  - apply String.eqb_neq in n. rewrite n. by f_equal.
Qed.

Lemma keys_obj_set k v fs :
  map fst (obj_set k v fs) = if existsb (fun kv => String.eqb kv.1 k) fs
                             then map fst fs else (map fst fs ++ [k])%list.
Proof.
  induction fs as [|[k' v'] fs IH]; simpl; [done|].
  destruct (String.eqb_spec k' k); simpl; [done|].
  rewrite IH. by destruct (existsb _ fs).
Qed.

Lemma wf_fields_obj_set k v fs : wf_fields fs -> wf_fields (obj_set k v fs).
Proof.
  unfold wf_fields. rewrite keys_obj_set.
  destruct (existsb _ fs) eqn:Hex; [done|]. intros Hnd.
  apply NoDup_app. split; [done|]. split; [|apply NoDup_singleton].
  intros x Hx ->%list_elem_of_singleton.
  apply list_elem_of_In, in_map_iff in Hx as [[k' v'] [Hk Hin]]. simpl in Hk. subst k'.
  assert (Hf : existsb (fun kv => String.eqb kv.1 k) fs = true).
  { apply existsb_exists. exists (k, v'). by rewrite String.eqb_refl. }
  congruence.
Qed.

(** [xs.map(f)] returns normally exactly when [f] returns normally on every
    element, and then the results correspond one to one. *)
Lemma js_map_Ok f xs ys : js_map f xs = Ok ys <-> Forall2 (fun x y => f x = Ok y) xs ys.
Proof.
  revert ys. induction xs as [|x xs IH]; intros ys; simpl.
  - split; [intros [= <-]; constructor | by inversion 1].
  - split.
    + intros H. res_inv. constructor; [done|]. by apply IH.
    + inversion 1 as [|? y ? ys' Hy Hys]; subst. rewrite Hy. simpl.
      apply IH in Hys. by rewrite Hys.
Qed.

Lemma js_map_raises (P : js_exn -> Prop) f xs :
  (forall x, raises_only P (f x)) -> raises_only P (js_map f xs).
Proof.
  intros Hf. induction xs as [|x xs IH]; simpl; repeat raises_step; auto.
Qed.

(** If some element makes [f] raise, so does the whole map, and (when [f]
    raises only [P]) with an exception satisfying [P]. *)
Lemma js_map_Exists_err (P : js_exn -> Prop) f xs x e :
  (forall x, raises_only P (f x)) -> x ∈ xs -> f x = Err e ->
  exists e', js_map f xs = Err e' /\ P e'.
Proof.
  intros Hf Hin Hx. induction xs as [|x' xs IH]; [by apply elem_of_nil in Hin|]. simpl.
  apply elem_of_cons in Hin as [->|Hin].
  - rewrite Hx. exists e. split; [done | by apply (Hf x')].
  - destruct (f x') as [y|e'] eqn:Hy; simpl.
    + destruct (IH Hin) as (e' & He' & HP). rewrite He'. eauto.
    + exists e'. split; [done | by apply (Hf x')].
Qed.
