(* ===== verification/JsArray.v ===== *)
(** * JavaScript array operations

    The array methods the components call on lists of ids:
    [Array.prototype.indexOf] (which answers [-1] for a missing element),
    [Array.prototype.splice] (which clamps its start index: a negative
    start counts from the end, a start past the end appends), and lodash's
    [sortBy] on a numeric key (a stable sort).  The lemmas relate them to
    stdpp's [take], [drop], [filter] and permutations. *)

From stdpp Require Import base list sets strings sorting.
From Stdlib Require Import String ZArith Lia.
From S2P Require Import Prelude.

Open Scope Z_scope.
#[local] Set Warnings "-clear-no-such-hyp".

Section Arrays.
Context {A : Type} `{EqDecision A}.

(** [l.indexOf(x)] as an index, [None] for [-1]. *)
Fixpoint index_of (x : A) (l : list A) : option nat :=
  match l with
  | [] => None
  | y :: l' => if decide (y = x) then Some 0%nat else S <$> index_of x l'
  end.

Definition indexOf (x : A) (l : list A) : Z :=
  match index_of x l with Some n => Z.of_nat n | None => -1 end.

(** [l.splice(start, deleteCount, ...ins)], the array it leaves. *)
Definition js_splice (l : list A) (start deleteCount : Z) (ins : list A) : list A :=
  let len := Z.of_nat (List.length l) in
  let s := if start <? 0 then Z.max (len + start) 0 else Z.min start len in
  let dc := Z.max 0 (Z.min deleteCount (len - s)) in
  take (Z.to_nat s) l ++ ins ++ drop (Z.to_nat (s + dc)) l.

(** lodash's [sortBy(l, key)] on a numeric key: stable, an element goes
    after the elements already placed whose key is not greater. *)
Fixpoint insert_by (key : A -> Z) (x : A) (l : list A) : list A :=
  match l with
  | [] => [x]
  | y :: l' => if key x <? key y then x :: l else y :: insert_by key x l'
  end.

Definition sortBy (key : A -> Z) (l : list A) : list A :=
  fold_left (fun acc x => insert_by key x acc) l [].

End Arrays.

(** ** Lemmas *)

Section ArrayLemmas.
Context {A : Type} `{EqDecision A}.
Implicit Types (x y : A) (l : list A).

Lemma filter_all (P : A -> Prop) `{!forall y, Decision (P y)} l :
  (forall y, y ∈ l -> P y) -> filter P l = l.
Proof.
  induction l as [|y l IH]; intros HP; [done|]. rewrite filter_cons, decide_True by set_solver.
  f_equal. apply IH. set_solver.
Qed.

Lemma index_of_None x l : index_of x l = None <-> x ∉ l.
Proof.
  induction l as [|y l IH]; simpl; [set_solver|].
  case_decide; subst; [split; [done|set_solver]|].
  rewrite fmap_None, IH, elem_of_cons. naive_solver.
Qed.

Lemma index_of_Some x l n :
  index_of x l = Some n -> l !! n = Some x /\ x ∉ take n l.
Proof.
  revert n. induction l as [|y l IH]; intros n; simpl; [done|].
  case_decide; subst; [intros [= <-]; simpl; set_solver|].
  intros (m & Hm & ->)%fmap_Some. destruct (IH m Hm). simpl. set_solver.
Qed.

Lemma index_of_elem x l : x ∈ l -> exists n, index_of x l = Some n.
Proof. intros Hx. destruct (index_of x l) eqn:E; [by eexists|]. by apply index_of_None in E. Qed.

Lemma indexOf_missing x l : x ∉ l -> indexOf x l = -1.
Proof. intros Hx. unfold indexOf. by rewrite (proj2 (index_of_None x l) Hx). Qed.

Lemma indexOf_bounds x l : x ∈ l -> 0 <= indexOf x l < Z.of_nat (List.length l).
Proof.
  intros Hx. destruct (index_of_elem x l Hx) as [n Hn]. unfold indexOf. rewrite Hn.
  apply index_of_Some in Hn as [Hn _]. apply lookup_lt_Some in Hn. lia.
Qed.

Lemma js_splice_insert l s ins :
  0 <= s <= Z.of_nat (List.length l) -> js_splice l s 0 ins = take (Z.to_nat s) l ++ ins ++ drop (Z.to_nat s) l.
Proof.
  intros Hs. unfold js_splice. rewrite (proj2 (Z.ltb_ge s 0)) by lia.
  rewrite Z.min_l by lia. by rewrite Z.max_l, Z.add_0_r by lia.
Qed.

(** Past the end, [splice] inserts at the end. *)
Lemma js_splice_insert_end l s ins :
  Z.of_nat (List.length l) <= s -> js_splice l s 0 ins = l ++ ins.
Proof.
  intros Hs. unfold js_splice. rewrite (proj2 (Z.ltb_ge s 0)) by lia.
  rewrite Z.min_r, Z.max_l, Z.add_0_r, Nat2Z.id, take_ge, drop_ge by lia. by rewrite app_nil_r.
Qed.

(** Inserting never loses nor duplicates an element, wherever it lands. *)
Lemma js_splice_insert_perm l s ins : js_splice l s 0 ins ≡ₚ ins ++ l.
Proof.
  unfold js_splice. set (t := if s <? 0 then _ else _).
  assert (Z.max 0 (Z.min 0 (Z.of_nat (List.length l) - t)) = 0) as -> by lia.
  rewrite Z.add_0_r, app_assoc, (Permutation_app_comm _ ins), <- app_assoc, take_drop. done.
Qed.

Lemma js_splice_remove l n :
  (n < List.length l)%nat -> js_splice l (Z.of_nat n) 1 [] = take n l ++ drop (S n) l.
Proof.
  intros Hn. unfold js_splice. rewrite (proj2 (Z.ltb_ge _ 0)) by lia.
  rewrite Z.min_l by lia. rewrite Z.min_l, Z.max_r by lia.
  rewrite Nat2Z.id. simpl. f_equal. f_equal. lia.
Qed.

(** [splice(-1, 1)] removes the last element. *)
(** Moving the element at [i] to [j] and then back restores the array. *)
Lemma js_splice_move_back l i j x :
  l !! i = Some x -> (j < List.length l)%nat ->
  let moved := js_splice (js_splice l (Z.of_nat i) 1 []) (Z.of_nat j) 0 [x] in
  js_splice (js_splice moved (Z.of_nat j) 1 []) (Z.of_nat i) 0 [x] = l.
Proof.
  intros Hx Hj. pose proof (lookup_lt_Some _ _ _ Hx) as Hi.
  set (l0 := take i l ++ drop (S i) l).
  assert (H0 : S (List.length l0) = List.length l)
    by (unfold l0; rewrite length_app, length_take, length_drop; lia).
  cbv zeta. rewrite (js_splice_remove l i) by done. fold l0.
  rewrite (js_splice_insert l0 (Z.of_nat j)), Nat2Z.id by lia. rewrite js_splice_remove
    by (rewrite !length_app, length_take, length_drop; simpl; lia).
  assert (Ht : List.length (take j l0) = j) by (rewrite length_take; lia).
  rewrite take_app_length' by done. rewrite drop_app_ge by lia. rewrite Ht.
  replace (S j - j)%nat with 1%nat by lia. change (drop 1 ([x] ++ drop j l0)) with (drop j l0). rewrite take_drop.
  rewrite js_splice_insert by lia. rewrite Nat2Z.id. unfold l0.
  rewrite take_app_le, drop_app_le by (rewrite length_take; lia).
  rewrite take_take, Nat.min_id, (drop_ge (take i l)) by (rewrite length_take; lia).
  simpl. by rewrite take_drop_middle.
Qed.

Lemma js_splice_last l : js_splice l (-1) 1 [] = take (pred (List.length l)) l.
Proof.
  unfold js_splice. simpl. destruct l as [|y l]; [done|].
  rewrite (drop_ge (y :: l)); [|simpl; lia]. rewrite app_nil_r. f_equal. simpl List.length. lia.
Qed.

(** In a list without duplicates, removing at [indexOf x] removes [x]. *)
Lemma js_splice_indexOf l x :
  NoDup l -> x ∈ l -> js_splice l (indexOf x l) 1 [] = filter (fun y => y <> x) l.
Proof.
  intros Hnd Hx. destruct (index_of_elem x l Hx) as [n Hn]. unfold indexOf. rewrite Hn.
  destruct (index_of_Some _ _ _ Hn) as [Hl Hnot].
  rewrite js_splice_remove by (eapply lookup_lt_Some; eauto).
  rewrite <- (take_drop n l) at 3. rewrite (drop_S l x n Hl), filter_app, filter_cons.
  rewrite decide_False by (intros Hc; by apply Hc). rewrite !filter_all; [done| |].
  - intros y Hy ->. rewrite <- (take_drop (S n) l), NoDup_app in Hnd.
    destruct Hnd as (_ & Hdisj & _). apply (Hdisj x); [|done].
    erewrite take_S_r by done. set_solver.
  - intros y Hy ->. done.
Qed.

Lemma insert_by_perm key x l : insert_by key x l ≡ₚ x :: l.
Proof.
  induction l as [|y l IH]; simpl; [done|].
  destruct (key x <? key y); [done|]. rewrite IH. by constructor.
Qed.

Lemma sortBy_perm key l : sortBy key l ≡ₚ l.
Proof.
  unfold sortBy. assert (forall acc, fold_left (fun acc x => insert_by key x acc) l acc ≡ₚ l ++ acc)
    as H by (induction l as [|x l IH]; intros acc; simpl; [done|];
             rewrite IH, insert_by_perm; by rewrite Permutation_middle).
  by rewrite H, app_nil_r.
Qed.

(** lodash's [sortBy] sorts: each element's key is at most the keys
    after it. *)
Lemma insert_by_sorted key x l :
  StronglySorted (fun a b => key a <= key b) l ->
  StronglySorted (fun a b => key a <= key b) (insert_by key x l).
Proof.
  induction l as [|y l IH]; intros Hs; simpl; [repeat constructor|].
  apply StronglySorted_cons in Hs as [Hy Hl].
  destruct (Z.ltb_spec (key x) (key y)).
  - apply StronglySorted_cons. split; [|by apply StronglySorted_cons].
    constructor; [lia|]. eapply Forall_impl; [exact Hy|]. simpl. lia.
  - apply StronglySorted_cons. split; [|by apply IH].
    rewrite (insert_by_perm key x l). constructor; [lia|done].
Qed.

Lemma sortBy_sorted key l : StronglySorted (fun a b => key a <= key b) (sortBy key l).
Proof.
  unfold sortBy. assert (forall acc, StronglySorted (fun a b => key a <= key b) acc ->
    StronglySorted (fun a b => key a <= key b) (fold_left (fun acc x => insert_by key x acc) l acc))
    as H by (induction l as [|x l IH]; intros acc Hacc; simpl; [done|]; by apply IH, insert_by_sorted).
  apply H. constructor.
Qed.

Lemma StronglySorted_weaken (R R' : A -> A -> Prop) l :
  (forall a b, a ∈ l -> b ∈ l -> R a b -> R' a b) -> StronglySorted R l -> StronglySorted R' l.
Proof.
  intros HR Hs. induction Hs as [|x l Hs IH Hx]; constructor.
  - apply IH. intros a b Ha Hb. apply HR; set_solver.
  - rewrite Forall_forall in Hx |- *. intros y Hy. apply HR; [set_solver..|]. by apply Hx.
Qed.

Lemma StronglySorted_filter (R : A -> A -> Prop) (P : A -> Prop) `{!forall y, Decision (P y)} l :
  StronglySorted R l -> StronglySorted R (filter P l).
Proof.
  induction 1 as [|x l Hs IH Hx]; [constructor|]. rewrite filter_cons.
  case_decide; [|done]. constructor; [done|].
  rewrite Forall_forall in Hx |- *. intros y Hy. apply list_elem_of_filter in Hy as [_ Hy]. by apply Hx.
Qed.

(** In a list without duplicates, elements come in the order of their
    [indexOf]. *)
Lemma indexOf_sorted l : NoDup l -> StronglySorted (fun a b => indexOf a l <= indexOf b l) l.
Proof.
  induction l as [|x l IH]; intros Hnd; [constructor|]. apply NoDup_cons in Hnd as [Hx Hnd].
  assert (Hshift : forall y, y ∈ l -> indexOf y (x :: l) = indexOf y l + 1).
  { intros y Hy. unfold indexOf. simpl. rewrite decide_False by set_solver.
    destruct (index_of_elem y l Hy) as [n ->]. simpl. lia. }
  constructor.
  - eapply StronglySorted_weaken; [|exact (IH Hnd)].
    intros a b Ha Hb. rewrite !Hshift by done. lia.
  - apply Forall_forall. intros y Hy. rewrite (Hshift y) by done.
    unfold indexOf at 1. simpl. rewrite decide_True by done.
    pose proof (indexOf_bounds y l Hy). lia.
Qed.

Lemma indexOf_inj l a b : a ∈ l -> b ∈ l -> indexOf a l = indexOf b l -> a = b.
Proof.
  intros Ha Hb. destruct (index_of_elem a l Ha) as [n Hn], (index_of_elem b l Hb) as [m Hm].
  unfold indexOf. rewrite Hn, Hm. intros Heq. apply Nat2Z.inj in Heq. subst.
  apply index_of_Some in Hn as [Hn _], Hm as [Hm _]. congruence.
Qed.

End ArrayLemmas.
