(* ===== verification/I18n.v ===== *)
(** * Message interpolation of [@dhis2/d2-i18n]

    [i18n.t(template, vars)] as the modelled code uses it: the English
    locale (the template is its own translation) and i18next's
    interpolation, which replaces each [{{key}}] (or the unescaped form
    [{{- key}}]) by the value of [key].  A placeholder whose key has no
    value is left as written; every call of the modelled code supplies all
    the keys its template names.  HTML escaping is not modelled: no value
    passed by the modelled code contains a character it would escape. *)

From stdpp Require Import base strings list.
From Stdlib Require Import String Ascii Lia.
From S2P Require Import Prelude.

Open Scope string_scope.

(** The key of a placeholder and the text after its closing [}}]. *)
Fixpoint split_close (s : string) : option (string * string) :=
  match s with
  | EmptyString => None
  | String "}" (String "}" rest) => Some (EmptyString, rest)
  | String c rest =>
      match split_close rest with
      | Some (k, r) => Some (String c k, r)
      | None => None
      end
  end.

Fixpoint drop_spaces (cs : list ascii) : list ascii :=
  match cs with
  | " "%char :: cs' => drop_spaces cs'
  | _ => cs
  end.

Definition trim (s : string) : string :=
  string_of_list_ascii (rev (drop_spaces (rev (drop_spaces (list_ascii_of_string s))))).

(** [{{- key}}] marks an unescaped value; the key is trimmed. *)
Definition norm_key (k : string) : string :=
  match k with
  | String "-" k' => trim k'
  | _ => trim k
  end.

Fixpoint lookup_var (k : string) (vars : list (string * string)) : option string :=
  match vars with
  | [] => None
  | (k', v) :: vars' => if String.eqb k k' then Some v else lookup_var k vars'
  end.

(** One pass over the template: [{{key}}] is replaced by the value of
    [key], any other character is copied.  Every step consumes at least
    one character, so the template's length is enough fuel
    ([interpolate_fuel] below). *)
Fixpoint interpolate (fuel : nat) (vars : list (string * string)) (s : string) : string :=
  match fuel with
  | O => s
  | S fuel' =>
      match s with
      | EmptyString => EmptyString
      | String c rest =>
          let copy := String c (interpolate fuel' vars rest) in
          if Ascii.eqb c "{" then
            match rest with
            | String c2 rest2 =>
                if Ascii.eqb c2 "{" then
                  match split_close rest2 with
                  | Some (k, rest') =>
                      let tail := interpolate fuel' vars rest' in
                      match lookup_var (norm_key k) vars with
                      | Some v => v ++ tail
                      | None => "{{" ++ k ++ "}}" ++ tail
                      end
                  | None => s
                  end
                else copy
            | EmptyString => copy
            end
          else copy
      end
  end.

Definition i18n_t (template : string) (vars : list (string * string)) : string :=
  interpolate (String.length template) vars template.

(** ** Lemmas *)

(** A character other than an opening brace is copied as it is. *)
Lemma interpolate_plain_char fuel vars c s :
  c <> "{"%char -> interpolate (S fuel) vars (String c s) = String c (interpolate fuel vars s).
Proof. intros Hc. simpl. by rewrite (proj2 (Ascii.eqb_neq c "{"%char) Hc). Qed.

Lemma split_close_length s k r : split_close s = Some (k, r) -> String.length r < String.length s.
Proof.
  revert k. induction s as [|c s IH]; intros k; simpl; [discriminate|].
  destruct (split_close s) as [[k' r']|] eqn:E.
  - destruct c as [[] [] [] [] [] [] [] []]; try (intros [= _ <-]; specialize (IH _ eq_refl); lia).
    destruct s as [|c' s']; [discriminate|].
    destruct c' as [[] [] [] [] [] [] [] []]; intros [= _ <-]; simpl in *;
      try (specialize (IH _ eq_refl); lia); lia.
  - destruct c as [[] [] [] [] [] [] [] []]; try discriminate.
    destruct s as [|c' s']; [discriminate|].
    destruct c' as [[] [] [] [] [] [] [] []]; try discriminate. intros [= _ <-]. simpl. lia.
Qed.

(** Any fuel of at least the template's length gives the same result: the
    fuel [i18n_t] passes is enough. *)
Lemma interpolate_fuel n m vars s :
  String.length s <= n -> String.length s <= m -> interpolate n vars s = interpolate m vars s.
Proof.
  revert m s. induction n as [|n IH]; intros m s Hn Hm.
  { destruct s; simpl in Hn; [|lia]. by destruct m. }
  destruct m as [|m]; [destruct s; simpl in Hm; [done|lia]|].
  destruct s as [|c rest]; [done|]. simpl in Hn, Hm. simpl.
  assert (Hcopy : interpolate n vars rest = interpolate m vars rest) by (apply IH; lia).
  rewrite Hcopy. destruct (Ascii.eqb c "{"); [|done].
  destruct rest as [|c2 rest2]; [done|]. destruct (Ascii.eqb c2 "{"); [|done].
  destruct (split_close rest2) as [[k r]|] eqn:Hs; [|done].
  apply split_close_length in Hs. simpl in Hn, Hm.
  rewrite (IH m r) by lia. done.
Qed.
