(* ===== verification/Constants.v ===== *)
(** * Constants the modelled code imports from modules outside the sources

    Chart types ([modules/chartTypes]), field and property names
    ([modules/fields/baseFields], [modules/layout]), the fixed dimension ids
    and names ([modules/fixedDimensions], [@dhis2/analytics]) and the axis
    labels of the layout menus.  They are written down here once so that
    every component reads the same value. *)

From stdpp Require Import base strings.
From Stdlib Require Import String.

Open Scope string_scope.

(** [modules/chartTypes] *)
Definition PIE : string := "PIE".
Definition YEAR_OVER_YEAR_LINE : string := "YEAR_OVER_YEAR_LINE".
Definition YEAR_OVER_YEAR_COLUMN : string := "YEAR_OVER_YEAR_COLUMN".

(** [modules/fields/baseFields] *)
Definition BASE_FIELD_YEARLY_SERIES : string := "yearlySeries".

(** [modules/layout] *)
Definition DIMENSION_ID_PROP_NAME : string := "dimension".
Definition DIMENSION_ITEMS_PROP_NAME : string := "items".
Definition menuLabels_columns : string := "Series".
Definition menuLabels_rows : string := "Category".
Definition menuLabels_filters : string := "Filter".

(** The fixed dimensions ([modules/fixedDimensions], [@dhis2/analytics]). *)
Definition DIMENSION_ID_DATA : string := "dx".
Definition DIMENSION_ID_PERIOD : string := "pe".
Definition DIMENSION_ID_ORGUNIT : string := "ou".
Definition DIMENSION_ID_ASSIGNED_CATEGORIES : string := "co".
Definition ALL_DYNAMIC_DIMENSION_ITEMS : string := "ALL_ITEMS".
Definition FIXED_DIMENSIONS_dx_name : string := "Data".
