(* ===== verification/LayoutValidation.v ===== *)
(** * The layout validator ([modules/layoutValidation.js])

    [validateLayout] dispatches on the chart type and checks, in order, the
    axes and the period dimension the chart needs, throwing
    [new Error(message)] at the first check that fails.  The operations
    below follow the source function by function over untyped
    JavaScript values ([JsValue]); [Spec] states, over typed layouts, the
    rules the validator promises, and [validateLayout_refines] proves that
    the code implements them. *)

From stdpp Require Import base strings list sets.
From Stdlib Require Import String Ascii ZArith Lia.
From S2P Require Import Prelude JsValue I18n Constants.

Open Scope string_scope.

Module LayoutValidation.

(** ** Error labels (lines 13-65) *)

Definition dxName : string := FIXED_DIMENSIONS_dx_name.
Definition peId : string := DIMENSION_ID_PERIOD.

Inductive error_label : Type :=
| defaultSeries
| defaultCategory
| defaultPeriod
| pie_data
| pie_period
| pie_filter
| yearOverYear_seriesPeriod
| yearOverYear_categoryPeriod
| yearOverYear_data.

Definition errorLabels (l : error_label) : string :=
  match l with
  | defaultSeries =>
      i18n_t "Please add at least one {{series}} dimension" [("series", menuLabels_columns)]
  | defaultCategory =>
      i18n_t "Please add at least one {{category}} dimension" [("category", menuLabels_rows)]
  | defaultPeriod =>
      i18n_t "Please add at least one period as {series}}, {{category}} or {{filter}}"
        [("series", menuLabels_columns); ("category", menuLabels_rows);
         ("filter", menuLabels_filters)]
  | pie_data =>
      i18n_t "Please add {{data}} as {{category}} or {{filter}}"
        [("data", dxName); ("category", menuLabels_rows); ("filter", menuLabels_filters)]
  | pie_period =>
      i18n_t "Please add at least one period as {{category}} or {{filter}}"
        [("category", menuLabels_rows); ("filter", menuLabels_filters)]
  | pie_filter =>
      i18n_t "Please add at least one {{filter}} dimension" [("filter", menuLabels_filters)]
  | yearOverYear_seriesPeriod =>
      i18n_t "Please add at least one period as a {{series}} dimension"
        [("series", menuLabels_columns)]
  | yearOverYear_categoryPeriod =>
      i18n_t "Please add at least one period as a {{category}} dimension"
        [("category", menuLabels_rows)]
  | yearOverYear_data =>
      i18n_t "Please add {{data}} as a filter dimension" [("data", dxName)]
  end.

(** The messages are computed once, when the module is loaded; proofs treat
    them as constants. *)
Arguments errorLabels : simpl never.

(** ** Validity predicates (lines 67-80) *)

Definition isItemValid (item : jsval) : bool :=
  isObject item && String.eqb (typeof (prop_of item "id")) "string".

Definition isDimensionValid (dim : jsval) : bool :=
  isObject dim &&
  String.eqb (typeof (prop_of dim DIMENSION_ID_PROP_NAME)) "string" &&
  isArray (prop_of dim DIMENSION_ITEMS_PROP_NAME) &&
  isItemValid (elem0 (prop_of dim DIMENSION_ITEMS_PROP_NAME)).

Definition isAxisValid (axis : jsval) : bool :=
  isArray axis && isDimensionValid (elem0 axis).

(** ** Checks that throw (lines 82-97) *)

Definition validateDimension (dimension : jsval) (message : string) : js_result unit :=
  if negb (truthy dimension && isDimensionValid dimension)
  then throw (Error message) else Ok tt.

Definition validateAxis (axis : jsval) (message : string) : js_result unit :=
  if negb (isAxisValid axis) then throw (Error message) else Ok tt.

Definition findDimension (layout : jsval) (dimensionId : string) : js_result jsval :=
  cols <- get_prop layout "columns" ;; c <- iter_list cols ;;
  rows <- get_prop layout "rows" ;; r <- iter_list rows ;;
  fils <- get_prop layout "filters" ;; f <- iter_list fils ;;
  js_find (fun dim => d <- get_prop dim "dimension" ;; Ok (eq_str d dimensionId))
    (c ++ r ++ f).

(** ** Layout validation (lines 99-137) *)

Definition validateDefaultLayout (layout : jsval) : js_result unit :=
  cols <- get_prop layout "columns" ;;
  validateAxis cols (errorLabels defaultSeries) ;;;
  rows <- get_prop layout "rows" ;;
  validateAxis rows (errorLabels defaultCategory) ;;;
  d <- findDimension layout peId ;;
  validateDimension d (errorLabels defaultPeriod).

Definition validateYearOverYearLayout (layout : jsval) : js_result unit :=
  ys <- get_prop layout BASE_FIELD_YEARLY_SERIES ;;
  (if negb (isArray ys && String.eqb (typeof (elem0 ys)) "string")
   then throw (Error (errorLabels yearOverYear_seriesPeriod)) else Ok tt) ;;;
  rows <- get_prop layout "rows" ;;
  validateAxis rows (errorLabels yearOverYear_categoryPeriod) ;;;
  cols <- get_prop layout "columns" ;;
  validateAxis cols (errorLabels yearOverYear_data).

Definition validatePieLayout (layout : jsval) : js_result unit :=
  rows <- get_prop layout "rows" ;;
  validateAxis rows (errorLabels defaultCategory) ;;;
  fils <- get_prop layout "filters" ;;
  validateAxis fils (errorLabels pie_filter) ;;;
  d <- findDimension layout peId ;;
  validateDimension d (errorLabels pie_period).

Definition validateLayout (layout : jsval) : js_result unit :=
  t <- get_prop layout "type" ;;
  if eq_str t PIE then validatePieLayout layout
  else if eq_str t YEAR_OVER_YEAR_COLUMN || eq_str t YEAR_OVER_YEAR_LINE
  then validateYearOverYearLayout layout
  else validateDefaultLayout layout.

End LayoutValidation.

(** ** The contract, over typed layouts

    A layout as the app builds it: every dimension carries a string id and
    a list of items with string ids.  [layout_errors] lists the rules of
    each chart type in the order they are checked and returns the label of
    the first rule that fails. *)
Module Spec.
Import LayoutValidation.

Record item := mkItem { item_id : string; item_name : string }.
Record dimension := mkDim { dim_id : string; dim_items : list item }.
Record layout := mkLayout {
  l_type : string;
  l_columns : list dimension;
  l_rows : list dimension;
  l_filters : list dimension;
  l_yearlySeries : list string }.

Definition item_to_js (i : item) : jsval :=
  JObj [("id", JStr (item_id i)); ("name", JStr (item_name i))].
Definition dim_to_js (d : dimension) : jsval :=
  JObj [(DIMENSION_ID_PROP_NAME, JStr (dim_id d));
        (DIMENSION_ITEMS_PROP_NAME, JArr (map item_to_js (dim_items d)))].
Definition axis_to_js (a : list dimension) : jsval := JArr (map dim_to_js a).
Definition layout_to_js (L : layout) : jsval :=
  JObj [("type", JStr (l_type L));
        ("columns", axis_to_js (l_columns L));
        ("rows", axis_to_js (l_rows L));
        ("filters", axis_to_js (l_filters L));
        (BASE_FIELD_YEARLY_SERIES, JArr (map JStr (l_yearlySeries L)))].

(** A dimension is valid when it has an item; an axis when its first
    dimension is valid; the period rule looks at the first dimension with
    the period id across columns, rows and filters. *)
Definition dim_valid (d : dimension) : bool :=
  match dim_items d with [] => false | _ :: _ => true end.
Definition axis_valid (a : list dimension) : bool :=
  match a with [] => false | d :: _ => dim_valid d end.
Definition all_dims (L : layout) : list dimension := l_columns L ++ l_rows L ++ l_filters L.
Definition period_dim (L : layout) : option dimension :=
  find (fun d => String.eqb (dim_id d) peId) (all_dims L).
Definition period_valid (L : layout) : bool :=
  match period_dim L with Some d => dim_valid d | None => false end.

Definition first_error (rules : list (bool * error_label)) : option error_label :=
  match find (fun r => negb r.1) rules with Some r => Some r.2 | None => None end.

Definition layout_errors (L : layout) : option error_label :=
  if String.eqb (l_type L) PIE then
    first_error [(axis_valid (l_rows L), defaultCategory);
                 (axis_valid (l_filters L), pie_filter);
                 (period_valid L, pie_period)]
  else if String.eqb (l_type L) YEAR_OVER_YEAR_COLUMN
          || String.eqb (l_type L) YEAR_OVER_YEAR_LINE then
    first_error [(match l_yearlySeries L with [] => false | _ :: _ => true end, yearOverYear_seriesPeriod);
                 (axis_valid (l_rows L), yearOverYear_categoryPeriod);
                 (axis_valid (l_columns L), yearOverYear_data)]
  else
    first_error [(axis_valid (l_columns L), defaultSeries);
                 (axis_valid (l_rows L), defaultCategory);
                 (period_valid L, defaultPeriod)].

Definition outcome (e : option error_label) : js_result unit :=
  match e with None => Ok tt | Some l => throw (Error (errorLabels l)) end.

End Spec.

Module Facts.
Import LayoutValidation Spec.

Lemma isDimensionValid_dim_to_js d : isDimensionValid (dim_to_js d) = dim_valid d.
Proof. by destruct d as [? []]. Qed.

Lemma isAxisValid_axis_to_js a : isAxisValid (axis_to_js a) = axis_valid a.
Proof. destruct a as [|d a]; [done|]. apply isDimensionValid_dim_to_js. Qed.

Lemma findDimension_layout_to_js L id :
  findDimension (layout_to_js L) id =
  Ok (match find (fun d => String.eqb (dim_id d) id) (all_dims L) with
      | Some d => dim_to_js d | None => JUndefined end).
Proof.
  unfold findDimension, all_dims. simpl.
  rewrite <- !map_app. by apply js_find_map.
Qed.

Lemma validateDimension_period L msg :
  validateDimension (match period_dim L with Some d => dim_to_js d | None => JUndefined end) msg
  = if period_valid L then Ok tt else throw (Error msg).
Proof.
  unfold period_valid, validateDimension.
  destruct (period_dim L) as [d|]; [|done].
  rewrite isDimensionValid_dim_to_js. simpl. by destruct (dim_valid d).
Qed.

Lemma validateAxis_axis_to_js a msg :
  validateAxis (axis_to_js a) msg = if axis_valid a then Ok tt else throw (Error msg).
Proof. unfold validateAxis. rewrite isAxisValid_axis_to_js. by destruct (axis_valid a). Qed.

Lemma findDimension_period L :
  findDimension (layout_to_js L) peId =
  Ok (match period_dim L with Some d => dim_to_js d | None => JUndefined end).
Proof. apply findDimension_layout_to_js. Qed.

Lemma get_type L : get_prop (layout_to_js L) "type" = Ok (JStr (l_type L)).
Proof. reflexivity. Qed.
Lemma get_columns L : get_prop (layout_to_js L) "columns" = Ok (axis_to_js (l_columns L)).
Proof. reflexivity. Qed.
Lemma get_rows L : get_prop (layout_to_js L) "rows" = Ok (axis_to_js (l_rows L)).
Proof. reflexivity. Qed.
Lemma get_filters L : get_prop (layout_to_js L) "filters" = Ok (axis_to_js (l_filters L)).
Proof. reflexivity. Qed.
Lemma get_yearlySeries L :
  get_prop (layout_to_js L) BASE_FIELD_YEARLY_SERIES = Ok (JArr (map JStr (l_yearlySeries L))).
Proof. reflexivity. Qed.

#[export] Hint Rewrite get_type get_columns get_rows get_filters get_yearlySeries
  findDimension_period : dv_rw.

(** [validateLayout] on a typed layout, one chart type at a time. *)
Lemma validateLayout_dispatch L :
  validateLayout (layout_to_js L) =
  if String.eqb (l_type L) PIE then validatePieLayout (layout_to_js L)
  else if String.eqb (l_type L) YEAR_OVER_YEAR_COLUMN || String.eqb (l_type L) YEAR_OVER_YEAR_LINE
  then validateYearOverYearLayout (layout_to_js L)
  else validateDefaultLayout (layout_to_js L).
Proof. unfold validateLayout. by autorewrite with dv_rw. Qed.

Lemma validatePieLayout_typed L :
  validatePieLayout (layout_to_js L) =
  outcome (first_error [(axis_valid (l_rows L), defaultCategory);
                        (axis_valid (l_filters L), pie_filter);
                        (period_valid L, pie_period)]).
Proof.
  unfold validatePieLayout. autorewrite with dv_rw. cbn [rbind]. rewrite !validateAxis_axis_to_js.
  destruct (axis_valid (l_rows L)), (axis_valid (l_filters L)); simpl; try done.
  rewrite validateDimension_period. by destruct (period_valid L).
Qed.

Lemma validateYearOverYearLayout_typed L :
  validateYearOverYearLayout (layout_to_js L) =
  outcome (first_error [(match l_yearlySeries L with [] => false | _ :: _ => true end,
                         yearOverYear_seriesPeriod);
                        (axis_valid (l_rows L), yearOverYear_categoryPeriod);
                        (axis_valid (l_columns L), yearOverYear_data)]).
Proof.
  unfold validateYearOverYearLayout. autorewrite with dv_rw. cbn [rbind].
  rewrite !validateAxis_axis_to_js. destruct (l_yearlySeries L); simpl; [done|].
  by destruct (axis_valid (l_rows L)), (axis_valid (l_columns L)).
Qed.

Lemma validateDefaultLayout_typed L :
  validateDefaultLayout (layout_to_js L) =
  outcome (first_error [(axis_valid (l_columns L), defaultSeries);
                        (axis_valid (l_rows L), defaultCategory);
                        (period_valid L, defaultPeriod)]).
Proof.
  unfold validateDefaultLayout. autorewrite with dv_rw. cbn [rbind].
  rewrite !validateAxis_axis_to_js.
  destruct (axis_valid (l_columns L)), (axis_valid (l_rows L)); simpl; try done.
  rewrite validateDimension_period. by destruct (period_valid L).
Qed.

(** C1: on every typed layout, [validateLayout] returns normally exactly
    when every rule of the layout's chart type holds, and otherwise throws
    [new Error] with the message of the first rule that fails, in the
    order the code checks them; it never raises a [TypeError]. *)
Theorem validateLayout_refines (L : layout) :
  validateLayout (layout_to_js L) = outcome (layout_errors L).
Proof.
  rewrite validateLayout_dispatch, validatePieLayout_typed, validateYearOverYearLayout_typed,
    validateDefaultLayout_typed.
  unfold layout_errors. destruct (String.eqb (l_type L) PIE); [done|].
  by destruct (String.eqb (l_type L) YEAR_OVER_YEAR_COLUMN || String.eqb (l_type L) YEAR_OVER_YEAR_LINE).
Qed.

Lemma isAxisValid_array axis : isAxisValid axis = true -> exists xs, axis = JArr xs.
Proof. destruct axis; simpl; try discriminate. eauto. Qed.

(** Every exception [findDimension] raises is a [TypeError]. *)
Lemma findDimension_raises layout id : raises_only (fun e => e = TypeError) (findDimension layout id).
Proof.
  assert (Hget : forall v k, raises_only (fun e => e = TypeError) (get_prop v k)).
  { intros v k. unfold get_prop. destruct (is_nullish v); [by apply raises_only_err | auto with dv]. }
  assert (Hiter : forall v, raises_only (fun e => e = TypeError) (iter_list v)).
  { intros []; simpl; auto with dv; by apply raises_only_err. }
  unfold findDimension. repeat (apply raises_only_bind; [by auto|intros ?]).
  match goal with |- raises_only _ (js_find _ ?l) => induction l as [|x xs IH] end;
    simpl; auto with dv.
Qed.

Lemma validateAxis_raises axis msg :
  raises_only (fun e => e = Error msg) (validateAxis axis msg).
Proof. unfold validateAxis. destruct (negb _); [by apply raises_only_err | auto with dv]. Qed.

Lemma validateDimension_raises d msg :
  raises_only (fun e => e = Error msg) (validateDimension d msg).
Proof. unfold validateDimension. destruct (negb _); [by apply raises_only_err | auto with dv]. Qed.

Lemma get_prop_raises v k : raises_only (fun e => e = TypeError) (get_prop v k).
Proof. unfold get_prop. destruct (is_nullish v); [by apply raises_only_err | auto with dv]. Qed.

(** C2: the only exceptions [validateLayout] raises, on any JavaScript
    value, are a [TypeError] and [new Error(m)] where [m] is one of the
    error messages of [errorLabels] other than the unused pie [data] one. *)
Theorem validateLayout_raises (layout : jsval) :
  raises_only (fun e => e = TypeError \/ exists l, l <> pie_data /\ e = Error (errorLabels l))
    (validateLayout layout).
Proof.
  pose proof findDimension_raises. pose proof get_prop_raises.
  pose proof validateAxis_raises. pose proof validateDimension_raises.
  unfold validateLayout, validatePieLayout, validateYearOverYearLayout, validateDefaultLayout.
  repeat raises_step; try (eapply raises_only_weaken; [|eauto]; intros e ->);
    try by left.
  all: right; eexists; split; [|reflexivity]; discriminate.
Qed.

(** An axis is valid exactly when it is an array whose first element
    is a valid dimension; the elements after the first are never looked at. *)
Theorem isAxisValid_first_only (axis : jsval) :
  isAxisValid axis = true <->
  exists d rest, axis = JArr (d :: rest) /\ isDimensionValid d = true.
Proof.
  split.
  - destruct axis as [| | | | |[|d rest]|]; simpl; try discriminate. eauto.
  - by intros (d & rest & -> & Hd).
Qed.

Lemma period_dim_valid L d : period_dim L = Some d -> period_valid L = dim_valid d.
Proof. unfold period_valid. by intros ->. Qed.

(** When no dimension id occurs twice, the first period dimension is the
    only one, so the period rule holds exactly when some dimension with the
    period id has an item. *)
Lemma period_valid_unique (L : layout) :
  NoDup (map dim_id (all_dims L)) ->
  period_valid L = existsb (fun d => String.eqb (dim_id d) peId && dim_valid d) (all_dims L).
Proof.
  intros Hnd. apply Bool.eq_iff_eq_true. rewrite existsb_exists. split.
  - unfold period_valid. destruct (period_dim L) as [d|] eqn:Hp; [|discriminate].
    intros Hv. apply (find_eqb_NoDup dim_id) in Hp as [Hin Hid]; [|done].
    exists d. split; [by apply list_elem_of_In|]. rewrite Hid, String.eqb_refl. done.
  - intros (d & Hin & Hd). apply andb_true_iff in Hd as [Hid Hv]. apply String.eqb_eq in Hid.
    assert (Hp : period_dim L = Some d) by (apply find_eqb_NoDup; [done|]; split; [by apply list_elem_of_In | done]).
    by rewrite (period_dim_valid _ _ Hp).
Qed.

(** C3: for a default chart with valid columns and rows in which no
    dimension id occurs twice across columns, rows and filters,
    [validateLayout] accepts the layout exactly when some dimension with
    the period id, on any of the three axes, has an item (the spec's rule),
    and otherwise throws the period message. *)
Theorem validateLayout_period_unique (L : layout) :
  String.eqb (l_type L) PIE = false ->
  String.eqb (l_type L) YEAR_OVER_YEAR_COLUMN = false ->
  String.eqb (l_type L) YEAR_OVER_YEAR_LINE = false ->
  axis_valid (l_columns L) = true -> axis_valid (l_rows L) = true ->
  NoDup (map dim_id (all_dims L)) ->
  validateLayout (layout_to_js L) =
    if existsb (fun d => String.eqb (dim_id d) peId && dim_valid d) (all_dims L)
    then Ok tt else throw (Error (errorLabels defaultPeriod)).
Proof.
  intros Hp Hc Hl Hcols Hrows Hnd.
  rewrite validateLayout_dispatch, Hp, Hc, Hl, validateDefaultLayout_typed, Hcols, Hrows.
  rewrite (period_valid_unique L Hnd). unfold first_error. simpl.
  by destruct (existsb _ _).
Qed.

Definition ex_item (id : string) : item := mkItem id id.
Definition ex_dim (id : string) (items : list string) : dimension := mkDim id (map ex_item items).

(** The period dimension is a filter. *)
Definition period_filter_layout : layout :=
  mkLayout "COLUMN" [ex_dim "dx" ["d1"]] [ex_dim "ou" ["USER_ORGUNIT"]]
    [ex_dim "pe" ["LAST_12_MONTHS"]] [].

Lemma validateLayout_period_unique_witness :
  validateLayout (layout_to_js period_filter_layout) = Ok tt.
Proof.
  rewrite (validateLayout_period_unique period_filter_layout); [reflexivity ..|].
  decide_true.
Defined.

(** C4: the period rule of a default chart inspects only the first
    dimension with the period id: when that one has no item the layout is
    rejected with the period message, whatever later dimensions hold. *)
Theorem period_first_match_only (L : layout) (d : dimension) :
  String.eqb (l_type L) PIE = false ->
  String.eqb (l_type L) YEAR_OVER_YEAR_COLUMN = false ->
  String.eqb (l_type L) YEAR_OVER_YEAR_LINE = false ->
  axis_valid (l_columns L) = true -> axis_valid (l_rows L) = true ->
  period_dim L = Some d -> dim_items d = [] ->
  validateLayout (layout_to_js L) = throw (Error (errorLabels defaultPeriod)).
Proof.
  intros Hp Hc Hl Hcols Hrows Hd Hi.
  rewrite validateLayout_dispatch, Hp, Hc, Hl, validateDefaultLayout_typed. unfold period_valid.
  by rewrite Hcols, Hrows, Hd; unfold dim_valid; rewrite Hi.
Qed.

Definition dup_period_layout : layout :=
  mkLayout "COLUMN" [ex_dim "dx" ["d1"]; ex_dim "pe" []] [ex_dim "ou" ["USER_ORGUNIT"]]
    [ex_dim "pe" ["LAST_12_MONTHS"]] [].

Lemma period_first_match_only_witness :
  ex_dim "pe" ["LAST_12_MONTHS"] ∈ all_dims dup_period_layout /\
  validateLayout (layout_to_js dup_period_layout) = throw (Error (errorLabels defaultPeriod)).
Proof.
  split; [apply list_elem_of_In; simpl; tauto|].
  apply (period_first_match_only dup_period_layout (ex_dim "pe" [])); reflexivity.
Defined.

(** C5: a default chart whose [filters] field is missing (or any other
    non-iterable value) raises a [TypeError] from the period lookup even
    when its columns and rows are valid axes, instead of a validation
    message. *)
Theorem validateLayout_filters_not_iterable (layout t cols rows fils : jsval) :
  get_prop layout "type" = Ok t ->
  eq_str t PIE = false -> eq_str t YEAR_OVER_YEAR_COLUMN = false ->
  eq_str t YEAR_OVER_YEAR_LINE = false ->
  get_prop layout "columns" = Ok cols -> get_prop layout "rows" = Ok rows ->
  get_prop layout "filters" = Ok fils ->
  isAxisValid cols = true -> isAxisValid rows = true -> iter_list fils = throw TypeError ->
  validateLayout layout = throw TypeError.
Proof.
  intros Ht Hp Hc Hl Hcols Hrows Hfils Vc Vr Hit.
  destruct (isAxisValid_array _ Vc) as [cs ->]. destruct (isAxisValid_array _ Vr) as [rs ->].
  unfold validateLayout, validateDefaultLayout, findDimension, validateAxis.
  rewrite Ht; cbn [rbind]. rewrite Hp, Hc, Hl; cbn [orb].
  rewrite Hcols; cbn [rbind]. rewrite Vc; cbn [negb rbind].
  rewrite Hrows; cbn [rbind]. rewrite Vr; cbn [negb rbind].
  cbn [iter_list rbind]. rewrite Hfils. cbn [rbind]. by rewrite Hit.
Qed.

Definition no_filters_layout : jsval :=
  JObj [("type", JStr "COLUMN");
        ("columns", axis_to_js [ex_dim "dx" ["d1"]]);
        ("rows", axis_to_js [ex_dim "pe" ["LAST_12_MONTHS"]])].

Lemma validateLayout_filters_not_iterable_witness :
  validateLayout no_filters_layout = throw TypeError.
Proof.
  apply (validateLayout_filters_not_iterable no_filters_layout (JStr "COLUMN")
           (axis_to_js [ex_dim "dx" ["d1"]]) (axis_to_js [ex_dim "pe" ["LAST_12_MONTHS"]])
           JUndefined); reflexivity.
Defined.

(** The nine messages of [errorLabels] are pairwise distinct, so the
    message a caller catches tells which rule failed. *)
Theorem errorLabels_inj (l1 l2 : error_label) : errorLabels l1 = errorLabels l2 -> l1 = l2.
Proof. destruct l1, l2; intros H; try reflexivity; vm_compute in H; discriminate H. Qed.




(** C6: a year-over-year chart (column or line) with its period series
    and a valid category axis but no columns is rejected with the message
    asking to add the data dimension as a filter, although the rule that
    fails is on the columns, and whatever the filters already hold. *)
Theorem yearOverYear_columns_message (L : layout) :
  (String.eqb (l_type L) YEAR_OVER_YEAR_COLUMN || String.eqb (l_type L) YEAR_OVER_YEAR_LINE) = true ->
  l_yearlySeries L <> [] -> axis_valid (l_rows L) = true -> l_columns L = [] ->
  validateLayout (layout_to_js L) = throw (Error "Please add Data as a filter dimension").
Proof.
  intros Ht Hys Hrows Hcols.
  assert (Hp : String.eqb (l_type L) PIE = false).
  { apply orb_true_iff in Ht as [Ht|Ht]; apply String.eqb_eq in Ht; by rewrite Ht. }
  rewrite validateLayout_dispatch, Hp, Ht, validateYearOverYearLayout_typed, Hrows, Hcols.
  destruct (l_yearlySeries L); [done|]. vm_compute. reflexivity.
Qed.

Definition yoy_data_as_filter : layout :=
  mkLayout YEAR_OVER_YEAR_LINE [] [ex_dim "pe" ["MONTHS_THIS_YEAR"]]
    [ex_dim "dx" ["d1"]] ["THIS_YEAR"; "LAST_YEAR"].

Lemma yearOverYear_columns_message_witness :
  axis_valid (l_filters yoy_data_as_filter) = true /\
  validateLayout (layout_to_js yoy_data_as_filter) =
    throw (Error "Please add Data as a filter dimension").
Proof.
  split; [reflexivity|].
  apply yearOverYear_columns_message; [reflexivity | discriminate | reflexivity | reflexivity].
Defined.

End Facts.
