(* ===== verification/AxisItems.v ===== *)
(** * The axis-item adapter ([adaptAxisItems] in [actions/index.js])

    Before a fetched visualization is published to the store, the load
    thunk passes each of its axes through [adaptAxisItems]: every dimension
    object is copied with [{...ai, items: ...}], keeping its items when the
    list is non-empty, giving [null] to the four fixed dimensions whose
    items are resolved later, and the placeholder item "All items" to any
    other dimension.  The model follows the source over untyped values, with
    the [TypeError]s it raises. *)

From stdpp Require Import base strings list.
From Stdlib Require Import String ZArith Lia.
From S2P Require Import Prelude JsValue I18n Constants.

Open Scope string_scope.

Module AxisItems.

Definition reservedDimensionIds : list string :=
  [DIMENSION_ID_DATA; DIMENSION_ID_PERIOD; DIMENSION_ID_ORGUNIT;
   DIMENSION_ID_ASSIGNED_CATEGORIES].

Definition allItemsPlaceholder : jsval :=
  JArr [JObj [("id", JStr ALL_DYNAMIC_DIMENSION_ITEMS); ("name", JStr (i18n_t "All items" []))]].

(** The callback [(ai) => ({...ai, items: ...})] of lines 62-79. *)
Definition adaptItem (ai : jsval) : js_result jsval :=
  items <- (if truthy (opt_get (opt_get ai "items") "length")
            then get_prop ai "items"
            else d <- get_prop ai "dimension" ;;
                 Ok (if negb (includes_str reservedDimensionIds d)
                     then allItemsPlaceholder else JNull)) ;;
  Ok (JObj (obj_set "items" items (spread_fields ai))).

(** [(axis || []).map(...)]: a falsy axis reads as [[]]; a truthy value
    that is not an array has no [map] method. *)
Definition adaptAxisItems (axis : jsval) : js_result (list jsval) :=
  match (if truthy axis then axis else JArr []) with
  | JArr xs => js_map adaptItem xs
  | _ => throw TypeError
  end.

End AxisItems.

Module AxisItemsFacts.
Import AxisItems.

Definition items_length_truthy (v : jsval) : bool :=
  truthy (opt_get (opt_get v "items") "length").

Lemma prop_of_obj_set_items fs v :
  prop_of (JObj (obj_set "items" v fs)) "items" = v.
Proof. cbn [prop_of]. by rewrite assoc_obj_set_eq. Qed.

Lemma prop_of_obj_set_other fs v k :
  k <> "items" -> prop_of (JObj (obj_set "items" v fs)) k = prop_of (JObj fs) k.
Proof. intros Hk. cbn [prop_of]. rewrite assoc_obj_set_ne; [done|]. congruence. Qed.

Lemma placeholder_length_truthy : truthy (opt_get allItemsPlaceholder "length") = true.
Proof. reflexivity. Qed.

(** One step of the adapter, case by case. *)
Lemma adaptItem_Ok ai y :
  adaptItem ai = Ok y ->
  y = JObj (obj_set "items"
              (if items_length_truthy ai then prop_of ai "items"
               else if includes_str reservedDimensionIds (prop_of ai "dimension")
                    then JNull else allItemsPlaceholder)
              (spread_fields ai)) /\
  is_nullish ai = false.
Proof.
  unfold adaptItem, items_length_truthy, get_prop.
  destruct (is_nullish ai) eqn:Hn.
  - destruct ai; try discriminate; simpl; discriminate.
  - destruct (truthy _); simpl; intros [= <-]; [done|].
    by destruct (includes_str _ _).
Qed.

Lemma items_length_truthy_set it fs :
  items_length_truthy (JObj (obj_set "items" it fs)) = truthy (opt_get it "length").
Proof. unfold items_length_truthy. cbn [opt_get is_nullish negb]. by rewrite prop_of_obj_set_items. Qed.

Lemma items_length_truthy_nonnull ai :
  is_nullish ai = false -> items_length_truthy ai = truthy (opt_get (prop_of ai "items") "length").
Proof. unfold items_length_truthy, opt_get at 2. by intros ->. Qed.

(** A dimension id read through the copy [{...ai}] is the id of [ai]
    itself whenever it is one of the fixed ids (so [ai] is an object). *)
Lemma spread_dimension_reserved ai :
  includes_str reservedDimensionIds (prop_of ai "dimension") = true ->
  prop_of (JObj (spread_fields ai)) "dimension" = prop_of ai "dimension".
Proof. destruct ai; simpl; try discriminate; done. Qed.

Lemma opt_get_obj fs k : opt_get (JObj fs) k = prop_of (JObj fs) k.
Proof. reflexivity. Qed.

Lemma get_prop_obj' fs k : get_prop (JObj fs) k = Ok (prop_of (JObj fs) k).
Proof. reflexivity. Qed.

(** The adapter on an object that already went through it once. *)
Lemma adaptItem_set it fs :
  adaptItem (JObj (obj_set "items" it fs)) =
  Ok (JObj (obj_set "items"
              (if truthy (opt_get it "length") then it
               else if includes_str reservedDimensionIds (prop_of (JObj fs) "dimension")
                    then JNull else allItemsPlaceholder) fs)).
Proof.
  unfold adaptItem. rewrite opt_get_obj, prop_of_obj_set_items.
  destruct (truthy (opt_get it "length")).
  - rewrite get_prop_obj', prop_of_obj_set_items. simpl. by rewrite obj_set_obj_set.
  - rewrite get_prop_obj', prop_of_obj_set_other by discriminate. simpl.
    destruct (includes_str _ _); simpl; by rewrite obj_set_obj_set.
Qed.

Lemma adaptItem_idem ai y : adaptItem ai = Ok y -> adaptItem y = Ok y.
Proof.
  intros [-> Hn]%adaptItem_Ok. rewrite adaptItem_set, (items_length_truthy_nonnull ai Hn).
  destruct (truthy (opt_get (prop_of ai "items") "length")) eqn:Ht; [by rewrite Ht|].
  destruct (includes_str _ (prop_of ai "dimension")) eqn:Hr; [|done].
  by rewrite (spread_dimension_reserved ai Hr), Hr.
Qed.

Lemma js_map_adaptItem_idem xs ys :
  Forall2 (fun x y => adaptItem x = Ok y) xs ys -> js_map adaptItem ys = Ok ys.
Proof.
  induction 1 as [|x y xs ys Hxy _ IH]; [done|]. simpl.
  by rewrite (adaptItem_idem _ _ Hxy), IH.
Qed.

(** C8: the adapter is idempotent: adapting an adapted axis gives it back
    unchanged. *)
Theorem adaptAxisItems_idempotent (axis : jsval) (ys : list jsval) :
  adaptAxisItems axis = Ok ys -> adaptAxisItems (JArr ys) = Ok ys.
Proof.
  unfold adaptAxisItems at 1. intros H.
  assert (Hxs : exists xs, js_map adaptItem xs = Ok ys).
  { destruct (truthy axis); [destruct axis; try discriminate|]; eauto. }
  destruct Hxs as [xs Hxs]. apply js_map_Ok in Hxs.
  apply (js_map_adaptItem_idem _ _ Hxs).
Qed.

Lemma adaptAxisItems_idempotent_witness :
  adaptAxisItems (JArr [JObj [("dimension", JStr "J5jldMd8OHv")]]) =
    Ok [JObj [("dimension", JStr "J5jldMd8OHv"); ("items", allItemsPlaceholder)]] /\
  adaptAxisItems (JArr [JObj [("dimension", JStr "J5jldMd8OHv"); ("items", allItemsPlaceholder)]]) =
    Ok [JObj [("dimension", JStr "J5jldMd8OHv"); ("items", allItemsPlaceholder)]].
Proof.
  assert (H : adaptAxisItems (JArr [JObj [("dimension", JStr "J5jldMd8OHv")]]) =
    Ok [JObj [("dimension", JStr "J5jldMd8OHv"); ("items", allItemsPlaceholder)]])
    by reflexivity.
  split; [exact H | exact (adaptAxisItems_idempotent _ _ H)].
Defined.

(** The items an adapted dimension receives. *)
Definition adapted_items (ai : jsval) : jsval :=
  if items_length_truthy ai then prop_of ai "items"
  else if includes_str reservedDimensionIds (prop_of ai "dimension")
       then JNull else allItemsPlaceholder.

Lemma adaptItem_Ok' ai y :
  adaptItem ai = Ok y ->
  y = JObj (obj_set "items" (adapted_items ai) (spread_fields ai)) /\ is_nullish ai = false.
Proof. apply adaptItem_Ok. Qed.

(** C9: adapting an array of dimensions copies each one in order: the copy
    keeps every property of the original except [items], which keeps a
    non-empty item list, becomes [null] for the four fixed dimension ids
    and the single "All items" placeholder for any other dimension. *)
Theorem adaptAxisItems_spec (xs ys : list jsval) :
  adaptAxisItems (JArr xs) = Ok ys ->
  Forall2 (fun ai y =>
             prop_of y "items" = adapted_items ai /\
             forall k, k <> "items" -> prop_of y k = prop_of (JObj (spread_fields ai)) k)
          xs ys.
Proof.
  intros H. apply js_map_Ok in H. eapply Forall2_impl; [exact H|].
  intros ai y [-> _]%adaptItem_Ok'. split.
  - apply prop_of_obj_set_items.
  - intros k Hk. by apply prop_of_obj_set_other.
Qed.

Lemma adaptAxisItems_spec_witness :
  adaptAxisItems (JArr [JObj [("dimension", JStr DIMENSION_ID_PERIOD); ("items", JArr [])]]) =
    Ok [JObj [("dimension", JStr DIMENSION_ID_PERIOD); ("items", JNull)]] /\
  Forall2 (fun ai y =>
             prop_of y "items" = adapted_items ai /\
             forall k, k <> "items" -> prop_of y k = prop_of (JObj (spread_fields ai)) k)
    [JObj [("dimension", JStr DIMENSION_ID_PERIOD); ("items", JArr [])]]
    [JObj [("dimension", JStr DIMENSION_ID_PERIOD); ("items", JNull)]].
Proof.
  assert (H : adaptAxisItems (JArr [JObj [("dimension", JStr DIMENSION_ID_PERIOD); ("items", JArr [])]]) =
    Ok [JObj [("dimension", JStr DIMENSION_ID_PERIOD); ("items", JNull)]]) by reflexivity.
  split; [exact H | exact (adaptAxisItems_spec _ _ H)].
Defined.

(** C10: after adaptation every dimension is an object whose [items] is
    either a value with a non-zero [length] or [null], and [null] only for
    a dimension whose id is one of the four fixed ids. *)
Theorem adaptAxisItems_contract (axis : jsval) (ys : list jsval) :
  adaptAxisItems axis = Ok ys ->
  Forall (fun y => exists fs, y = JObj fs /\
            (items_length_truthy y = true \/
             (prop_of y "items" = JNull /\
              includes_str reservedDimensionIds (prop_of y "dimension") = true))) ys.
Proof.
  unfold adaptAxisItems. intros H.
  assert (Hxs : exists xs, js_map adaptItem xs = Ok ys).
  { destruct (truthy axis); [destruct axis; try discriminate|]; eauto. }
  destruct Hxs as [xs Hxs]. apply js_map_Ok, Forall2_Forall_ex_r in Hxs. clear H.
  eapply Forall_impl; [exact Hxs|]. intros y (ai & [-> Hn]%adaptItem_Ok').
  eexists; split; [reflexivity|]. rewrite items_length_truthy_set. unfold adapted_items.
  rewrite (items_length_truthy_nonnull ai Hn).
  destruct (truthy (opt_get (prop_of ai "items") "length")) eqn:Ht; [by left|].
  destruct (includes_str _ (prop_of ai "dimension")) eqn:Hr; [|by left].
  right. rewrite prop_of_obj_set_items, prop_of_obj_set_other by discriminate.
  by rewrite (spread_dimension_reserved ai Hr).
Qed.

Lemma adaptAxisItems_contract_witness :
  adaptAxisItems (JArr [JObj [("dimension", JStr DIMENSION_ID_ORGUNIT)]]) =
    Ok [JObj [("dimension", JStr DIMENSION_ID_ORGUNIT); ("items", JNull)]] /\
  Forall (fun y => exists fs, y = JObj fs /\
            (items_length_truthy y = true \/
             (prop_of y "items" = JNull /\
              includes_str reservedDimensionIds (prop_of y "dimension") = true)))
    [JObj [("dimension", JStr DIMENSION_ID_ORGUNIT); ("items", JNull)]].
Proof.
  assert (H : adaptAxisItems (JArr [JObj [("dimension", JStr DIMENSION_ID_ORGUNIT)]]) =
    Ok [JObj [("dimension", JStr DIMENSION_ID_ORGUNIT); ("items", JNull)]]) by reflexivity.
  split; [exact H | exact (adaptAxisItems_contract _ _ H)].
Defined.

Lemma adaptItem_raises ai : raises_only (fun e => e = TypeError) (adaptItem ai).
Proof.
  unfold adaptItem, get_prop. repeat raises_step; try by apply raises_only_err.
  all: destruct (is_nullish ai); repeat raises_step; done.
Qed.

Lemma adaptItem_nullish v : is_nullish v = true -> adaptItem v = throw TypeError.
Proof. by destruct v. Qed.

Lemma adaptItem_total v : is_nullish v = false -> exists y, adaptItem v = Ok y.
Proof.
  intros Hn. unfold adaptItem, get_prop. rewrite Hn.
  destruct (truthy _); simpl; eauto.
Qed.

(** On an array, the adapter returns normally exactly when no element
    is [null] or [undefined]. *)
Lemma adaptAxisItems_array_total (xs : list jsval) :
  (exists ys, adaptAxisItems (JArr xs) = Ok ys) <-> Forall (fun v => is_nullish v = false) xs.
Proof.
  unfold adaptAxisItems; simpl. split.
  - intros [ys Hys]. apply js_map_Ok in Hys.
    induction Hys as [|v y xs ys Hy _ IH]; constructor; [|done].
    destruct (is_nullish v) eqn:Hn; [|done]. by rewrite adaptItem_nullish in Hy.
  - induction 1 as [|v xs Hv _ [ys IH]]; simpl; [eauto|].
    destruct (adaptItem_total v Hv) as [y ->]. rewrite IH. simpl. eauto.
Qed.

(** C11: the adapter raises exactly when the axis is a truthy value that
    is not an array, or an array with a [null] or [undefined] element (it
    reads [ai.dimension] without [?.]), and every exception it raises is a
    [TypeError]. *)
Theorem adaptAxisItems_errors (axis : jsval) :
  ((exists e, adaptAxisItems axis = Err e) <->
   (truthy axis = true /\ isArray axis = false) \/
   exists xs v, axis = JArr xs /\ v ∈ xs /\ is_nullish v = true) /\
  (forall e, adaptAxisItems axis = Err e -> e = TypeError).
Proof.
  split; [split|].
  - intros [e H]. unfold adaptAxisItems in H.
    destruct (truthy axis) eqn:Ht; [|discriminate].
    destruct axis as [| | | | |xs|]; try (by left). right.
    destruct (existsb is_nullish xs) eqn:Hex.
    + apply existsb_exists in Hex as (v & Hin & Hv). exists xs, v.
      split; [done|]. split; [by apply list_elem_of_In|done].
    + assert (Hall : Forall (fun v => is_nullish v = false) xs).
      { apply Forall_forall. intros v Hin. destruct (is_nullish v) eqn:Hv; [|done].
        assert (existsb is_nullish xs = true); [|congruence].
        apply existsb_exists. exists v. split; [by apply list_elem_of_In | done]. }
      apply adaptAxisItems_array_total in Hall as [ys Hys].
      unfold adaptAxisItems in Hys. simpl in Hys. congruence.
  - intros [[Ht Ha]|(xs & v & -> & Hin & Hv)].
    + unfold adaptAxisItems. rewrite Ht. destruct axis; try discriminate; eauto.
    + destruct (adaptAxisItems (JArr xs)) as [ys|e] eqn:E; [|eauto].
      exfalso. assert (Hall : Forall (fun v => is_nullish v = false) xs)
        by (apply adaptAxisItems_array_total; eauto).
      rewrite Forall_forall in Hall. specialize (Hall v Hin). congruence.
  - intros e H. unfold adaptAxisItems in H. destruct (truthy axis); [|discriminate].
    destruct axis as [| | | | |xs|]; try (by injection H).
    exact (js_map_raises _ _ _ adaptItem_raises e H).
Qed.

Lemma adaptAxisItems_errors_witness :
  adaptAxisItems (JArr [JObj [("dimension", JStr "dx")]; JNull]) = throw TypeError.
Proof.
  assert (H : exists e, adaptAxisItems (JArr [JObj [("dimension", JStr "dx")]; JNull]) = Err e).
  { apply (adaptAxisItems_errors (JArr [JObj [("dimension", JStr "dx")]; JNull])).
    right. exists [JObj [("dimension", JStr "dx")]; JNull], JNull. split; [done|]. split; [|done].
    right; left. }
  destruct H as [e He]. rewrite He. f_equal. exact (proj2 (adaptAxisItems_errors _) e He).
Defined.

End AxisItemsFacts.
