(* ===== verification/Store.v ===== *)
(** * The Redux store ([reducers/index.js] and its slices)

    The root reducer is [combineReducers] over eleven slices; the model
    keeps the slices the modelled thunks and handlers read or write:
    [visualization], [current], [ui], [metadata], [settings], [user],
    [snackbar] and [loader].  The visualization objects themselves live in
    a heap of JavaScript objects ([heap]): the [visualization] and
    [current] slices hold references into it (or [null]), so the
    reference comparison [visualization === current] the app uses to tell
    a saved visualization from a dirty one is a comparison of locations.
    The [user] reducer is translated from [reducers/user.js]; the other
    slice reducers are outside the sources and follow the spec (section
    4.3), the [metadata] one also the test [reducers/__tests__/metadata.js]. *)

From stdpp Require Import base gmap strings list.
From Stdlib Require Import String ZArith.
From S2P Require Import Prelude JsValue.

Open Scope string_scope.

Module Store.

(** ** Values held by the slices *)

(** A reference to a heap object. *)
Definition loc := positive.

(** The errors published into [loader.loadError] ([modules/error.js]). *)
Inductive load_error : Type :=
| VisualizationNotFoundError
| GenericServerError
| ErrorValue (v : jsval).

Record snackbar_message := mkSnackbar {
  sn_variant : string;
  sn_message : jsval;
  sn_duration : option Z }.

Definition VARIANT_SUCCESS : string := "success".

Record settings := mkSettings {
  rootOrganisationUnits : jsval;
  relativePeriod : jsval;
  digitGroupSeparator : jsval }.

(** The [ui] slice: reset from the settings by [acClear], or derived from a
    visualization by [acSetUiFromVisualization]. *)
Inductive ui_state : Type :=
| UiCleared (rootOrgUnits relPeriod digitGroup : jsval)
| UiFromVisualization (vis : list (string * jsval)).

Record loader_state := mkLoader {
  isPluginLoading : bool;
  loadError : option load_error }.

(** [reducers/user.js], lines 3-8 and 20-27. *)
Record user := mkUser {
  user_id : string;
  username : string;
  uiLocale : string;
  isSuperuser : bool }.

Definition DEFAULT_USER : user := mkUser "" "" "" false.

(** The d2 user object the app receives at start-up. *)
Record d2_user := mkD2User {
  d2_id : string;
  d2_username : string;
  d2_keyUiLocale : string;
  d2_authorities : gset string }.

Definition fromD2ToUserObj (d2Object : d2_user) : user :=
  mkUser (d2_id d2Object) (d2_username d2Object) (d2_keyUiLocale d2Object)
    (bool_decide ("ALL" ∈ d2_authorities d2Object)).

(** ** Actions *)

Inductive action : Type :=
| SET_VISUALIZATION (r : loc)
| CLEAR_VISUALIZATION
| SET_CURRENT (r : loc)
| CLEAR_CURRENT
| SET_UI_FROM_VISUALIZATION (vis : list (string * jsval))
| CLEAR_UI (rootOrgUnits relPeriod digitGroup : jsval)
| SET_PLUGIN_LOADING (b : bool)
| SET_LOAD_ERROR (e : load_error)
| CLEAR_LOAD_ERROR
| RECEIVED_SNACKBAR_MESSAGE (m : snackbar_message)
| ADD_METADATA (m : gmap string jsval)
| RECEIVED_USER (d2 : d2_user)
| OTHER (type : string).

(** ** Slice reducers *)

Definition visualization_reducer (s : option loc) (a : action) : option loc :=
  match a with
  | SET_VISUALIZATION r => Some r
  | CLEAR_VISUALIZATION => None
  | _ => s
  end.

Definition current_reducer (s : option loc) (a : action) : option loc :=
  match a with
  | SET_CURRENT r => Some r
  | CLEAR_CURRENT => None
  | _ => s
  end.

Definition ui_reducer (s : ui_state) (a : action) : ui_state :=
  match a with
  | SET_UI_FROM_VISUALIZATION vis => UiFromVisualization vis
  | CLEAR_UI ou pe dg => UiCleared ou pe dg
  | _ => s
  end.

Definition loader_reducer (s : loader_state) (a : action) : loader_state :=
  match a with
  | SET_PLUGIN_LOADING b => mkLoader b (loadError s)
  | SET_LOAD_ERROR e => mkLoader (isPluginLoading s) (Some e)
  | CLEAR_LOAD_ERROR => mkLoader (isPluginLoading s) None
  | _ => s
  end.

Definition snackbar_reducer (s : option snackbar_message) (a : action) : option snackbar_message :=
  match a with
  | RECEIVED_SNACKBAR_MESSAGE m => Some m
  | _ => s
  end.

(** [{...state, ...action.value}]: the new entries win. *)
Definition metadata_reducer (s : gmap string jsval) (a : action) : gmap string jsval :=
  match a with
  | ADD_METADATA m => m ∪ s
  | _ => s
  end.

Definition DEFAULT_METADATA : gmap string jsval := ∅.

(** [reducers/user.js], lines 10-18. *)
Definition user_reducer (s : user) (a : action) : user :=
  match a with
  | RECEIVED_USER d2 => fromD2ToUserObj d2
  | _ => s
  end.

(** ** The root reducer *)

Record state := mkState {
  st_visualization : option loc;
  st_current : option loc;
  st_ui : ui_state;
  st_metadata : gmap string jsval;
  st_settings : settings;
  st_user : user;
  st_snackbar : option snackbar_message;
  st_loader : loader_state }.

(** [combineReducers({...})]: every slice reducer sees the action. *)
Definition rootReducer (s : state) (a : action) : state :=
  mkState (visualization_reducer (st_visualization s) a)
          (current_reducer (st_current s) a)
          (ui_reducer (st_ui s) a)
          (metadata_reducer (st_metadata s) a)
          (st_settings s)
          (user_reducer (st_user s) a)
          (snackbar_reducer (st_snackbar s) a)
          (loader_reducer (st_loader s) a).

(** ** Selectors *)

Definition sGetUser (s : state) : user := st_user s.
Definition sGetUserId (s : state) : string := user_id (sGetUser s).
Definition sGetUsername (s : state) : string := username (sGetUser s).
Definition sGetIsSuperuser (s : state) : bool := isSuperuser (sGetUser s).
Definition sGetUiLocale (s : state) : string := uiLocale (sGetUser s).

Definition sGetMetadata (s : state) : gmap string jsval := st_metadata s.

(** [sGetSeriesSetupItems] of [reducers/index.js]: the axis setup of the
    ui (pairs of item id and axis) joined with the names of the metadata
    cache; [name] is [undefined] for an id the cache lacks. *)
Record series_setup_item := mkSeriesSetupItem {
  dimensionItem : string;
  ssi_axis : jsval;
  ssi_name : jsval }.

Definition sGetSeriesSetupItems (axisSetup : list (string * jsval)) (s : state)
  : list series_setup_item :=
  map (fun item => mkSeriesSetupItem item.1 item.2
                     (match sGetMetadata s !! item.1 with
                      | Some m => opt_get m "name"
                      | None => JUndefined
                      end))
      axisSetup.

End Store.

Module StoreFacts.
Import Store.

(** The state after the store has processed a sequence of actions. *)
Definition run_actions (s : state) (l : list action) : state := fold_left rootReducer l s.

Lemma run_actions_app s l1 l2 : run_actions s (l1 ++ l2) = run_actions (run_actions s l1) l2.
Proof. apply fold_left_app. Qed.

(** Merging metadata [a] and then [b] gives the same cache as merging
    [{...a, ...b}] in one step, and for disjoint key sets the two merges
    commute. *)
Theorem metadata_merge_laws (s a b : gmap string jsval) :
  metadata_reducer (metadata_reducer s (ADD_METADATA a)) (ADD_METADATA b) =
    metadata_reducer s (ADD_METADATA (b ∪ a)) /\
  (a ##ₘ b ->
   metadata_reducer (metadata_reducer s (ADD_METADATA a)) (ADD_METADATA b) =
     metadata_reducer (metadata_reducer s (ADD_METADATA b)) (ADD_METADATA a)).
Proof.
  simpl. split; [by rewrite (assoc_L _)|].
  intros Hdisj. rewrite !(assoc_L _). by rewrite (map_union_comm a b).
Qed.

Lemma metadata_merge_laws_witness :
  {[ "uid1" := JObj [("name", JStr "Jethro Q. Walrustitty")] ]}
    ##ₘ ({[ "uid2" := JObj [("name", JStr "Tarquin")] ]} : gmap string jsval) /\
  metadata_reducer (metadata_reducer ∅ (ADD_METADATA {[ "uid1" := JObj [("name", JStr "Jethro Q. Walrustitty")] ]}))
      (ADD_METADATA {[ "uid2" := JObj [("name", JStr "Tarquin")] ]}) =
  metadata_reducer (metadata_reducer ∅ (ADD_METADATA {[ "uid2" := JObj [("name", JStr "Tarquin")] ]}))
      (ADD_METADATA {[ "uid1" := JObj [("name", JStr "Jethro Q. Walrustitty")] ]}).
Proof.
  assert (Hd : {[ "uid1" := JObj [("name", JStr "Jethro Q. Walrustitty")] ]}
    ##ₘ ({[ "uid2" := JObj [("name", JStr "Tarquin")] ]} : gmap string jsval)).
  { apply map_disjoint_singleton_l, lookup_singleton_ne. discriminate. }
  split; [exact Hd | exact (proj2 (metadata_merge_laws _ _ _) Hd)].
Defined.

(** The fixtures of [reducers/__tests__/metadata.js] (lines 3-14). *)
Definition currentState : gmap string jsval :=
  {[ "uid1" := JObj [("name", JStr "Jethro Q. Walrustitty")] ]}.

Definition metadataToAdd : gmap string jsval :=
  {[ "uid2" := JObj [("name", JStr "Tarquin Fin-tim-lin-bin-whin-bim-lim-bus-stop-Ftang-Ftang-Ole-Biscuitbarrel")] ]}.

(** The test (lines 16-36): an unknown action keeps the default state,
    and [ADD_METADATA] yields [{...currentState, ...metadataToAdd}]. *)
Example metadata_reducer_test :
  metadata_reducer DEFAULT_METADATA (OTHER "NO_MATCH") = DEFAULT_METADATA /\
  metadata_reducer currentState (ADD_METADATA metadataToAdd)
  = {[ "uid1" := JObj [("name", JStr "Jethro Q. Walrustitty")];
       "uid2" := JObj [("name", JStr "Tarquin Fin-tim-lin-bin-whin-bim-lim-bus-stop-Ftang-Ftang-Ole-Biscuitbarrel")] ]}.
Proof.
  split; [reflexivity|]. unfold currentState, metadataToAdd. simpl.
  rewrite map_union_comm; [|apply map_disjoint_singleton_l, lookup_singleton_ne; discriminate].
  by rewrite <- insert_union_singleton_l.
Qed.

(** C13: the metadata cache is append-only: whatever actions the store
    processes, every key it held stays present. *)
Theorem metadata_never_evicted (s : state) (l : list action) :
  dom (st_metadata s) ⊆ dom (st_metadata (run_actions s l)).
Proof.
  revert s. induction l as [|a l IH]; intros s; simpl; [done|].
  etrans; [|apply IH]. destruct a; simpl; try done. rewrite dom_union_L. set_solver.
Qed.

(** The user descriptor carried by the last [RECEIVED_USER] of a sequence. *)
Definition last_received_user (l : list action) : option d2_user :=
  fold_left (fun acc a => match a with RECEIVED_USER d2 => Some d2 | _ => acc end) l None.

Lemma last_received_user_cons_fold l acc :
  fold_left (fun acc a => match a with RECEIVED_USER d2 => Some d2 | _ => acc end) l acc =
  match last_received_user l with Some d2 => Some d2 | None => acc end.
Proof.
  unfold last_received_user. revert acc.
  induction l as [|a l IH]; intros acc; simpl; [done|].
  rewrite IH, (IH (match a with RECEIVED_USER d2 => Some d2 | _ => None end)).
  destruct (fold_left _ l None); [done|]. by destruct a.
Qed.

(** C14: the user slice is the projection of the last user descriptor the
    store received, or is unchanged when it received none; [isSuperuser]
    holds exactly when that descriptor's authorities contain ["ALL"]. *)
Theorem user_slice_last_received (s : state) (l : list action) :
  st_user (run_actions s l) =
    match last_received_user l with
    | Some d2 => fromD2ToUserObj d2
    | None => st_user s
    end /\
  (forall d2, last_received_user l = Some d2 ->
   isSuperuser (st_user (run_actions s l)) = true <-> "ALL" ∈ d2_authorities d2).
Proof.
  assert (Hu : st_user (run_actions s l) =
                 match last_received_user l with
                 | Some d2 => fromD2ToUserObj d2 | None => st_user s end).
  { revert s. induction l as [|a l IH]; intros s; [done|].
    unfold last_received_user. simpl. rewrite last_received_user_cons_fold.
    rewrite (IH (rootReducer s a)). destruct (last_received_user l); [done|]. by destruct a. }
  split; [done|]. intros d2 Hd2. rewrite Hu, Hd2. simpl. apply bool_decide_eq_true.
Qed.

End StoreFacts.
