(* ===== verification/History.v ===== *)
(** * Browser history ([modules/history.js])

    The app navigates through a [history] object with two operations, as
    the spec (section 6) describes them: [push(path, state)] adds an entry
    after the current one and [replace(path, state)] overwrites the current
    entry.  The entries before the current one are kept newest first;
    forward entries are not modelled, since no modelled code goes back. *)

From stdpp Require Import base strings list.
From Stdlib Require Import String.
From S2P Require Import Prelude JsValue.

Open Scope string_scope.

Module History.

Record location := mkLocation {
  pathname : string;
  loc_state : jsval }.

Record history := mkHistory {
  past : list location;
  present : location }.

Definition push (h : history) (path : string) (st : jsval) : history :=
  mkHistory (present h :: past h) (mkLocation path st).

Definition replace (h : history) (path : string) (st : jsval) : history :=
  mkHistory (past h) (mkLocation path st).

Definition initial_history : history := mkHistory [] (mkLocation "/" JUndefined).

End History.
