(* ===== verification/Actions.v ===== *)
(** * The action thunks ([actions/index.js])

    A thunk runs against the store ([dispatch], [getState]), the JavaScript
    heap where the visualization objects live, the browser history, and the
    analytics API.  The model threads a [world] holding the four through a
    state-and-exception monad [M]: [dispatch] applies the root reducer, a
    copy [{...o}] allocates a fresh heap object, an [await] on an API call
    takes the call's outcome from the thunk's arguments (the response, or
    the value the promise rejects with), and an exception that escapes the
    thunk is the [Err] of its result, with the world as it was when it was
    raised.  The library functions the thunks call ([@dhis2/analytics],
    [modules/visualization.js]) are the operations of the class
    [Analytics], so that the thunks' theorems hold for every implementation
    with the laws of [AnalyticsLaws]; [analytics_model] is one. *)

From stdpp Require Import base gmap strings list.
From Stdlib Require Import String ZArith.
From S2P Require Import Prelude JsValue I18n Constants AxisItems Store History.

Open Scope string_scope.

Module Actions.
Import Store History AxisItems.

(** ** The world a thunk runs in *)

Inductive effect : Type :=
| FetchVisualization (id : jsval)
| PostDataStatistics (id : jsval)
| SaveVisualization (payload : list (string * jsval))
| LogError (action : string).

Record world := mkWorld {
  w_heap : gmap loc (list (string * jsval));
  w_next : loc;
  w_store : state;
  w_history : history;
  w_log : list effect }.

Definition M (A : Type) : Type := world -> js_result A * world.

#[export] Instance M_ret : MRet M := fun A a w => (Ok a, w).
#[export] Instance M_bind : MBind M := fun A B f m w =>
  match m w with
  | (Ok a, w') => f a w'
  | (Err e, w') => (Err e, w')
  end.

Definition raise {A} (e : js_exn) : M A := fun w => (Err e, w).
Definition lift {A} (r : js_result A) : M A := fun w => (r, w).

(** [try { m } catch (e) { h(e) }]. *)
Definition try_catch {A} (m : M A) (h : js_exn -> M A) : M A := fun w =>
  match m w with
  | (Ok a, w') => (Ok a, w')
  | (Err e, w') => h e w'
  end.

(** [await p] on an API call whose outcome is [r]: a rejection throws the
    value it carries. *)
Definition await {A} (r : result A jsval) : M A := fun w =>
  match r with Ok a => (Ok a, w) | Err v => (Err (Thrown v), w) end.

Definition dispatch (a : action) : M unit := fun w =>
  (Ok tt, mkWorld (w_heap w) (w_next w) (rootReducer (w_store w) a) (w_history w) (w_log w)).

Definition getState : M state := fun w => (Ok (w_store w), w).

Definition emit (e : effect) : M unit := fun w =>
  (Ok tt, mkWorld (w_heap w) (w_next w) (w_store w) (w_history w) (w_log w ++ [e])).

Definition navigate (f : history -> history) : M unit := fun w =>
  (Ok tt, mkWorld (w_heap w) (w_next w) (w_store w) (f (w_history w)) (w_log w)).

(** A new object: the location is fresh. *)
Definition alloc (fs : list (string * jsval)) : M loc := fun w =>
  (Ok (w_next w),
   mkWorld (<[w_next w := fs]> (w_heap w)) (Pos.succ (w_next w)) (w_store w) (w_history w) (w_log w)).

Definition read_obj (r : loc) : M (list (string * jsval)) := fun w =>
  match w_heap w !! r with
  | Some fs => (Ok fs, w)
  | None => (Err TypeError, w)
  end.

(** The value a slice holding a reference or [null] denotes. *)
Definition deref (r : option loc) : M jsval :=
  match r with
  | None => mret JNull
  | Some l => fs ← read_obj l; mret (JObj fs)
  end.

(** [o.k = v] on the heap object [r]. *)
Definition write_field (r : loc) (k : string) (v : jsval) : M unit := fun w =>
  match w_heap w !! r with
  | Some fs =>
      (Ok tt, mkWorld (<[r := obj_set k v fs]> (w_heap w)) (w_next w) (w_store w)
                (w_history w) (w_log w))
  | None => (Err TypeError, w)
  end.

(** ** The library functions the thunks call *)

Class Analytics := {
  convertOuLevelsToUids : jsval -> jsval -> js_result (list (string * jsval));
  preparePayloadForSaveAs : list (string * jsval) -> list (string * jsval);
  getDisplayNameByVisType : jsval -> string;
  getVisualizationFromCurrent : jsval -> js_result (list (string * jsval)) }.

(** What the thunks rely on: the save-as payload has no [id] and keeps the
    other properties, and a current visualization object always yields a
    payload. *)
Class AnalyticsLaws `{Analytics} := {
  preparePayloadForSaveAs_id : forall fs, assoc "id" (preparePayloadForSaveAs fs) = None;
  preparePayloadForSaveAs_other : forall fs k,
    k <> "id" -> assoc k (preparePayloadForSaveAs fs) = assoc k fs;
  getVisualizationFromCurrent_obj : forall fs, is_ok (getVisualizationFromCurrent (JObj fs)) = true }.

Section Thunks.
Context `{Analytics}.

(** ** [clearAll] (lines 123-146) *)

Definition clearAll (error : option load_error) : M unit :=
  (match error with
   | Some e => dispatch (SET_LOAD_ERROR e)
   | None => dispatch CLEAR_LOAD_ERROR
   end) ;;
  dispatch CLEAR_VISUALIZATION ;;
  dispatch CLEAR_CURRENT ;;
  s ← getState;
  dispatch (CLEAR_UI (rootOrganisationUnits (st_settings s)) (relativePeriod (st_settings s))
              (digitGroupSeparator (st_settings s))).

(** ** [tDoLoadVisualization] (lines 83-121) *)

(** [visualization[k] = adaptAxisItems(visualization[k])]. *)
Definition adaptField (r : loc) (k : string) : M unit :=
  fs ← read_obj r;
  ys ← lift (adaptAxisItems (prop_of (JObj fs) k));
  write_field r k (JArr ys).

Definition loadOnSuccess (ouLevels response : jsval) : M unit :=
  dispatch (SET_PLUGIN_LOADING true) ;;
  v ← lift (get_prop response "visualization");
  fs ← lift (convertOuLevelsToUids ouLevels v);
  r ← alloc fs;
  adaptField r "columns" ;;
  adaptField r "rows" ;;
  adaptField r "filters" ;;
  vis ← read_obj r;
  emit (PostDataStatistics (prop_of (JObj vis) "id")) ;;
  dispatch (SET_VISUALIZATION r) ;;
  dispatch (SET_CURRENT r) ;;
  dispatch (SET_UI_FROM_VISUALIZATION vis) ;;
  dispatch CLEAR_LOAD_ERROR.

(** The error kind of a failed fetch (lines 108-116). *)
Definition loadErrorOf (errorResponse : jsval) : load_error :=
  if eq_num (opt_get (opt_get errorResponse "details") "httpStatusCode") 404
  then VisualizationNotFoundError
  else if truthy (opt_get errorResponse "message")
  then ErrorValue (opt_get errorResponse "message")
  else GenericServerError.

(** [onSuccess] is an [async] function whose promise is returned from the
    [try] block without being awaited: an exception it raises rejects the
    thunk's promise and is not caught by the [catch] block. *)
Definition tDoLoadVisualization (id ouLevels : jsval) (fetched : result jsval jsval) : M unit :=
  emit (FetchVisualization id) ;;
  match fetched with
  | Ok response => loadOnSuccess ouLevels response
  | Err errorResponse =>
      clearAll (Some (loadErrorOf errorResponse)) ;;
      emit (LogError "tDoLoadVisualization")
  end.

(** ** [tDoRenameVisualization] (lines 148-185) *)

Definition renameSnackbar : snackbar_message :=
  mkSnackbar VARIANT_SUCCESS (JStr (i18n_t "Rename successful" [])) (Some 2000%Z).

Definition tDoRenameVisualization (name description : jsval) : M unit :=
  s ← getState;
  let visualization := st_visualization s in
  let current := st_current s in
  v ← deref visualization;
  c ← deref current;
  updatedVisualization ← alloc (spread_fields v);
  updatedCurrent ← alloc (spread_fields c);
  (if truthy name
   then write_field updatedCurrent "name" name ;; write_field updatedVisualization "name" name
   else mret tt) ;;
  (if truthy description
   then write_field updatedCurrent "description" description ;;
        write_field updatedVisualization "description" description
   else mret tt) ;;
  dispatch (SET_VISUALIZATION updatedVisualization) ;;
  (if bool_decide (visualization = current)
   then dispatch (SET_CURRENT updatedVisualization)
   else dispatch (SET_CURRENT updatedCurrent)) ;;
  dispatch (RECEIVED_SNACKBAR_MESSAGE renameSnackbar).

(** ** [tDoSaveVisualization] (lines 187-250) *)

Definition isSavingState : jsval := JObj [("isSaving", JBool true)].

(** [onSuccess] (lines 190-204): [res.status === 'OK' && res.response.uid]. *)
Definition saveOnSuccess (copy : bool) (res : jsval) : M unit :=
  status ← lift (get_prop res "status");
  if eq_str status "OK" then
    response ← lift (get_prop res "response");
    uid ← lift (get_prop response "uid");
    if truthy uid then
      (if copy then navigate (fun h => push h ("/" ++ js_to_string uid) isSavingState)
       else navigate (fun h => replace h ("/" ++ js_to_string uid) isSavingState))
    else mret tt
  else mret tt.

(** The name of the saved object (lines 217-235). *)
Definition saveName (name : jsval) (visualization : list (string * jsval)) (date : string) : jsval :=
  if truthy name then name
  else if truthy (prop_of (JObj visualization) "name") then prop_of (JObj visualization) "name"
  else JStr (i18n_t "Untitled {{visualizationType}} visualization, {{date}}"
               [("visualizationType",
                 getDisplayNameByVisType (prop_of (JObj visualization) "type"));
                ("date", date)]).

(** The payload handed to the API (lines 207-239). *)
Definition savePayload (name description : jsval) (copy : bool) (date : string)
    (v0 : list (string * jsval)) : list (string * jsval) :=
  let v1 := if copy then preparePayloadForSaveAs v0 else v0 in
  let v2 := obj_set "name" (saveName name v1 date) v1 in
  if truthy description then obj_set "description" description v2 else v2.

Definition tDoSaveVisualization (name description : jsval) (copy : bool) (date : string)
    (saved : result jsval jsval) : M unit :=
  try_catch
    (dispatch (SET_PLUGIN_LOADING true) ;;
     s ← getState;
     cur ← deref (st_current s);
     v0 ← lift (getVisualizationFromCurrent cur);
     let payload := savePayload name description copy date v0 in
     emit (SaveVisualization payload) ;;
     res ← await saved;
     saveOnSuccess copy res)
    (fun _ =>
       dispatch (SET_PLUGIN_LOADING false) ;;
       emit (LogError "tDoSaveVisualization") ;;
       dispatch (SET_LOAD_ERROR GenericServerError)).

(** ** [tDoDeleteVisualization] (lines 252-266) *)

(** The template ['"{{- deletedObject}}" successfully deleted.'], whose
    double quotes are written as the character 34. *)
Definition quote : string := String (Ascii.ascii_of_nat 34) EmptyString.
Definition deletedTemplate : string :=
  quote ++ "{{- deletedObject}}" ++ quote ++ " successfully deleted.".

Definition tDoDeleteVisualization : M unit :=
  s ← getState;
  cur ← deref (st_current s);
  name ← lift (get_prop cur "name");
  dispatch (RECEIVED_SNACKBAR_MESSAGE
              (mkSnackbar VARIANT_SUCCESS
                 (JStr (i18n_t deletedTemplate
                          [("deletedObject", js_to_string name)]))
                 (Some 2000%Z))) ;;
  navigate (fun h => push h "/" JUndefined).

End Thunks.

(** ** A model of the library functions *)

(** [convertOuLevelsToUids] copies the visualization object; the save-as
    payload drops [id]; [getVisualizationFromCurrent] copies the current
    object and fails on [null]. *)
#[export] Instance analytics_model : Analytics := {
  convertOuLevelsToUids := fun _ v =>
    match v with JObj fs => Ok fs | _ => throw TypeError end;
  preparePayloadForSaveAs := fun fs => List.filter (fun kv => negb (String.eqb kv.1 "id")) fs;
  getDisplayNameByVisType := js_to_string;
  getVisualizationFromCurrent := fun v =>
    if is_nullish v then throw TypeError else Ok (spread_fields v) }.

End Actions.

(** ** Reasoning about thunks *)
Module ActionsFacts.
Import Store History AxisItems Actions.

(** [wp m Q w]: run from [w], [m] returns normally with a value and a world
    satisfying [Q]. *)
Definition wp {A} (m : M A) (Q : A -> world -> Prop) (w : world) : Prop :=
  match m w with
  | (Ok a, w') => Q a w'
  | (Err _, _) => False
  end.

(** [wp_err m P w]: run from [w], [m] raises an exception, and the
    exception and the world it leaves satisfy [P]. *)
Definition wp_err {A} (m : M A) (P : js_exn -> world -> Prop) (w : world) : Prop :=
  match m w with
  | (Ok _, _) => False
  | (Err e, w') => P e w'
  end.

Lemma wp_bind {A B} (m : M A) (k : A -> M B) Q w :
  wp m (fun a w' => wp (k a) Q w') w -> wp (m ≫= k) Q w.
Proof. unfold wp, mbind, M_bind. by destruct (m w) as [[a|e] w']. Qed.

Lemma wp_err_bind_l {A B} (m : M A) (k : A -> M B) P w :
  wp_err m P w -> wp_err (m ≫= k) P w.
Proof. unfold wp_err, mbind, M_bind. by destruct (m w) as [[a|e] w']. Qed.

Lemma wp_err_bind_r {A B} (m : M A) (k : A -> M B) P w :
  wp m (fun a w' => wp_err (k a) P w') w -> wp_err (m ≫= k) P w.
Proof. unfold wp, wp_err, mbind, M_bind. by destruct (m w) as [[a|e] w']. Qed.

Lemma wp_ret {A} (a : A) Q w : Q a w -> wp (mret a) Q w.
Proof. done. Qed.

Lemma wp_mono {A} (m : M A) (Q Q' : A -> world -> Prop) w :
  (forall a w', Q a w' -> Q' a w') -> wp m Q w -> wp m Q' w.
Proof. unfold wp. destruct (m w) as [[a|e] w']; auto. Qed.

Lemma wp_if {A} (b : bool) (m1 m2 : M A) Q w :
  (b = true -> wp m1 Q w) -> (b = false -> wp m2 Q w) -> wp (if b then m1 else m2) Q w.
Proof. destruct b; auto. Qed.

Lemma wp_dispatch a Q w :
  Q tt (mkWorld (w_heap w) (w_next w) (rootReducer (w_store w) a) (w_history w) (w_log w)) ->
  wp (dispatch a) Q w.
Proof. done. Qed.

Lemma wp_getState Q w : Q (w_store w) w -> wp getState Q w.
Proof. done. Qed.

Lemma wp_emit e Q w :
  Q tt (mkWorld (w_heap w) (w_next w) (w_store w) (w_history w) (w_log w ++ [e])) ->
  wp (emit e) Q w.
Proof. done. Qed.

Lemma wp_navigate f Q w :
  Q tt (mkWorld (w_heap w) (w_next w) (w_store w) (f (w_history w)) (w_log w)) ->
  wp (navigate f) Q w.
Proof. done. Qed.

Lemma wp_alloc fs Q w :
  Q (w_next w) (mkWorld (<[w_next w := fs]> (w_heap w)) (Pos.succ (w_next w)) (w_store w)
                  (w_history w) (w_log w)) ->
  wp (alloc fs) Q w.
Proof. done. Qed.

Lemma wp_read_obj r fs Q w : w_heap w !! r = Some fs -> Q fs w -> wp (read_obj r) Q w.
Proof. unfold wp, read_obj. by intros ->. Qed.

Lemma wp_write_field r k v fs Q w :
  w_heap w !! r = Some fs ->
  Q tt (mkWorld (<[r := obj_set k v fs]> (w_heap w)) (w_next w) (w_store w) (w_history w) (w_log w)) ->
  wp (write_field r k v) Q w.
Proof. unfold wp, write_field. by intros ->. Qed.

Lemma wp_lift {A} (r : js_result A) a Q w : r = Ok a -> Q a w -> wp (lift r) Q w.
Proof. unfold wp, lift. by intros ->. Qed.

Lemma wp_err_lift {A} (r : js_result A) e P w : r = Err e -> P e w -> wp_err (lift r) P w.
Proof. unfold wp_err, lift. by intros ->. Qed.

Lemma wp_await {A} (r : result A jsval) a Q w : r = Ok a -> Q a w -> wp (await r) Q w.
Proof. unfold wp, await. by intros ->. Qed.

Lemma wp_try_ok {A} (m : M A) h Q w : wp m Q w -> wp (try_catch m h) Q w.
Proof. unfold wp, try_catch. by destruct (m w) as [[a|e] w']. Qed.

Lemma wp_try_err {A} (m : M A) h Q w :
  wp_err m (fun e w' => wp (h e) Q w') w -> wp (try_catch m h) Q w.
Proof. unfold wp, wp_err, try_catch. by destruct (m w) as [[a|e] w']. Qed.

Lemma wp_err_await {A} (r : result A jsval) v P w : r = Err v -> P (Thrown v) w -> wp_err (await r) P w.
Proof. unfold wp_err, await. by intros ->. Qed.

#[export] Hint Resolve wp_bind wp_ret wp_dispatch wp_getState wp_emit wp_navigate wp_alloc : dv.

(** [wp_step] follows a thunk one primitive at a time; heap lookups are
    discharged by [simplify_map_eq]. *)
Ltac wp_step :=
  lazymatch goal with
  | |- wp ((if _ then _ else _) ≫= _) _ _ => fail
  | |- wp (_ ≫= _) _ _ => apply wp_bind
  | |- wp (mret _) _ _ => apply wp_ret
  | |- wp (dispatch _) _ _ => apply wp_dispatch
  | |- wp getState _ _ => apply wp_getState
  | |- wp (emit _) _ _ => apply wp_emit
  | |- wp (navigate _) _ _ => apply wp_navigate
  | |- wp (alloc _) _ _ => apply wp_alloc
  | |- wp (lift (Ok _)) _ _ => eapply wp_lift; [reflexivity|]
  | |- wp (write_field _ _ _) _ _ => eapply wp_write_field; [simpl; by simplify_map_eq|]
  | |- wp (read_obj _) _ _ => eapply wp_read_obj; [simpl; by simplify_map_eq|]
  end.
Ltac wp_run := repeat (cbv beta; cbn [w_heap w_next w_store w_history w_log]; wp_step).

(** [store_simpl] computes the slices of a store after known actions. *)
Ltac store_simpl :=
  cbn [w_heap w_next w_store w_history w_log rootReducer st_visualization st_current st_ui
       st_loader st_settings st_metadata st_user st_snackbar visualization_reducer
       current_reducer ui_reducer loader_reducer snackbar_reducer loadError isPluginLoading].

(** The object a slice denotes in a world. *)
Definition obj_of (w : world) (r : option loc) : jsval :=
  match r with
  | None => JNull
  | Some l => match w_heap w !! l with Some fs => JObj fs | None => JUndefined end
  end.

(** Both slices of the store point into the heap. *)
Definition refs_ok (w : world) : Prop :=
  forall r, st_visualization (w_store w) = Some r \/ st_current (w_store w) = Some r ->
            is_Some (w_heap w !! r).

Lemma wp_deref r Q w :
  (forall l, r = Some l -> is_Some (w_heap w !! l)) -> Q (obj_of w r) w -> wp (deref r) Q w.
Proof.
  intros Hr HQ. destruct r as [l|]; [|done].
  destruct (Hr l eq_refl) as [fs Hfs]. unfold obj_of in HQ. rewrite Hfs in HQ.
  apply wp_bind. by eapply wp_read_obj.
Qed.

(** The fields of a renamed copy (lines 159-166). *)
Definition renamed (name description : jsval) (fs : list (string * jsval)) : list (string * jsval) :=
  let fs1 := if truthy name then obj_set "name" name fs else fs in
  if truthy description then obj_set "description" description fs1 else fs1.

Lemma wp_rename_writes name description uc uv fc fv (k : M unit) Q w :
  uc <> uv -> w_heap w !! uc = Some fc -> w_heap w !! uv = Some fv ->
  wp k Q (mkWorld (<[uv := renamed name description fv]> (<[uc := renamed name description fc]> (w_heap w)))
            (w_next w) (w_store w) (w_history w) (w_log w)) ->
  wp ((if truthy name
       then write_field uc "name" name ;; write_field uv "name" name else mret tt) ;;
      (if truthy description
       then write_field uc "description" description ;; write_field uv "description" description
       else mret tt) ;; k) Q w.
Proof.
  destruct w as [h n st hi lg]. simpl. intros Hne Hc Hv HQ. unfold renamed in HQ.
  destruct (truthy name), (truthy description); wp_run;
    match goal with HQ : wp k Q ?W2 |- wp k Q ?W1 => replace W1 with W2; [exact HQ|] end;
    f_equal; apply map_eq; intros i;
    destruct (decide (i = uv)), (decide (i = uc)); subst; by simplify_map_eq.
Qed.

Lemma refs_ok_vis w l : refs_ok w -> st_visualization (w_store w) = Some l -> is_Some (w_heap w !! l).
Proof. intros Hok Hl. apply Hok. by left. Qed.

Lemma refs_ok_cur w l : refs_ok w -> st_current (w_store w) = Some l -> is_Some (w_heap w !! l).
Proof. intros Hok Hl. apply Hok. by right. Qed.

Section WithAnalytics.
Context `{Analytics}.

(** What one run of the rename thunk does to the world: two fresh copies,
    renamed alike, the store pointing [visualization] at the first and
    [current] at the first when the two slices were the same reference and
    at the second otherwise, and the success notification. *)
Lemma rename_run (w : world) (name description : jsval) :
  refs_ok w ->
  wp (tDoRenameVisualization name description)
     (fun _ w' =>
        let vis := st_visualization (w_store w) in
        let cur := st_current (w_store w) in
        let uv := w_next w in
        let uc := Pos.succ (w_next w) in
        w_heap w' = <[uv := renamed name description (spread_fields (obj_of w vis))]>
                      (<[uc := renamed name description (spread_fields (obj_of w cur))]> (w_heap w)) /\
        w_store w' =
          rootReducer (rootReducer (rootReducer (w_store w) (SET_VISUALIZATION uv))
                         (SET_CURRENT (if bool_decide (vis = cur) then uv else uc)))
            (RECEIVED_SNACKBAR_MESSAGE renameSnackbar) /\
        w_history w' = w_history w) w.
Proof.
  intros Hok. unfold tDoRenameVisualization.
  apply wp_bind, wp_getState. cbn beta zeta.
  apply wp_bind, wp_deref; [intros l Hl; by apply (refs_ok_vis w)|].
  apply wp_bind, wp_deref; [intros l Hl; by apply (refs_ok_cur w)|].
  wp_run. eapply wp_rename_writes; simpl.
  - lia.
  - by simplify_map_eq.
  - rewrite lookup_insert_ne by lia. by simplify_map_eq.
  - wp_run. destruct (bool_decide _); wp_run; simpl; (split; [|done]).
    all: apply map_eq; intros i; destruct (decide (i = w_next w)) as [->|];
      [by simplify_map_eq|].
    all: destruct (decide (i = Pos.succ (w_next w))) as [->|]; by simplify_map_eq.
Qed.

Lemma prop_of_spread_obj_of (w : world) (r : option loc) (k : string) :
  prop_of (JObj (spread_fields (obj_of w r))) k = prop_of (obj_of w r) k.
Proof. destruct r as [l|]; simpl; [|done]. by destruct (w_heap w !! l). Qed.

(** C15: renaming never changes whether the store's [visualization] and
    [current] are the same reference: equal before, they are the same new
    object after; distinct before, they stay distinct objects. *)
Theorem rename_keeps_reference_equality (w : world) (name description : jsval) :
  refs_ok w ->
  wp (tDoRenameVisualization name description)
     (fun _ w' => st_visualization (w_store w') = st_current (w_store w') <->
                  st_visualization (w_store w) = st_current (w_store w)) w.
Proof.
  intros Hok. eapply wp_mono; [|by apply rename_run]. intros _ w' (_ & -> & _). simpl.
  case_bool_decide as Heq; [done|]. split; [intros [= Hn]; lia | done].
Qed.

(** C16: after a rename, the store's [visualization] is a copy of the old
    one and its [current] a copy of the old [current] (of the renamed
    visualization when the two were the same reference), each with [name]
    set when the new name is truthy and [description] set when the new
    description is truthy. *)
Theorem rename_contents (w : world) (name description : jsval) :
  refs_ok w ->
  wp (tDoRenameVisualization name description)
     (fun _ w' =>
        obj_of w' (st_visualization (w_store w')) =
          JObj (renamed name description (spread_fields (obj_of w (st_visualization (w_store w))))) /\
        obj_of w' (st_current (w_store w')) =
          JObj (renamed name description (spread_fields (obj_of w (st_current (w_store w)))))) w.
Proof.
  intros Hok. eapply wp_mono; [|by apply rename_run]. intros _ [h n st hi lg] (Hh & Hs & _).
  simpl in *. subst h st. simpl. split; [by rewrite lookup_insert_eq|].
  case_bool_decide as Heq.
  - rewrite lookup_insert_eq. by rewrite Heq.
  - rewrite lookup_insert_ne by lia. by rewrite lookup_insert_eq.
Qed.

(** A rename cannot clear a description: with the empty string as the
    new description the renamed visualization keeps its old description. *)
Theorem rename_empty_description_kept (w : world) (name : jsval) :
  refs_ok w ->
  wp (tDoRenameVisualization name (JStr ""))
     (fun _ w' => prop_of (obj_of w' (st_visualization (w_store w'))) "description" =
                  prop_of (obj_of w (st_visualization (w_store w))) "description") w.
Proof.
  intros Hok. eapply wp_mono; [|by apply rename_run]. intros _ [h n st hi lg] (Hh & Hs & _).
  simpl in *. subst h st. simpl. rewrite lookup_insert_eq.
  unfold renamed. simpl. rewrite <- prop_of_spread_obj_of.
  destruct (truthy name); [|done]. simpl. rewrite assoc_obj_set_ne; [done | discriminate].
Qed.

(** The fields of a loaded visualization after its three axes are adapted. *)
Definition adapted_fields (fs : list (string * jsval)) (cs rs fls : list jsval) :=
  obj_set "filters" (JArr fls) (obj_set "rows" (JArr rs) (obj_set "columns" (JArr cs) fs)).
Lemma prop_of_obj_set_ne (fs : list (string * jsval)) k k' v :
  k <> k' -> prop_of (JObj (obj_set k v fs)) k' = prop_of (JObj fs) k'.
Proof. intros Hne. simpl. by rewrite assoc_obj_set_ne. Qed.


(** C17: a fetch that succeeds, with axes the adapter accepts, publishes
    one new object, the response's visualization with its three axes
    adapted, as both the store's [visualization] and its [current] (the
    same reference, so nothing is unsaved), derives the ui from it, clears
    any load error, and records the view; the history is not touched. *)
Theorem load_success (w : world) (id ouLevels response v : jsval)
    (fs : list (string * jsval)) (cs rs fls : list jsval) :
  get_prop response "visualization" = Ok v ->
  convertOuLevelsToUids ouLevels v = Ok fs ->
  adaptAxisItems (prop_of (JObj fs) "columns") = Ok cs ->
  adaptAxisItems (prop_of (JObj fs) "rows") = Ok rs ->
  adaptAxisItems (prop_of (JObj fs) "filters") = Ok fls ->
  wp (tDoLoadVisualization id ouLevels (Ok response))
     (fun _ w' =>
        st_visualization (w_store w') = Some (w_next w) /\
        st_current (w_store w') = Some (w_next w) /\
        w_heap w' !! w_next w = Some (adapted_fields fs cs rs fls) /\
        st_ui (w_store w') = UiFromVisualization (adapted_fields fs cs rs fls) /\
        loadError (st_loader (w_store w')) = None /\
        isPluginLoading (st_loader (w_store w')) = true /\
        w_log w' = (w_log w ++ [FetchVisualization id;
                               PostDataStatistics (prop_of (JObj fs) "id")])%list /\
        w_history w' = w_history w) w.
Proof.
  intros Hv Hc Hcols Hrows Hfils.
  unfold tDoLoadVisualization, loadOnSuccess, adaptField. wp_run.
  eapply wp_lift; [exact Hv|]. wp_run. eapply wp_lift; [exact Hc|]. wp_run.
  eapply wp_lift; [exact Hcols|]. wp_run.
  eapply wp_lift; [rewrite prop_of_obj_set_ne by discriminate; exact Hrows|]. wp_run.
  eapply wp_lift; [rewrite !prop_of_obj_set_ne by discriminate; exact Hfils|]. wp_run.
  cbn [w_heap w_next w_store w_history w_log rootReducer st_visualization st_current st_ui st_loader visualization_reducer
       current_reducer ui_reducer loader_reducer loadError isPluginLoading].
  rewrite !insert_insert_eq, lookup_insert_eq.
  rewrite !prop_of_obj_set_ne by discriminate. unfold adapted_fields.
  (repeat split; by rewrite <- ?app_assoc).
Qed.

(** C18: a failed fetch publishes the error kind into the loader (the
    not-found kind exactly for an HTTP 404) and resets [visualization],
    [current] and the ui from the settings: no part of a visualization
    stays visible. *)
Theorem load_failure (w : world) (id ouLevels errorResponse : jsval) :
  wp (tDoLoadVisualization id ouLevels (Err errorResponse))
     (fun _ w' =>
        st_visualization (w_store w') = None /\
        st_current (w_store w') = None /\
        loadError (st_loader (w_store w')) = Some (loadErrorOf errorResponse) /\
        (loadErrorOf errorResponse = VisualizationNotFoundError <->
         opt_get (opt_get errorResponse "details") "httpStatusCode" = JNum 404) /\
        st_ui (w_store w') =
          UiCleared (rootOrganisationUnits (st_settings (w_store w)))
            (relativePeriod (st_settings (w_store w)))
            (digitGroupSeparator (st_settings (w_store w))) /\
        w_heap w' = w_heap w /\ w_history w' = w_history w) w.
Proof.
  unfold tDoLoadVisualization, clearAll. wp_run.
  cbn [w_heap w_next w_store w_history w_log rootReducer st_visualization st_current st_ui st_loader st_settings visualization_reducer
       current_reducer ui_reducer loader_reducer loadError isPluginLoading].
  split; [done|]. split; [done|]. split; [done|]. split; [|done]. unfold loadErrorOf.
  destruct (opt_get (opt_get errorResponse "details") "httpStatusCode") as [| | |n| | |] eqn:Hs;
    simpl; try (destruct (truthy _); split; discriminate).
  destruct (Z.eqb_spec n 404) as [->|Hn]; [done|].
  destruct (truthy _); split; try discriminate; intros [= ?]; congruence.
Qed.

(** C19: an exception of the adapter while a fetched visualization is
    published escapes the thunk: the [catch] block never runs, so the
    plugin stays marked as loading, no load error is published, and the
    store keeps the [visualization] and [current] it had. *)
Theorem load_adapter_error_escapes (w : world) (id ouLevels response v : jsval)
    (fs : list (string * jsval)) (e : js_exn) :
  get_prop response "visualization" = Ok v ->
  convertOuLevelsToUids ouLevels v = Ok fs ->
  adaptAxisItems (prop_of (JObj fs) "columns") = Err e ->
  wp_err (tDoLoadVisualization id ouLevels (Ok response))
     (fun e' w' =>
        e' = e /\
        isPluginLoading (st_loader (w_store w')) = true /\
        loadError (st_loader (w_store w')) = loadError (st_loader (w_store w)) /\
        st_visualization (w_store w') = st_visualization (w_store w) /\
        st_current (w_store w') = st_current (w_store w)) w.
Proof.
  intros Hv Hc Hcols.
  unfold tDoLoadVisualization, loadOnSuccess, adaptField.
  apply wp_err_bind_r. wp_run. apply wp_err_bind_r. wp_run.
  apply wp_err_bind_r. eapply wp_lift; [exact Hv|].
  apply wp_err_bind_r. eapply wp_lift; [exact Hc|].
  apply wp_err_bind_r. wp_run. apply wp_err_bind_l, wp_err_bind_r. wp_run.
  apply wp_err_bind_l. eapply wp_err_lift; [exact Hcols|]. done.
Qed.


End WithAnalytics.

(** The model of the library functions satisfies the laws the thunks rely on. *)
#[export] Instance analytics_model_laws : AnalyticsLaws.
Proof.
  split.
  - intros fs. simpl. induction fs as [|[k v] fs IH]; [done|]. simpl.
    destruct (String.eqb_spec k "id") as [->|Hk]; simpl; [done|].
    rewrite IH. by apply String.eqb_neq in Hk as ->.
  - intros fs k Hk. simpl. induction fs as [|[k' v] fs IH]; [done|].
    cbn [List.filter fst]. destruct (String.eqb_spec k' "id") as [->|Hk']; cbn [negb].
    + rewrite IH. cbn [assoc].
      assert (String.eqb "id" k = false) as -> by (apply String.eqb_neq; congruence). done.
    + cbn [assoc]. by rewrite IH.
  - done.
Qed.

Section WithLaws.
Context `{AnalyticsLaws}.

Lemma wp_deref_some r fs Q w : w_heap w !! r = Some fs -> Q (JObj fs) w -> wp (deref (Some r)) Q w.
Proof. intros Hr HQ. apply wp_bind. eapply wp_read_obj; [exact Hr|]. by apply wp_ret. Qed.

Lemma savePayload_id name description date v0 :
  assoc "id" (savePayload name description true date v0) = None.
Proof.
  unfold savePayload. destruct (truthy description);
    rewrite ?assoc_obj_set_ne by discriminate; apply preparePayloadForSaveAs_id.
Qed.

(** C20: a save whose API call answers [status: 'OK'] with a non-empty uid
    sends the payload built from [current] (without [id] for save-as) and
    navigates to [/uid] with [isSaving]: a new history entry for save-as,
    the current entry replaced for save. *)
Theorem save_navigates (w : world) (name description : jsval) (copy : bool) (date : string)
    (r : loc) (fs v0 : list (string * jsval)) (res resp : jsval) (uid : string) :
  st_current (w_store w) = Some r -> w_heap w !! r = Some fs ->
  getVisualizationFromCurrent (JObj fs) = Ok v0 ->
  get_prop res "status" = Ok (JStr "OK") -> get_prop res "response" = Ok resp ->
  get_prop resp "uid" = Ok (JStr uid) -> uid <> "" ->
  wp (tDoSaveVisualization name description copy date (Ok res))
     (fun _ w' =>
        w_log w' = (w_log w ++ [SaveVisualization (savePayload name description copy date v0)])%list /\
        (copy = true -> assoc "id" (savePayload name description copy date v0) = None) /\
        w_history w' = (if copy then push else replace) (w_history w) ("/" ++ uid) isSavingState /\
        isPluginLoading (st_loader (w_store w')) = true) w.
Proof.
  intros Hc Hr Hv Hs Hresp Huid Hne.
  unfold tDoSaveVisualization. apply wp_try_ok. wp_run. store_simpl. rewrite Hc.
  eapply wp_deref_some; [exact Hr|].
  apply wp_bind. eapply wp_lift; [exact Hv|]. cbv zeta. wp_run.
  eapply wp_await; [reflexivity|]. unfold saveOnSuccess.
  apply wp_bind. eapply wp_lift; [exact Hs|]. cbn [eq_str]. rewrite String.eqb_refl.
  apply wp_bind. eapply wp_lift; [exact Hresp|].
  apply wp_bind. eapply wp_lift; [exact Huid|].
  assert (Ht : truthy (JStr uid) = true) by (simpl; by apply negb_true_iff, String.eqb_neq).
  rewrite Ht. destruct copy; wp_run; (split; [done|]); (split; [|done]);
    [intros _; apply savePayload_id | discriminate].
Qed.

(** C21: a save whose API call answers with a status other than ['OK']
    neither navigates nor reports anything: the plugin stays marked as
    loading and the loader's error is unchanged. *)
Theorem save_not_ok_stalls (w : world) (name description : jsval) (copy : bool) (date : string)
    (r : loc) (fs v0 : list (string * jsval)) (res status : jsval) :
  st_current (w_store w) = Some r -> w_heap w !! r = Some fs ->
  getVisualizationFromCurrent (JObj fs) = Ok v0 ->
  get_prop res "status" = Ok status -> eq_str status "OK" = false ->
  wp (tDoSaveVisualization name description copy date (Ok res))
     (fun _ w' =>
        w_history w' = w_history w /\
        isPluginLoading (st_loader (w_store w')) = true /\
        loadError (st_loader (w_store w')) = loadError (st_loader (w_store w))) w.
Proof.
  intros Hc Hr Hv Hs Hst.
  unfold tDoSaveVisualization. apply wp_try_ok. wp_run. store_simpl. rewrite Hc.
  eapply wp_deref_some; [exact Hr|].
  apply wp_bind. eapply wp_lift; [exact Hv|]. cbv zeta. wp_run.
  eapply wp_await; [reflexivity|]. unfold saveOnSuccess.
  apply wp_bind. eapply wp_lift; [exact Hs|]. rewrite Hst. by wp_run.
Qed.

(** When the save request is rejected the [catch] block clears the
    loading flag and publishes the generic server error, whatever the
    rejection carries; the history is not touched. *)
Theorem save_rejected (w : world) (name description : jsval) (copy : bool) (date : string)
    (r : loc) (fs v0 : list (string * jsval)) (reason : jsval) :
  st_current (w_store w) = Some r -> w_heap w !! r = Some fs ->
  getVisualizationFromCurrent (JObj fs) = Ok v0 ->
  wp (tDoSaveVisualization name description copy date (Err reason))
     (fun _ w' =>
        w_history w' = w_history w /\
        isPluginLoading (st_loader (w_store w')) = false /\
        loadError (st_loader (w_store w')) = Some GenericServerError) w.
Proof.
  intros Hc Hr Hv.
  unfold tDoSaveVisualization. apply wp_try_err. apply wp_err_bind_r. wp_run.
  apply wp_err_bind_r. wp_run. store_simpl. rewrite Hc. apply wp_err_bind_r.
  eapply wp_deref_some; [exact Hr|]. apply wp_err_bind_r. eapply wp_lift; [exact Hv|].
  cbv zeta. apply wp_err_bind_r. wp_run. apply wp_err_bind_l. eapply wp_err_await; [reflexivity|].
  by wp_run.
Qed.

(** Every payload the save thunk sends has a truthy [name]: the one
    given in the dialog, else the visualization's own, else the generated
    "Untitled ... visualization, <date>". *)
Theorem savePayload_name_truthy (name description : jsval) (copy : bool) (date : string)
    (v0 : list (string * jsval)) :
  truthy (prop_of (JObj (savePayload name description copy date v0)) "name") = true.
Proof.
  unfold savePayload.
  assert (Hn : forall fs, prop_of (JObj (obj_set "name" (saveName name fs date) fs)) "name"
                          = saveName name fs date) by (intros; simpl; by rewrite assoc_obj_set_eq).
  destruct (truthy description);
    [rewrite prop_of_obj_set_ne by discriminate|]; rewrite Hn; unfold saveName.
  all: destruct (truthy name) eqn:Hname; [done|].
  all: destruct (truthy (prop_of _ "name")) eqn:Hv; [done|].
  all: unfold i18n_t; simpl String.length; rewrite interpolate_plain_char by discriminate; done.
Qed.

End WithLaws.


Lemma deleted_message (nm : string) :
  i18n_t deletedTemplate [("deletedObject", nm)] = quote ++ nm ++ quote ++ " successfully deleted.".
Proof. reflexivity. Qed.

(** C23: deleting shows a success notification naming the current
    visualization in quotes for two seconds, then pushes the application
    root onto the history; the store's visualization slices are left for
    the root route to reset. *)
Theorem delete_notifies_and_goes_home `{Analytics} (w : world) (r : loc)
    (fs : list (string * jsval)) (nm : string) :
  st_current (w_store w) = Some r -> w_heap w !! r = Some fs ->
  prop_of (JObj fs) "name" = JStr nm ->
  wp tDoDeleteVisualization
     (fun _ w' =>
        st_snackbar (w_store w') =
          Some (mkSnackbar VARIANT_SUCCESS (JStr (quote ++ nm ++ quote ++ " successfully deleted."))
                  (Some 2000%Z)) /\
        w_history w' = push (w_history w) "/" JUndefined /\
        st_visualization (w_store w') = st_visualization (w_store w) /\
        st_current (w_store w') = st_current (w_store w)) w.
Proof.
  intros Hc Hr Hn. unfold tDoDeleteVisualization. wp_run. rewrite Hc.
  eapply wp_deref_some; [exact Hr|].
  apply wp_bind. eapply wp_lift; [unfold get_prop; simpl is_nullish; rewrite Hn; reflexivity|].
  wp_run. store_simpl. rewrite deleted_message. by repeat split.
Qed.

(** A world with one saved visualization, shown unchanged. *)
Definition ex_settings : settings := mkSettings (JArr [JStr "ImspTQPwCqd"]) (JStr "LAST_12_MONTHS") (JStr "SPACE").
Definition ex_state (vis cur : option loc) : state :=
  mkState vis cur (UiCleared JUndefined JUndefined JUndefined) ∅ ex_settings DEFAULT_USER None
    (mkLoader false None).
Definition ex_saved_world : world :=
  mkWorld {[ 1%positive := [("id", JStr "v1"); ("name", JStr "Old"); ("description", JStr "Notes")] ]}
    2%positive (ex_state (Some 1%positive) (Some 1%positive)) initial_history [].

Lemma ex_saved_world_refs_ok : refs_ok ex_saved_world.
Proof. intros r [[= <-]|[= <-]]; by eexists. Qed.


Lemma rename_keeps_reference_equality_witness :
  wp (tDoRenameVisualization (JStr "New") JUndefined)
     (fun _ w' => st_visualization (w_store w') = st_current (w_store w') <->
                  st_visualization (w_store ex_saved_world) = st_current (w_store ex_saved_world))
     ex_saved_world.
Proof. apply rename_keeps_reference_equality, ex_saved_world_refs_ok. Defined.

Lemma rename_contents_witness :
  wp (tDoRenameVisualization (JStr "New") JUndefined)
     (fun _ w' =>
        obj_of w' (st_visualization (w_store w')) =
          JObj (renamed (JStr "New") JUndefined
                  (spread_fields (obj_of ex_saved_world (st_visualization (w_store ex_saved_world))))) /\
        obj_of w' (st_current (w_store w')) =
          JObj (renamed (JStr "New") JUndefined
                  (spread_fields (obj_of ex_saved_world (st_current (w_store ex_saved_world))))))
     ex_saved_world.
Proof. apply rename_contents, ex_saved_world_refs_ok. Defined.

Lemma rename_empty_description_kept_witness :
  wp (tDoRenameVisualization (JStr "New") (JStr ""))
     (fun _ w' => prop_of (obj_of w' (st_visualization (w_store w'))) "description" =
                  prop_of (obj_of ex_saved_world (st_visualization (w_store ex_saved_world))) "description")
     ex_saved_world.
Proof. apply rename_empty_description_kept, ex_saved_world_refs_ok. Defined.

(** The layout of the spec's first end-to-end scenario, as the API returns it. *)
Definition ex_visualization (columns : jsval) : jsval :=
  JObj [("id", JStr "v1"); ("type", JStr "COLUMN");
        ("columns", columns);
        ("rows", JArr [JObj [("dimension", JStr "pe");
                             ("items", JArr [JObj [("id", JStr "LAST_12_MONTHS")]])]]);
        ("filters", JArr [])].
Definition ex_columns : jsval :=
  JArr [JObj [("dimension", JStr "dx"); ("items", JArr [JObj [("id", JStr "d1")]])]].
Definition ex_response (columns : jsval) : jsval :=
  JObj [("visualization", ex_visualization columns)].
Definition ex_empty_world : world :=
  mkWorld ∅ 1%positive (ex_state None None) initial_history [].

Lemma load_success_witness :
  wp (tDoLoadVisualization (JStr "v1") JUndefined (Ok (ex_response ex_columns)))
     (fun _ w' => st_visualization (w_store w') = st_current (w_store w') /\
                  loadError (st_loader (w_store w')) = None)
     ex_empty_world.
Proof.
  eapply wp_mono; [|eapply load_success; reflexivity].
  intros _ w' (-> & -> & _ & _ & ? & _). by split.
Defined.

Lemma load_adapter_error_escapes_witness :
  wp_err (tDoLoadVisualization (JStr "v1") JUndefined (Ok (ex_response (JObj []))))
     (fun e' w' => e' = TypeError /\ isPluginLoading (st_loader (w_store w')) = true)
     ex_empty_world.
Proof.
  unfold wp_err.
  pose proof (load_adapter_error_escapes ex_empty_world (JStr "v1") JUndefined
                (ex_response (JObj [])) (ex_visualization (JObj []))
                [("id", JStr "v1"); ("type", JStr "COLUMN"); ("columns", JObj []);
                 ("rows", JArr [JObj [("dimension", JStr "pe");
                                      ("items", JArr [JObj [("id", JStr "LAST_12_MONTHS")]])]]);
                 ("filters", JArr [])] TypeError eq_refl eq_refl eq_refl) as Hw.
  unfold wp_err in Hw. destruct (tDoLoadVisualization _ _ _ _) as [[]]; [done|].
  by destruct Hw as (-> & ? & _).
Defined.

Definition ex_save_response (status : string) : jsval :=
  JObj [("status", JStr status); ("response", JObj [("uid", JStr "nW3bq1")])].

Lemma save_navigates_witness :
  wp (tDoSaveVisualization JUndefined JUndefined true "Nov 9, 2026" (Ok (ex_save_response "OK")))
     (fun _ w' => w_history w' = push (w_history ex_saved_world) "/nW3bq1" isSavingState /\
                  isPluginLoading (st_loader (w_store w')) = true)
     ex_saved_world.
Proof.
  eapply wp_mono;
    [|eapply (save_navigates ex_saved_world JUndefined JUndefined true "Nov 9, 2026" 1%positive);
      try reflexivity; discriminate].
  intros _ w' (_ & _ & Hh & Hl). by split.
Defined.

Lemma save_not_ok_stalls_witness :
  wp (tDoSaveVisualization JUndefined JUndefined false "Nov 9, 2026" (Ok (ex_save_response "ERROR")))
     (fun _ w' => w_history w' = w_history ex_saved_world /\
                  isPluginLoading (st_loader (w_store w')) = true)
     ex_saved_world.
Proof.
  eapply wp_mono;
    [|eapply (save_not_ok_stalls ex_saved_world JUndefined JUndefined false "Nov 9, 2026" 1%positive);
      reflexivity].
  intros _ w' (Hh & Hl & _). by split.
Defined.

Lemma save_rejected_witness :
  wp (tDoSaveVisualization JUndefined JUndefined false "Nov 9, 2026" (Err (JStr "E4000")))
     (fun _ w' => loadError (st_loader (w_store w')) = Some GenericServerError)
     ex_saved_world.
Proof.
  eapply wp_mono;
    [|eapply (save_rejected ex_saved_world JUndefined JUndefined false "Nov 9, 2026" 1%positive);
      reflexivity].
  by intros _ w' (_ & _ & He).
Defined.

Lemma delete_notifies_and_goes_home_witness :
  wp tDoDeleteVisualization
     (fun _ w' => w_history w' = push (w_history ex_saved_world) "/" JUndefined)
     ex_saved_world.
Proof.
  eapply wp_mono; [|eapply (delete_notifies_and_goes_home ex_saved_world 1%positive); reflexivity].
  by intros _ w' (_ & Hh & _).
Defined.

End ActionsFacts.
