(* ===== verification/MenuBar.v ===== *)
(** * The menu bar's handlers ([components/MenuBar/MenuBar.js])

    The file menu opens and creates visualizations by navigating
    ([onOpen], [onNew]), offers Save only when the visualization has
    unsaved changes, and turns a failed delete into a notification
    ([onError]).  The connected component is [MenuBar]: the store's
    references through [mapStateToProps], the dispatching handlers of
    [mapDispatchToProps], and the props [UnconnectedMenuBar] passes the
    file menu.  Whether there are unsaved changes is
    [getVisualizationState] of [modules/visualization.js] (outside the
    sources), modelled as the spec describes it: it compares the store's
    [visualization] and [current] by reference. *)

From stdpp Require Import base gmap strings list.
From Stdlib Require Import String ZArith.
From S2P Require Import Prelude JsValue I18n Constants AxisItems Store History Actions.

Open Scope string_scope.
#[local] Set Warnings "-clear-no-such-hyp".

Module MenuBar.
Import Store History Actions.

(** ** The visualization state *)

Inductive vis_state : Type :=
| STATE_EMPTY
| STATE_UNSAVED
| STATE_SAVED
| STATE_DIRTY.

Definition getVisualizationState (visualization current : option loc) : vis_state :=
  match current, visualization with
  | None, _ => STATE_EMPTY
  | Some _, None => STATE_UNSAVED
  | Some c, Some v => if bool_decide (c = v) then STATE_SAVED else STATE_DIRTY
  end.

Definition vis_state_eqb (a b : vis_state) : bool :=
  match a, b with
  | STATE_EMPTY, STATE_EMPTY | STATE_UNSAVED, STATE_UNSAVED
  | STATE_SAVED, STATE_SAVED | STATE_DIRTY, STATE_DIRTY => true
  | _, _ => false
  end.

(** ** Navigation (lines 28-42) *)

Definition onOpen (id : string) (h : history) : history :=
  let path := "/" ++ id in
  if String.eqb (pathname (present h)) path
  then replace h path (JObj [("isOpening", JBool true)])
  else push h path JUndefined.

Definition onNew (h : history) : history :=
  if String.eqb (pathname (present h)) "/"
  then replace h "/" (JObj [("isResetting", JBool true)])
  else push h "/" JUndefined.

(** ** The visualization types offered by the file menu (lines 51-57) *)

Section VisTypes.
(** [VIS_TYPE_GROUP_ALL], [VIS_TYPE_GROUP_CHARTS] of [@dhis2/analytics] and
    [visTypes] of [modules/visualization.js]. *)
Variables VIS_TYPE_GROUP_ALL VIS_TYPE_GROUP_CHARTS : jsval.
Variable visTypes : list jsval.

Definition filterVisTypes : list jsval :=
  JObj [("type", VIS_TYPE_GROUP_ALL)]
  :: JObj [("type", VIS_TYPE_GROUP_CHARTS); ("insertDivider", JBool true)]
  :: map (fun visType => JObj [("type", visType)]) visTypes.
End VisTypes.

(** ** The dispatching handlers ([mapDispatchToProps], lines 117-139) *)

(** The parameter pattern [{ name, description }] of the rename and save
    thunks: destructuring [null] or [undefined] throws a [TypeError]. *)
Definition details_fields (details : jsval) : js_result (jsval * jsval) :=
  name <- get_prop details "name" ;;
  description <- get_prop details "description" ;;
  Ok (name, description).

Definition dashboardDeleteMessage : string :=
  "This visualization can't be deleted because it is used on one or more dashboards".

Section Handlers.
Context `{Analytics}.
(** [getErrorVariantByStatusCode] of [modules/error.js]. *)
Variable getErrorVariantByStatusCode : jsval -> string.

Definition onRenameVisualization (details : jsval) : M unit :=
  nd ← lift (details_fields details);
  tDoRenameVisualization nd.1 nd.2.

(** [(details = {}, copy)]: the default replaces [undefined] only. *)
Definition onSaveVisualization (details : jsval) (copy : bool) (date : string)
    (saved : result jsval jsval) : M unit :=
  let details := match details with JUndefined => JObj [] | _ => details end in
  nd ← lift (details_fields details);
  tDoSaveVisualization nd.1 nd.2 copy date saved.

Definition onDeleteVisualization : M unit := tDoDeleteVisualization.

Definition onError (error : jsval) : M unit :=
  errorCode ← lift (get_prop error "errorCode");
  message ← (if eq_str errorCode "E4030"
             then mret (JStr (i18n_t dashboardDeleteMessage []))
             else lift (get_prop error "message"));
  httpStatusCode ← lift (get_prop error "httpStatusCode");
  let variant := getErrorVariantByStatusCode httpStatusCode in
  dispatch (RECEIVED_SNACKBAR_MESSAGE (mkSnackbar variant message None)).

(** [mapDispatchToProps] (lines 117-139): the handlers the connected
    component receives. *)
Record dispatch_props := mkDispatchProps {
  dp_onRenameVisualization : jsval -> M unit;
  dp_onSaveVisualization : jsval -> bool -> string -> result jsval jsval -> M unit;
  dp_onDeleteVisualization : M unit;
  dp_onError : jsval -> M unit }.

Definition mapDispatchToProps : dispatch_props :=
  mkDispatchProps onRenameVisualization onSaveVisualization onDeleteVisualization onError.

End Handlers.

(** [mapStateToProps] (lines 112-115): the two references of the store. *)
Record state_props := mkStateProps {
  sp_current : option loc;
  sp_visualization : option loc }.

Definition mapStateToProps (s : state) : state_props :=
  mkStateProps (st_current s) (st_visualization s).

(** Lines 43-49: each file menu callback calls the matching prop. *)
Definition getOnRename (p : dispatch_props) : jsval -> M unit :=
  fun details => dp_onRenameVisualization p details.
Definition getOnSave (p : dispatch_props) : jsval -> string -> result jsval jsval -> M unit :=
  fun details => dp_onSaveVisualization p details false.
Definition getOnSaveAs (p : dispatch_props) : jsval -> string -> result jsval jsval -> M unit :=
  fun details => dp_onSaveVisualization p details true.
Definition getOnDelete (p : dispatch_props) : M unit := dp_onDeleteVisualization p.
Definition getOnError (p : dispatch_props) : jsval -> M unit := fun error => dp_onError p error.

(** The test of the [onSave] prop (lines 79-85): the state is one of
    [STATE_UNSAVED] and [STATE_DIRTY]. *)
Definition onSaveGate (visualization current : option loc) : bool :=
  existsb (vis_state_eqb (getVisualizationState visualization current))
    [STATE_UNSAVED; STATE_DIRTY].

(** The props of [FileMenu]; an absent callback is [undefined]. *)
Record file_menu := mkFileMenu {
  fm_currentUser : jsval;
  fm_fileType : jsval;
  fm_fileObject : option loc;
  fm_filterVisTypes : list jsval;
  fm_defaultFilterVisType : jsval;
  fm_onOpen : string -> history -> history;
  fm_onNew : history -> history;
  fm_onRename : jsval -> M unit;
  fm_onSave : option (jsval -> string -> result jsval jsval -> M unit);
  fm_onSaveAs : jsval -> string -> result jsval jsval -> M unit;
  fm_onDelete : M unit;
  fm_onError : jsval -> M unit }.

(** What [UnconnectedMenuBar] renders that the model keeps: the test id
    of the update button and the props of the file menu. *)
Record menu_bar := mkMenuBar {
  updateButton_dataTest : string;
  fileMenu : file_menu }.

(** [UnconnectedMenuBar] (lines 59-99), with the file menu's vis types
    [filterVisTypes] and [VIS_TYPE_GROUP_ALL] as arguments. *)
Definition UnconnectedMenuBar (filterVisTypes : list jsval) (VIS_TYPE_GROUP_ALL : jsval)
    (dataTest apiObjectName currentUser : jsval) (sp : state_props) (dp : dispatch_props)
    : menu_bar :=
  mkMenuBar (js_to_string dataTest ++ "-update-button")
    (mkFileMenu currentUser apiObjectName (sp_current sp) filterVisTypes VIS_TYPE_GROUP_ALL
       onOpen onNew (getOnRename dp)
       (if onSaveGate (sp_visualization sp) (sp_current sp) then Some (getOnSave dp) else None)
       (getOnSaveAs dp) (getOnDelete dp) (getOnError dp)).

(** [connect(mapStateToProps, mapDispatchToProps)(UnconnectedMenuBar)]
    (lines 141-144), rendered against a store state. *)
Definition MenuBar `{Analytics} (getErrorVariantByStatusCode : jsval -> string)
    (filterVisTypes : list jsval) (VIS_TYPE_GROUP_ALL : jsval)
    (dataTest apiObjectName currentUser : jsval) (s : state) : menu_bar :=
  UnconnectedMenuBar filterVisTypes VIS_TYPE_GROUP_ALL dataTest apiObjectName currentUser
    (mapStateToProps s) (mapDispatchToProps getErrorVariantByStatusCode).

(** Whether the connected menu bar offers Save in a store state. *)
Definition saveOffered (s : state) : bool :=
  onSaveGate (sp_visualization (mapStateToProps s)) (sp_current (mapStateToProps s)).

End MenuBar.

(** ** Facts about the menu bar *)
Module MenuBarFacts.
Import AxisItems Store History Actions ActionsFacts MenuBar.

(** C25: the connected menu bar passes the file menu an [onSave]
    callback exactly when a visualization is open and the store's
    [visualization] and [current] are different references; what the two
    objects contain plays no part. *)
Theorem saveOffered_iff `{Analytics} (variantOf : jsval -> string) (fvt : list jsval)
    (groupAll dataTest apiObjectName currentUser : jsval) (s : state) :
  is_Some (fm_onSave (fileMenu (MenuBar variantOf fvt groupAll dataTest apiObjectName currentUser s)))
    <-> st_current s <> None /\ st_visualization s <> st_current s.
Proof.
  unfold MenuBar, UnconnectedMenuBar, onSaveGate, mapStateToProps, getVisualizationState. simpl.
  destruct (st_current s) as [c|], (st_visualization s) as [v|]; simpl;
    try case_bool_decide as Hb; simplify_eq/=; split; intros; try naive_solver;
    by destruct_and?.
Qed.

Section WithAnalytics.
Context `{Analytics}.

(** C24: renaming an open visualization through the menu keeps its state:
    a saved visualization stays saved and a dirty one dirty; an unsaved
    one (no [visualization]) becomes dirty, so whether Save is offered
    does not change. *)
Theorem rename_visualization_state (w : world) (details : jsval) :
  refs_ok w -> is_nullish details = false -> st_current (w_store w) <> None ->
  wp (onRenameVisualization details)
     (fun _ w' =>
        getVisualizationState (st_visualization (w_store w')) (st_current (w_store w')) =
        match getVisualizationState (st_visualization (w_store w)) (st_current (w_store w)) with
        | STATE_UNSAVED => STATE_DIRTY
        | st => st
        end) w.
Proof.
  intros Hok Hd Hc. unfold onRenameVisualization. apply wp_bind.
  eapply wp_lift; [unfold details_fields, get_prop; rewrite Hd; reflexivity|].
  eapply wp_mono; [|by apply rename_run]. intros _ w' (_ & -> & _). store_simpl.
  unfold getVisualizationState.
  destruct (st_current (w_store w)) as [c|]; [|done].
  destruct (st_visualization (w_store w)) as [v|];
    repeat (case_bool_decide; simplify_eq; try lia); done.
Qed.

(** Right after a visualization is loaded the file menu does not
    offer Save: [visualization] and [current] are the same new object, so
    the state is [STATE_SAVED]. *)
Theorem load_disables_save (w : world) (id ouLevels response v : jsval)
    (fs : list (string * jsval)) (cs rs fls : list jsval) :
  get_prop response "visualization" = Ok v ->
  convertOuLevelsToUids ouLevels v = Ok fs ->
  adaptAxisItems (prop_of (JObj fs) "columns") = Ok cs ->
  adaptAxisItems (prop_of (JObj fs) "rows") = Ok rs ->
  adaptAxisItems (prop_of (JObj fs) "filters") = Ok fls ->
  wp (tDoLoadVisualization id ouLevels (Ok response))
     (fun _ w' =>
        getVisualizationState (st_visualization (w_store w')) (st_current (w_store w')) = STATE_SAVED /\
        saveOffered (w_store w') = false) w.
Proof.
  intros Hv Hc Hcols Hrows Hfils.
  unfold tDoLoadVisualization, loadOnSuccess, adaptField. wp_run.
  eapply wp_lift; [exact Hv|]. wp_run. eapply wp_lift; [exact Hc|]. wp_run.
  eapply wp_lift; [exact Hcols|]. wp_run.
  eapply wp_lift; [rewrite prop_of_obj_set_ne by discriminate; exact Hrows|]. wp_run.
  eapply wp_lift; [rewrite !prop_of_obj_set_ne by discriminate; exact Hfils|]. wp_run.
  unfold saveOffered, onSaveGate, mapStateToProps, getVisualizationState. store_simpl. cbn [sp_current sp_visualization].
  by rewrite bool_decide_eq_true_2.
Qed.

(** The menu's error handler on an error object shows one
    notification, without a duration: the dashboard message for the
    code [E4030], whatever the error's own message, and the error's
    [message] passed through unchanged otherwise, with the variant of its
    HTTP status; nothing but the notification changes. *)
Theorem onError_notifies (variantOf : jsval -> string) (w : world) (error : jsval) :
  is_nullish error = false ->
  wp (onError variantOf error)
     (fun _ w' =>
        w_store w' =
          rootReducer (w_store w)
            (RECEIVED_SNACKBAR_MESSAGE
               (mkSnackbar (variantOf (prop_of error "httpStatusCode"))
                  (if eq_str (prop_of error "errorCode") "E4030"
                   then JStr "This visualization can't be deleted because it is used on one or more dashboards"
                   else prop_of error "message") None)) /\
        w_heap w' = w_heap w /\ w_history w' = w_history w) w.
Proof.
  intros He. unfold onError, get_prop. rewrite He. wp_run.
  destruct (eq_str _ "E4030"); wp_run; by repeat split.
Qed.

(** The error handler reads [error.errorCode] without a guard: on
    [null] or [undefined] it throws a [TypeError] and shows nothing. *)
Theorem onError_nullish (variantOf : jsval -> string) (w : world) (error : jsval) :
  is_nullish error = true ->
  wp_err (onError variantOf error) (fun e w' => e = TypeError /\ w' = w) w.
Proof.
  intros He. unfold onError. apply wp_err_bind_l.
  eapply wp_err_lift; [unfold get_prop; by rewrite He|]. done.
Qed.


End WithAnalytics.

(** C27: opening the visualization already shown does not add a history
    entry: the current entry is replaced by the same path with the
    [isOpening] state; opening another one pushes it, keeping the current
    entry behind it.  So opening the same visualization twice adds one
    entry, not two. *)
Theorem onOpen_same_path (id : string) (h : history) :
  onOpen id (onOpen id h) =
    mkHistory (past (onOpen id h)) (mkLocation ("/" ++ id) (JObj [("isOpening", JBool true)])) /\
  (pathname (present h) <> "/" ++ id -> onOpen id h = push h ("/" ++ id) JUndefined).
Proof.
  split.
  - unfold onOpen at 1. cbv zeta. assert (Hp : pathname (present (onOpen id h)) = "/" ++ id)
      by (unfold onOpen; by destruct (String.eqb _ _)).
    by rewrite Hp, String.eqb_refl.
  - intros Hne. unfold onOpen. cbv zeta. by rewrite (proj2 (String.eqb_neq _ _) Hne).
Qed.

(** ** Witnesses *)

Definition ex_details : jsval := JObj [("name", JStr "New"); ("description", JUndefined)].

Lemma onOpen_same_path_witness :
  onOpen "v1" initial_history = push initial_history "/v1" JUndefined.
Proof. apply (proj2 (onOpen_same_path "v1" initial_history)). discriminate. Defined.

Lemma rename_visualization_state_witness :
  wp (onRenameVisualization ex_details)
     (fun _ w' =>
        getVisualizationState (st_visualization (w_store w')) (st_current (w_store w')) =
        match getVisualizationState (st_visualization (w_store ex_saved_world))
                (st_current (w_store ex_saved_world)) with
        | STATE_UNSAVED => STATE_DIRTY
        | st => st
        end) ex_saved_world.
Proof.
  apply rename_visualization_state; [exact ex_saved_world_refs_ok | reflexivity | discriminate].
Defined.

Lemma load_disables_save_witness :
  wp (tDoLoadVisualization (JStr "v1") (JArr []) (Ok (ex_response ex_columns)))
     (fun _ w' =>
        getVisualizationState (st_visualization (w_store w')) (st_current (w_store w')) = STATE_SAVED /\
        saveOffered (w_store w') = false) ex_empty_world.
Proof.
  eapply (load_disables_save ex_empty_world _ _ _ (ex_visualization ex_columns));
    vm_compute; reflexivity.
Defined.

Definition ex_error (code : string) : jsval :=
  JObj [("errorCode", JStr code); ("message", JStr "Conflict"); ("httpStatusCode", JNum 409)].

Definition ex_variant (status : jsval) : string :=
  if eq_num status 409 then "warning" else "error".

Lemma onError_notifies_witness :
  wp (onError ex_variant (ex_error "E4030"))
     (fun _ w' =>
        w_store w' =
          rootReducer (w_store ex_saved_world)
            (RECEIVED_SNACKBAR_MESSAGE
               (mkSnackbar (ex_variant (prop_of (ex_error "E4030") "httpStatusCode"))
                  (if eq_str (prop_of (ex_error "E4030") "errorCode") "E4030"
                   then JStr "This visualization can't be deleted because it is used on one or more dashboards"
                   else prop_of (ex_error "E4030") "message") None)) /\
        w_heap w' = w_heap ex_saved_world /\ w_history w' = w_history ex_saved_world) ex_saved_world.
Proof. apply onError_notifies. reflexivity. Defined.

Lemma onError_nullish_witness :
  wp_err (onError ex_variant JNull) (fun e w' => e = TypeError /\ w' = ex_saved_world) ex_saved_world.
Proof. apply onError_nullish. reflexivity. Defined.

End MenuBarFacts.
