(* ===== verification/SelectedItems.v ===== *)
(** * The list of selected items of a dimension dialog
    ([components/Dimensions/Dialogs/SelectedItems.js])

    The component keeps a local state (the highlighted ids, the index
    clicked last, the id being dragged) and reports changes of the
    selection to its parent through two callbacks, [onDeselect] and
    [onReorder].  Each handler is a function from the props and the state
    to the callbacks it calls, in order, and the next state; the
    [setState] calls of one handler are merged into that state, as React
    batches them, and the handler reads the state it started with.  The
    drag-and-drop handlers receive the drop result of
    [react-beautiful-dnd]: a source location, an optional destination
    location and the dragged id.  [render] builds the props of one
    [Item] per id, reading its name in the store's metadata. *)

From stdpp Require Import base list sets strings gmap pretty sorting.
From Stdlib Require Import String ZArith Lia.
From S2P Require Import Prelude JsValue JsArray I18n Store.

Open Scope string_scope.
#[local] Set Warnings "-clear-no-such-hyp".

Module SelectedItems.

(** [state = { highlighted: [], lastClickedIndex: 0, draggingId: null }]
    (line 30). *)
Record sel_state := mkSelState {
  highlighted : list string;
  lastClickedIndex : Z;
  draggingId : option string }.

Definition initial_sel_state : sel_state := mkSelState [] 0 None.

Definition set_highlighted (hl : list string) (st : sel_state) : sel_state :=
  mkSelState hl (lastClickedIndex st) (draggingId st).
Definition set_draggingId (d : option string) (st : sel_state) : sel_state :=
  mkSelState (highlighted st) (lastClickedIndex st) d.

(** The calls of the parent's callbacks. *)
Inductive output : Type :=
| OnDeselect (ids : list string)
| OnReorder (items : list string).

(** A location of the drop result: the droppable and an index in it. *)
Record drag_location := mkDragLocation {
  droppableId : string;
  index : Z }.

Record drop_result := mkDropResult {
  destination : option drag_location;
  source : drag_location;
  draggableId : string }.

(** A property read on a location object: [draggableId] is not one. *)
Definition location_prop (l : drag_location) (k : string) : jsval :=
  if String.eqb k "droppableId" then JStr (droppableId l)
  else if String.eqb k "index" then JNum (index l)
  else JUndefined.

(** [===] on the primitive values a location holds. *)
Definition strict_eq_prim (a b : jsval) : bool :=
  match a, b with
  | JUndefined, JUndefined | JNull, JNull => true
  | JBool x, JBool y => Bool.eqb x y
  | JNum x, JNum y => Z.eqb x y
  | JStr x, JStr y => String.eqb x y
  | _, _ => false
  end.

(** [Boolean(s)] for a string id. *)
Definition str_truthy (s : string) : bool := negb (String.eqb s "").

Definition includes (l : list string) (x : string) : bool := existsb (String.eqb x) l.

(** ** Deselecting (lines 32-49) *)

Definition onDeselectClick (st : sel_state) : list output * sel_state :=
  ([OnDeselect (highlighted st)], set_highlighted [] st).

Definition onRemoveSelected (id : string) (st : sel_state) : list output * sel_state :=
  let hl := List.filter (fun dataDimId => negb (String.eqb dataDimId id)) (highlighted st) in
  ([OnDeselect [id]], set_highlighted hl st).

Definition onDeselectAllClick (items : list string) (st : sel_state) : list output * sel_state :=
  ([OnDeselect items], set_highlighted [] st).

(** ** Highlighting (lines 51-66) *)

Section Toggle.
(** [toggler] of [modules/toggler.js]: the new highlighted ids and the new
    last clicked index. *)
Variable toggler : string -> bool -> bool -> Z -> Z -> list string -> list string -> list string * Z.

Definition toggleHighlight (items : list string) (isCtrlPressed isShiftPressed : bool)
    (idx : Z) (id : string) (st : sel_state) : list output * sel_state :=
  let newState := toggler id isCtrlPressed isShiftPressed idx (lastClickedIndex st)
                    (highlighted st) items in
  ([], mkSelState newState.1 newState.2 (draggingId st)).
End Toggle.

(** ** Rendering an item (lines 68-113) *)

Definition isGhosting (st : sel_state) (id : string) : bool :=
  includes (highlighted st) id &&
  match draggingId st with
  | Some d => str_truthy d && negb (String.eqb d id)
  | None => false
  end.

Definition showCount (st : sel_state) (isDragging : bool) : bool :=
  isDragging && (1 <? List.length (highlighted st))%nat &&
  match draggingId st with Some d => includes (highlighted st) d | None => false end.

(** [metadata[id].name] throws when [id] has no metadata. *)
Definition itemText (metadata : gmap string jsval) (st : sel_state) (id : string)
    (isDragging : bool) : js_result jsval :=
  if showCount st isDragging
  then Ok (JStr (pretty (N.of_nat (List.length (highlighted st))) ++ " items"))
  else get_prop (default JUndefined (metadata !! id)) "name".

(** ** Dragging (lines 115-185) *)

Definition onDragStart (id : string) (st : sel_state) : list output * sel_state :=
  let selected := List.find (fun itemId => String.eqb itemId id) (highlighted st) in
  let selected_truthy := match selected with Some s => str_truthy s | None => false end in
  let st1 := if negb selected_truthy then set_highlighted [] st else st in
  ([], set_draggingId (Some id) st1).

(** [destinationIndex] after the loop of lines 160-169. *)
Definition adjustDestination (itemsLength : Z) (indexed : list (string * Z)) (d0 : Z) : Z :=
  if (d0 <? itemsLength - 1)%Z && (1 <? d0)%Z
  then fold_left (fun d ix => if (ix.2 <? d)%Z then (d - 1)%Z else d) indexed d0
  else d0.

(** Lines 171-174: each item is removed where [newList.indexOf] finds it. *)
Definition removeIndexed (indexed : list (string * Z)) (l : list string) : list string :=
  fold_left (fun l ix => js_splice l (indexOf ix.1 l) 1 []) indexed l.

(** Lines 176-178: the [i]-th item is inserted at [destinationIndex + i]. *)
Fixpoint insertIndexed (d i : Z) (indexed : list (string * Z)) (l : list string) : list string :=
  match indexed with
  | [] => l
  | ix :: rest => insertIndexed d (i + 1) rest (js_splice l (d + i) 0 [ix.1])
  end.

(** Lines 151-156: the highlighted ids with their index in [items],
    sorted by that index. *)
Definition indexedItemsToMove (items hl : list string) : list (string * Z) :=
  sortBy snd (map (fun item => (item, indexOf item items)) hl).

(** The list passed to [onReorder] (lines 145-182). *)
Definition reorder (items hl : list string) (result : drop_result) (dest : drag_location)
    : list string :=
  let newList := items in
  if includes hl (draggableId result) && (1 <? List.length hl)%nat then
    let indexed := indexedItemsToMove items hl in
    let d := adjustDestination (Z.of_nat (List.length items)) indexed (index dest) in
    insertIndexed d 0 indexed (removeIndexed indexed newList)
  else
    js_splice (js_splice newList (index (source result)) 1 []) (index dest) 0 [draggableId result].

Definition onDragEnd (items : list string) (result : drop_result) (st : sel_state)
    : list output * sel_state :=
  let st' := set_draggingId None st in
  match destination result with
  | None => ([], st')
  | Some dest =>
      if strict_eq_prim (location_prop dest "draggableId")
           (location_prop (source result) "draggableId") &&
         Z.eqb (index dest) (index (source result))
      then ([], st')
      else ([OnReorder (reorder items (highlighted st) result dest)], st')
  end.

(** ** Rendering the list (lines 68-113 and 187-231) *)

(** The props of the [Item] of one list entry that the model keeps. *)
Record item_props := mkItemProps {
  item_id : string;
  item_index : Z;
  item_name : jsval;
  item_highlighted : bool;
  item_isGhosting : bool }.

(** [renderListItem(id, index)], with [snapshot.isDragging] of its
    [Draggable]; reading the name throws when [id] has no metadata. *)
Definition renderListItem (metadata : gmap string jsval) (st : sel_state) (isDragging : bool)
    (id : string) (idx : Z) : js_result item_props :=
  name <- itemText metadata st id isDragging ;;
  Ok (mkItemProps id idx name (includes (highlighted st) id) (isGhosting st id)).

(** [this.props.items.map((id, index) => this.renderListItem(id, index, ...))]:
    the first exception stops the rendering. *)
Fixpoint renderListItems (metadata : gmap string jsval) (st : sel_state)
    (isDragging : string -> bool) (idx : Z) (ids : list string) : js_result (list item_props) :=
  match ids with
  | [] => Ok []
  | id :: ids' =>
      it <- renderListItem metadata st (isDragging id) id idx ;;
      rest <- renderListItems metadata st isDragging (idx + 1) ids' ;;
      Ok (it :: rest)
  end.

(** What [render] shows: the subtitle, the droppable's id and its items,
    the class of the arrow button and the label of the deselect button. *)
Record selected_view := mkSelectedView {
  view_subtitle : string;
  view_droppableId : string;
  view_items : list item_props;
  view_arrowClassName : string;
  view_deselectAllLabel : string }.

(** [Subtitle] (lines 17-21). *)
Definition Subtitle : string := i18n_t "Selected Data" [].

Definition render (className : jsval) (metadata : gmap string jsval) (items : list string)
    (st : sel_state) (isDragging : string -> bool) : js_result selected_view :=
  dataDimensions <- renderListItems metadata st isDragging 0 items ;;
  Ok (mkSelectedView Subtitle "selected-items-droppable" dataDimensions
        (js_to_string className ++ "-arrow-back-button") (i18n_t "Deselect All" [])).

(** [mapStateToProps] and [connect] (lines 240-244): the metadata prop is
    the store's metadata. *)
Definition mapStateToProps (s : Store.state) : gmap string jsval := Store.sGetMetadata s.

Definition SelectedItems_connected (s : Store.state) (className : jsval) (items : list string)
    (st : sel_state) (isDragging : string -> bool) : js_result selected_view :=
  render className (mapStateToProps s) items st isDragging.

End SelectedItems.

(** ** Facts about reordering *)
Module SelectedItemsFacts.
Import SelectedItems.
Local Open Scope list_scope.

Lemma includes_spec (l : list string) (x : string) : includes l x = true <-> x ∈ l.
Proof.
  unfold includes. rewrite existsb_exists, list_elem_of_In. split.
  - by intros (y & Hy & ->%String.eqb_eq).
  - intros Hx. exists x. by rewrite String.eqb_refl.
Qed.

Lemma insertIndexed_perm d i xs l : insertIndexed d i xs l ≡ₚ map fst xs ++ l.
Proof.
  revert i l. induction xs as [|x xs IH]; intros i l; simpl; [done|].
  rewrite IH, js_splice_insert_perm. simpl. solve_Permutation.
Qed.

(** Inserted one after the other at [d + i], the items form one block. *)
Lemma insertIndexed_block d i xs (A B : list string) :
  (0 <= d + i)%Z -> List.length A = Z.to_nat (d + i) ->
  insertIndexed d i xs (A ++ B) = A ++ map fst xs ++ B.
Proof.
  revert i A. induction xs as [|x xs IH]; intros i A Hdi HA; simpl; [done|].
  rewrite js_splice_insert by (rewrite length_app; lia).
  rewrite <- HA, take_app_length, drop_app_length, app_assoc, IH.
  - by rewrite <- app_assoc.
  - lia.
  - rewrite length_app. simpl. lia.
Qed.

Lemma insertIndexed_end d i xs (A : list string) :
  (Z.of_nat (List.length A) <= d + i)%Z -> insertIndexed d i xs A = A ++ map fst xs.
Proof.
  revert i A. induction xs as [|x xs IH]; intros i A HA; simpl; [by rewrite app_nil_r|].
  rewrite js_splice_insert_end, IH by (rewrite ?length_app; simpl; lia). by rewrite <- app_assoc.
Qed.

Lemma removeIndexed_cons x xs l :
  removeIndexed (x :: xs) l = removeIndexed xs (js_splice l (indexOf x.1 l) 1 []).
Proof. reflexivity. Qed.

(** Removing items found in a list without duplicates filters them out. *)
Lemma removeIndexed_filter xs l :
  NoDup l -> NoDup (map fst xs) -> Forall (fun ix => ix.1 ∈ l) xs ->
  removeIndexed xs l = filter (fun y => y ∉ map fst xs) l.
Proof.
  revert l. induction xs as [|x xs IH]; intros l Hl Hxs Hin.
  { symmetry. apply filter_all. set_solver. }
  rewrite removeIndexed_cons. apply Forall_cons in Hin as [Hx Hin].
  apply NoDup_cons in Hxs as [Hx1 Hxs].
  rewrite js_splice_indexOf by done. rewrite IH.
  - rewrite list_filter_filter. apply list_filter_iff. set_solver.
  - by apply NoDup_filter.
  - done.
  - rewrite Forall_forall in Hin |- *. intros ix Hix. apply list_elem_of_filter.
    split; [|by apply Hin]. intros Heq. apply Hx1. rewrite <- Heq.
    apply list_elem_of_In, in_map, list_elem_of_In. done.
Qed.

Lemma map_fst_indexed items hl : map fst (indexedItemsToMove items hl) ≡ₚ hl.
Proof.
  unfold indexedItemsToMove. etrans; [apply Permutation_map, sortBy_perm|].
  rewrite map_map. cbn. by rewrite map_id.
Qed.

Lemma indexed_pairs items hl :
  Forall (fun ix => ix.2 = indexOf ix.1 items) (indexedItemsToMove items hl).
Proof.
  unfold indexedItemsToMove. rewrite (sortBy_perm snd). apply Forall_forall.
  intros ix Hix. apply list_elem_of_In, in_map_iff in Hix as (x & <- & _). done.
Qed.

(** The moved block is the highlighted ids in the order they have in
    [items]: both lists are sorted by [indexOf], and [indexOf] tells the
    items apart. *)
Lemma map_fst_indexed_order items hl :
  NoDup items -> NoDup hl -> hl ⊆ items ->
  map fst (indexedItemsToMove items hl) = filter (fun y => y ∈ hl) items.
Proof.
  intros Hi Hh Hsub. set (R := fun a b => (indexOf a items <= indexOf b items)%Z).
  apply (StronglySorted_unique_strong R).
  - intros x1 x2 Hx1 Hx2 H12 H21. apply list_elem_of_filter in Hx2 as [_ Hx2].
    rewrite (map_fst_indexed items hl) in Hx1. apply (indexOf_inj items); [by apply Hsub|done|].
    unfold R in *. lia.
  - apply (StronglySorted_fmap fst (fun a b => R a.1 b.1)); [done|].
    pose proof (indexed_pairs items hl) as Hp. rewrite Forall_forall in Hp.
    eapply StronglySorted_weaken; [|apply sortBy_sorted].
    intros a b Ha Hb. unfold R. rewrite <- (Hp a Ha), <- (Hp b Hb). done.
  - by apply StronglySorted_filter, indexOf_sorted.
  - rewrite (map_fst_indexed items hl). apply NoDup_Permutation; [done | by apply NoDup_filter|].
    intros x. rewrite list_elem_of_filter. naive_solver.
Qed.

(** With the highlighted ids all in [items], the removal loop leaves the
    items that are not highlighted, in their order. *)
Lemma removeIndexed_highlighted items hl :
  NoDup items -> NoDup hl -> hl ⊆ items ->
  removeIndexed (indexedItemsToMove items hl) items = filter (fun y => y ∉ hl) items.
Proof.
  intros Hi Hh Hsub. rewrite removeIndexed_filter.
  - apply list_filter_iff. intros y. by rewrite (map_fst_indexed items hl).
  - done.
  - by rewrite (map_fst_indexed items hl).
  - apply Forall_forall. intros ix Hix. apply Hsub. rewrite <- (map_fst_indexed items hl).
    apply list_elem_of_In, in_map, list_elem_of_In. done.
Qed.

(** A drop on another index calls [onReorder] with the new order. *)
Lemma onDragEnd_moved items result st dest :
  destination result = Some dest -> index dest <> index (source result) ->
  onDragEnd items result st =
    ([OnReorder (reorder items (highlighted st) result dest)], set_draggingId None st).
Proof.
  intros Hd Hne. unfold onDragEnd. rewrite Hd. cbn [location_prop String.eqb strict_eq_prim].
  by rewrite (proj2 (Z.eqb_neq _ _) Hne).
Qed.

Lemma reorder_multi items hl result dest :
  draggableId result ∈ hl -> (1 < List.length hl)%nat ->
  reorder items hl result dest =
    let indexed := indexedItemsToMove items hl in
    insertIndexed (adjustDestination (Z.of_nat (List.length items)) indexed (index dest)) 0
      indexed (removeIndexed indexed items).
Proof.
  intros Hin Hlen. unfold reorder. apply includes_spec in Hin as ->.
  by rewrite (proj2 (Nat.ltb_lt _ _) Hlen).
Qed.

Lemma reorder_single items hl result dest :
  ~ (draggableId result ∈ hl /\ (1 < List.length hl)%nat) ->
  reorder items hl result dest =
    js_splice (js_splice items (index (source result)) 1 []) (index dest) 0 [draggableId result].
Proof.
  intros Hsingle. unfold reorder.
  replace (includes _ _ && _) with false
    by (symmetry; apply not_true_iff_false; rewrite andb_true_iff, includes_spec, Nat.ltb_lt;
        tauto).
  done.
Qed.

(** C28: dragging one of several highlighted items moves all of them: when
    the items and the highlighted ids have no duplicates and every
    highlighted id is an item, [onReorder] receives a permutation of the
    items, and the dragged id is cleared. *)
Theorem dragEnd_multi_permutation items result st dest :
  destination result = Some dest -> index dest <> index (source result) ->
  NoDup items -> NoDup (highlighted st) -> highlighted st ⊆ items ->
  draggableId result ∈ highlighted st -> (1 < List.length (highlighted st))%nat ->
  exists l, onDragEnd items result st = ([OnReorder l], set_draggingId None st) /\ l ≡ₚ items.
Proof.
  intros Hd Hne Hi Hh Hsub Hin Hlen. rewrite (onDragEnd_moved _ _ _ dest) by done. eexists; split; [done|].
  rewrite (reorder_multi items _ result dest) by done. cbv zeta.
  rewrite insertIndexed_perm, removeIndexed_highlighted, map_fst_indexed by done.
  rewrite <- (filter_app_complement (fun y => y ∈ highlighted st) items) at 2.
  f_equiv. apply NoDup_Permutation; [done | by apply NoDup_filter|].
  intros x. rewrite list_elem_of_filter. naive_solver.
Qed.

Lemma adjust_loop_bounds (indexed : list (string * Z)) d :
  Forall (fun ix => 0 <= ix.2)%Z indexed -> (0 <= d)%Z ->
  let d' := fold_left (fun d ix => if (ix.2 <? d)%Z then (d - 1)%Z else d) indexed d in
  (0 <= d' <= d /\ d - Z.of_nat (List.length indexed) <= d')%Z.
Proof.
  intros Hix. revert d. induction Hix as [|ix indexed Hix _ IH]; intros d Hd; simpl; [lia|].
  destruct (Z.ltb_spec ix.2 d); [destruct (IH (d - 1)%Z) | destruct (IH d)]; lia.
Qed.

Lemma indexed_nonneg items hl :
  hl ⊆ items -> Forall (fun ix => 0 <= ix.2)%Z (indexedItemsToMove items hl).
Proof.
  intros Hsub. pose proof (indexed_pairs items hl) as Hp. rewrite Forall_forall in Hp |- *.
  intros ix Hix. rewrite (Hp ix Hix). apply indexOf_bounds, Hsub.
  rewrite <- (map_fst_indexed items hl). by apply list_elem_of_fmap_2.
Qed.

Lemma adjustDestination_nonneg items hl d0 :
  hl ⊆ items -> (0 <= d0)%Z ->
  (0 <= adjustDestination (Z.of_nat (List.length items)) (indexedItemsToMove items hl) d0)%Z.
Proof.
  intros Hsub Hd0. unfold adjustDestination. destruct (_ && _); [|done].
  apply (adjust_loop_bounds _ d0 (indexed_nonneg _ _ Hsub) Hd0).
Qed.

(** C29: the block form of a multi-item move: the items that are not
    highlighted keep their order, and the highlighted ones, sorted by their
    index in [items], are inserted as one block at the adjusted
    destination, when that index falls inside the remaining list. *)
Theorem dragEnd_multi_block items result st dest :
  let hl := highlighted st in
  let indexed := indexedItemsToMove items hl in
  let d := adjustDestination (Z.of_nat (List.length items)) indexed (index dest) in
  let rest := filter (fun y => y ∉ hl) items in
  destination result = Some dest -> index dest <> index (source result) ->
  NoDup items -> NoDup hl -> hl ⊆ items ->
  draggableId result ∈ hl -> (1 < List.length hl)%nat -> (0 <= index dest)%Z ->
  onDragEnd items result st =
    ([OnReorder (take (Z.to_nat d) rest ++ filter (fun y => y ∈ hl) items ++ drop (Z.to_nat d) rest)],
     set_draggingId None st).
Proof.
  intros hl indexed d rest Hd Hne Hi Hh Hsub Hin Hlen Hdr.
  rewrite (onDragEnd_moved _ _ _ dest), (reorder_multi items _ result dest) by done.
  cbv zeta. rewrite removeIndexed_highlighted by done. fold hl indexed d rest.
  assert (Hd0 : (0 <= d)%Z) by apply (adjustDestination_nonneg items hl _ Hsub Hdr).
  rewrite <- (take_drop (Z.to_nat d) rest) at 1.
  destruct (decide (Z.to_nat d <= List.length rest)%nat).
  - rewrite insertIndexed_block; [| lia | rewrite length_take; lia].
    unfold indexed. by rewrite map_fst_indexed_order.
  - rewrite take_ge, drop_ge, app_nil_r, insertIndexed_end by lia.
    unfold indexed. by rewrite map_fst_indexed_order, app_nil_r.
Qed.

(** C34: the destination of a multi-item move stays between [0] and the
    index of the drop, and moves back by at most one place per moved item,
    when every highlighted id is an item: the insertion never starts at a
    negative index, which [splice] would count from the end of the list. *)
Theorem adjustDestination_bounds items hl d0 :
  hl ⊆ items -> (0 <= d0)%Z ->
  let d := adjustDestination (Z.of_nat (List.length items)) (indexedItemsToMove items hl) d0 in
  (0 <= d <= d0 /\ d0 - Z.of_nat (List.length hl) <= d)%Z.
Proof.
  intros Hsub Hd0. unfold adjustDestination.
  assert (Hlen : List.length (indexedItemsToMove items hl) = List.length hl)
    by (rewrite <- (length_map fst); apply Permutation_length, map_fst_indexed).
  destruct (_ && _); [|lia]. rewrite <- Hlen.
  exact (adjust_loop_bounds _ d0 (indexed_nonneg _ _ Hsub) Hd0).
Qed.

(** C30: a highlighted id that is no longer an item corrupts a multi-item
    move: [indexOf] answers [-1] for it and [splice(-1, 1)] removes the
    last item instead, while the stale id is inserted, so [onReorder]
    receives a list that is not a permutation of the items. *)
Theorem dragEnd_stale_highlight items result st dest z :
  destination result = Some dest -> index dest <> index (source result) ->
  draggableId result ∈ highlighted st -> (1 < List.length (highlighted st))%nat ->
  z ∈ highlighted st -> z ∉ items ->
  exists l, onDragEnd items result st = ([OnReorder l], set_draggingId None st) /\
            z ∈ l /\ ~ l ≡ₚ items.
Proof.
  intros Hd Hne Hin Hlen Hz Hzi. rewrite (onDragEnd_moved _ _ _ dest) by done.
  eexists; split; [done|]. rewrite (reorder_multi items _ result dest) by done. cbv zeta.
  assert (z ∈ insertIndexed (adjustDestination (Z.of_nat (List.length items))
                               (indexedItemsToMove items (highlighted st)) (index dest)) 0
               (indexedItemsToMove items (highlighted st))
               (removeIndexed (indexedItemsToMove items (highlighted st)) items)) as Hl.
  { rewrite insertIndexed_perm, map_fst_indexed. set_solver. }
  split; [done|]. intros Hp. apply Hzi. by rewrite <- Hp.
Qed.

(** C31: [onDragEnd] compares [destination.draggableId] with
    [source.draggableId], which locations do not have: both are
    [undefined], so a drop at the index it started from is ignored
    whatever the droppable, and only the dragged id is cleared. *)
Theorem dragEnd_same_index_ignored items result st dest :
  destination result = Some dest -> index dest = index (source result) ->
  onDragEnd items result st = ([], set_draggingId None st).
Proof.
  intros Hd Heq. unfold onDragEnd. rewrite Hd. cbn [location_prop String.eqb strict_eq_prim].
  by rewrite Heq, Z.eqb_refl.
Qed.

(** C32: a single move (the dragged id is not among several highlighted
    ones): with the drop result's source index the position of the
    dragged id, [onReorder] receives a permutation of the items with the
    dragged id at the destination index. *)
Theorem dragEnd_single_move items result st dest :
  destination result = Some dest -> index dest <> index (source result) ->
  ~ (draggableId result ∈ highlighted st /\ (1 < List.length (highlighted st))%nat) ->
  draggableId result ∈ items -> index (source result) = indexOf (draggableId result) items ->
  (0 <= index dest < Z.of_nat (List.length items))%Z ->
  exists l, onDragEnd items result st = ([OnReorder l], set_draggingId None st) /\
            l ≡ₚ items /\ l !! Z.to_nat (index dest) = Some (draggableId result).
Proof.
  intros Hd Hne Hsingle Hin Hsrc Hdst. rewrite (onDragEnd_moved _ _ _ dest) by done.
  eexists; split; [done|]. rewrite reorder_single by done.
  destruct (index_of_elem _ _ Hin) as [n Hn]. unfold indexOf in Hsrc. rewrite Hn in Hsrc.
  destruct (index_of_Some _ _ _ Hn) as [Hx _]. pose proof (lookup_lt_Some _ _ _ Hx).
  rewrite Hsrc, js_splice_remove by done. split.
  - rewrite js_splice_insert_perm. set (rest := take n items ++ drop (S n) items).
    rewrite <- (take_drop_middle items n _ Hx). subst rest. solve_Permutation.
  - rewrite js_splice_insert by (rewrite length_app, length_take, length_drop; lia).
    rewrite lookup_app_r; rewrite length_take, ?length_app, ?length_take, ?length_drop; [|lia].
    replace (_ - _)%nat with 0%nat by lia. done.
Qed.

Lemma find_eqb_elem (l : list string) (id : string) :
  id ∈ l -> List.find (fun x => String.eqb x id) l = Some id.
Proof.
  induction l as [|a l IH]; simpl; [set_solver|]. intros Hin.
  destruct (String.eqb_spec a id) as [->|Hne]; [done|]. apply IH. set_solver.
Qed.

(** C35: a drag started on one of several highlighted items keeps them
    highlighted; while it lasts the dragged item shows the count of
    highlighted items instead of its name, and exactly the other
    highlighted items are ghosted. *)
Theorem dragStart_multi_render (metadata : gmap string jsval) (id : string) (st : sel_state) :
  id ∈ highlighted st -> id <> "" -> (1 < List.length (highlighted st))%nat ->
  let st' := snd (onDragStart id st) in
  highlighted st' = highlighted st /\ draggingId st' = Some id /\
  itemText metadata st' id true =
    Ok (JStr (pretty (N.of_nat (List.length (highlighted st))) ++ " items")) /\
  (forall j, isGhosting st' j = true <-> j ∈ highlighted st /\ j <> id).
Proof.
  intros Hin Hne Hlen. unfold onDragStart. rewrite find_eqb_elem by done.
  unfold str_truthy. rewrite (proj2 (String.eqb_neq _ _) Hne). cbn.
  split; [done|]. split; [done|]. split.
  - unfold itemText, showCount. cbn [highlighted draggingId set_draggingId negb andb]. rewrite (proj2 (Nat.ltb_lt _ _) Hlen).
    by rewrite (proj2 (includes_spec _ _) Hin).
  - intros j. unfold isGhosting, str_truthy. cbn [highlighted draggingId set_draggingId].
    rewrite (proj2 (String.eqb_neq _ _) Hne). cbn [negb andb].
    rewrite andb_true_iff, includes_spec, negb_true_iff, String.eqb_neq. naive_solver.
Qed.

(** C33: a single move is undone by the move back: when the dragged id is
    the item at the source index and is not among several highlighted ids,
    the order [onReorder] receives after dragging it from [i] to [j],
    dragged again from [j] to [i], gives back the items. *)
Theorem dragEnd_single_roundtrip items x i j st l (p : string) :
  items !! Z.to_nat i = Some x -> (0 <= i)%Z -> (0 <= j < Z.of_nat (List.length items))%Z ->
  i <> j -> ~ (x ∈ highlighted st /\ (1 < List.length (highlighted st))%nat) ->
  onDragEnd items (mkDropResult (Some (mkDragLocation p j)) (mkDragLocation p i) x) st =
    ([OnReorder l], set_draggingId None st) ->
  onDragEnd l (mkDropResult (Some (mkDragLocation p i)) (mkDragLocation p j) x) st =
    ([OnReorder items], set_draggingId None st).
Proof.
  intros Hx Hi Hj Hij Hsingle Hl.
  rewrite (onDragEnd_moved _ _ _ (mkDragLocation p j)), reorder_single in Hl by (simpl; auto).
  injection Hl as <-.
  rewrite (onDragEnd_moved _ _ _ (mkDragLocation p i)), reorder_single by (simpl; auto). simpl.
  rewrite <- (Z2Nat.id i), <- (Z2Nat.id j) by lia.
  rewrite js_splice_move_back; [done | done | lia].
Qed.

(** An entry renders when it shows the count or its id has metadata. *)
Definition item_renders (metadata : gmap string jsval) (st : sel_state) (isDragging : string -> bool)
    (id : string) : bool :=
  showCount st (isDragging id) || negb (is_nullish (default JUndefined (metadata !! id))).

Lemma renderListItem_Ok_iff metadata st b id idx :
  is_ok (renderListItem metadata st b id idx) = showCount st b || negb (is_nullish (default JUndefined (metadata !! id))).
Proof.
  unfold renderListItem, itemText, get_prop. destruct (showCount st b); [done|].
  by destruct (is_nullish _).
Qed.

Lemma renderListItems_Ok metadata st isDragging idx ids :
  Forall (fun id => item_renders metadata st isDragging id = true) ids ->
  exists its, renderListItems metadata st isDragging idx ids = Ok its /\
    map item_id its = ids /\ forall k it, its !! k = Some it -> item_index it = (idx + Z.of_nat k)%Z.
Proof.
  intros Hall. revert idx. induction Hall as [|id ids Hid _ IH]; intros idx; simpl.
  { exists []. repeat split. by intros k it ?. }
  pose proof (renderListItem_Ok_iff metadata st (isDragging id) id idx) as Hok.
  unfold item_renders in Hid. rewrite Hid in Hok.
  destruct (renderListItem _ _ _ _ _) as [it|] eqn:Hit; [|done].
  destruct (IH (idx + 1)%Z) as (its & -> & Hids & Hidx). simpl.
  exists (it :: its). split; [done|]. split.
  - simpl. rewrite Hids. unfold renderListItem in Hit. destruct (itemText _ _ _ _); simplify_eq/=. done.
  - intros [|k] it' Hk; simpl in Hk; simplify_eq.
    + unfold renderListItem in Hit. destruct (itemText _ _ _ _); simplify_eq/=. lia.
    + rewrite (Hidx k it' Hk). lia.
Qed.

Lemma renderListItems_Err metadata st isDragging idx ids e :
  renderListItems metadata st isDragging idx ids = Err e ->
  e = TypeError /\ exists id, id ∈ ids /\ item_renders metadata st isDragging id = false.
Proof.
  revert idx. induction ids as [|id ids IH]; intros idx; simpl; [discriminate|].
  destruct (renderListItem _ _ _ _ _) as [it|e'] eqn:Hit; simpl.
  - destruct (renderListItems _ _ _ _ _) eqn:Hr; simpl; [discriminate|]. intros [= ->].
    destruct (IH _ Hr) as [-> (x & Hx & Hxr)]. split; [done|]. exists x. split; [set_solver|done].
  - intros [= ->]. pose proof (renderListItem_Ok_iff metadata st (isDragging id) id idx) as Hok.
    rewrite Hit in Hok. unfold renderListItem, itemText, get_prop in Hit.
    split.
    + destruct (showCount _ _); [done|]. destruct (is_nullish _); by simplify_eq/=.
    + exists id. split; [set_solver|]. unfold item_renders. by rewrite <- Hok.
Qed.

Lemma renderListItems_Ok_inv metadata st isDragging idx ids its :
  renderListItems metadata st isDragging idx ids = Ok its ->
  Forall (fun id => item_renders metadata st isDragging id = true) ids.
Proof.
  revert idx its. induction ids as [|id ids IH]; intros idx its; simpl; [constructor|].
  pose proof (renderListItem_Ok_iff metadata st (isDragging id) id idx) as Hok.
  destruct (renderListItem _ _ _ _ _) eqn:Hx; [|discriminate]. simpl.
  destruct (renderListItems _ _ _ _ ids) eqn:Hxs; [|discriminate]. intros _.
  constructor; [unfold item_renders; by rewrite <- Hok | by eapply IH].
Qed.

(** C36: the connected list renders exactly when every item shows the
    count or has metadata: then it shows the items in order, each with its
    index, and the arrow button's class derived from [className];
    otherwise reading [metadata[id].name] throws a [TypeError] for an item
    without metadata that is not showing the count. *)
Theorem render_items (s : Store.state) (className : jsval) (items : list string) (st : sel_state)
    (isDragging : string -> bool) :
  (is_ok (SelectedItems_connected s className items st isDragging) = true <->
   Forall (fun id => item_renders (Store.st_metadata s) st isDragging id = true) items) /\
  match SelectedItems_connected s className items st isDragging with
  | Ok v =>
      map item_id (view_items v) = items /\
      (forall k it, view_items v !! k = Some it -> item_index it = Z.of_nat k) /\
      view_arrowClassName v = (js_to_string className ++ "-arrow-back-button")%string
  | Err e =>
      e = TypeError /\
      exists id, id ∈ items /\ showCount st (isDragging id) = false /\
                 is_nullish (default JUndefined (Store.st_metadata s !! id)) = true
  end.
Proof.
  unfold SelectedItems_connected, render, mapStateToProps, Store.sGetMetadata.
  destruct (renderListItems _ _ _ 0 items) as [its|e] eqn:Hr; simpl.
  - pose proof (renderListItems_Ok_inv _ _ _ _ _ _ Hr) as Hall.
    destruct (renderListItems_Ok (Store.st_metadata s) st isDragging 0 items Hall)
      as (its' & Hr' & Hids & Hidx).
    rewrite Hr in Hr'. injection Hr' as <-. split; [done|]. split; [done|]. split; [|done].
    intros k it Hk. rewrite (Hidx k it Hk). lia.
  - destruct (renderListItems_Err _ _ _ _ _ _ Hr) as [-> (id & Hid & Hn)].
    split.
    + split; [discriminate|]. intros Hall. rewrite Forall_forall in Hall. specialize (Hall id Hid). congruence.
    + split; [done|]. exists id. split; [done|]. unfold item_renders in Hn.
      apply orb_false_iff in Hn as [-> Hn]. split; [done|]. by apply negb_false_iff.
Qed.

(** ** Witnesses *)

Definition ex_items : list string := ["a"; "b"; "c"; "d"; "e"].
Definition ex_location (i : Z) : drag_location := mkDragLocation "selected-items-droppable" i.
Definition ex_result (dragged : string) (src dst : Z) : drop_result :=
  mkDropResult (Some (ex_location dst)) (ex_location src) dragged.
Definition ex_multi_st : sel_state := mkSelState ["d"; "a"] 0 (Some "a").

Lemma dragEnd_multi_permutation_witness :
  exists l, onDragEnd ex_items (ex_result "a" 0 3) ex_multi_st =
              ([OnReorder l], set_draggingId None ex_multi_st) /\ l ≡ₚ ex_items.
Proof.
  apply (dragEnd_multi_permutation _ _ _ (ex_location 3)); first [reflexivity | decide_true].
Defined.

Lemma dragEnd_multi_block_witness :
  onDragEnd ex_items (ex_result "a" 0 3) ex_multi_st =
    ([OnReorder ["b"; "c"; "a"; "d"; "e"]], set_draggingId None ex_multi_st).
Proof.
  rewrite (dragEnd_multi_block ex_items (ex_result "a" 0 3) ex_multi_st (ex_location 3));
    first [reflexivity | decide_true].
Defined.

Lemma adjustDestination_bounds_witness :
  adjustDestination 6 (indexedItemsToMove ["a"; "b"; "c"; "d"; "e"; "f"] ["a"; "d"; "e"; "f"]) 4 = 3%Z /\ ((0 <= 3 <= 4)%Z /\ (4 - 4 <= 3)%Z).
Proof.
  split; [reflexivity|].
  apply (adjustDestination_bounds ["a"; "b"; "c"; "d"; "e"; "f"] ["a"; "d"; "e"; "f"] 4); [decide_true | lia].
Defined.

Lemma dragEnd_single_roundtrip_witness :
  onDragEnd ex_items (ex_result "b" 1 3) ex_multi_st =
    ([OnReorder ["a"; "c"; "d"; "b"; "e"]], set_draggingId None ex_multi_st) /\
  onDragEnd ["a"; "c"; "d"; "b"; "e"] (ex_result "b" 3 1) ex_multi_st =
    ([OnReorder ex_items], set_draggingId None ex_multi_st).
Proof.
  split; [reflexivity|].
  apply (dragEnd_single_roundtrip ex_items "b" 1 3); first [reflexivity | lia | decide_true].
Defined.

Lemma dragEnd_stale_highlight_witness :
  exists l, onDragEnd ["a"; "b"; "c"] (ex_result "a" 0 2) (mkSelState ["a"; "z"] 0 (Some "a")) =
              ([OnReorder l], set_draggingId None (mkSelState ["a"; "z"] 0 (Some "a"))) /\
            "z" ∈ l /\ ~ l ≡ₚ ["a"; "b"; "c"].
Proof.
  apply (dragEnd_stale_highlight _ _ _ (ex_location 2)); first [reflexivity | decide_true].
Defined.

Lemma dragEnd_same_index_ignored_witness :
  onDragEnd ex_items (mkDropResult (Some (mkDragLocation "elsewhere" 1)) (ex_location 1) "b")
    ex_multi_st = ([], set_draggingId None ex_multi_st).
Proof. apply (dragEnd_same_index_ignored _ _ _ (mkDragLocation "elsewhere" 1)); reflexivity. Defined.

Lemma dragEnd_single_move_witness :
  exists l, onDragEnd ex_items (ex_result "b" 1 3) ex_multi_st =
              ([OnReorder l], set_draggingId None ex_multi_st) /\
            l ≡ₚ ex_items /\ l !! Z.to_nat 3 = Some "b".
Proof.
  apply (dragEnd_single_move _ (ex_result "b" 1 3) _ (ex_location 3)); first [reflexivity | decide_true].
Defined.

Lemma dragStart_multi_render_witness :
  let st' := snd (onDragStart "a" ex_multi_st) in
  highlighted st' = highlighted ex_multi_st /\ draggingId st' = Some "a" /\
  itemText ∅ st' "a" true = Ok (JStr (pretty (N.of_nat (List.length (highlighted ex_multi_st))) ++ " items")) /\
  (forall j, isGhosting st' j = true <-> j ∈ highlighted ex_multi_st /\ j <> "a").
Proof. apply dragStart_multi_render; first [reflexivity | decide_true]. Defined.

End SelectedItemsFacts.
