(* ===== verification/DimensionItem.v ===== *)
(** * One dimension of the dimensions panel
    ([components/Dimensions/DimensionItem.js])

    The item keeps two flags: whether the mouse is over it and whether its
    options button has been clicked.  The options button is rendered while
    the mouse is over an item that is not selected, and it calls
    [toggleHoverListener] when the options menu opens and closes; the
    [setState] of that listener runs [onMouseExit] as its callback, after
    the update, so the callback reads the toggled flag.  Events of the
    page are modelled as a step function on the flags and the [isSelected]
    prop, and the states the page can reach as an inductive relation. *)

From stdpp Require Import base list strings.
From Stdlib Require Import String.
From S2P Require Import Prelude JsValue I18n.

Open Scope string_scope.

Module DimensionItem.

(** [state = { mouseOver: false, optionButtonClicked: false }] (line 39). *)
Record hover_state := mkHover {
  mouseOver : bool;
  optionButtonClicked : bool }.

Definition initial_hover : hover_state := mkHover false false.

Definition onMouseOver (s : hover_state) : hover_state :=
  mkHover true (optionButtonClicked s).

Definition onMouseExit (s : hover_state) : hover_state :=
  if negb (optionButtonClicked s) then mkHover false (optionButtonClicked s) else s.

(** [setState(update, () => this.onMouseExit())]: the callback sees the
    updated state. *)
Definition toggleHoverListener (s : hover_state) : hover_state :=
  onMouseExit (mkHover (mouseOver s) (negb (optionButtonClicked s))).

Inductive dimension_icon : Type :=
| DataIcon
| PeriodIcon
| OrgUnitIcon
| GenericDimension.

(** [fixedDimensionIcons[this.props.id] || <GenericDimension />]: the
    table is keyed by [Data], [Period] and [OrgUnit]. *)
Definition getDimensionIcon (id : string) : dimension_icon :=
  if String.eqb id "Data" then DataIcon
  else if String.eqb id "Period" then PeriodIcon
  else if String.eqb id "OrgUnit" then OrgUnitIcon
  else GenericDimension.

(** The text of the label: [{' '}{i18n.t(displayName)}{' '}]. *)
Definition getDimensionType (displayName : string) : string :=
  " " ++ i18n_t displayName [] ++ " ".

(** [e.dataTransfer.setData('text', e.target.id)]: the data a drag
    carries. *)
Definition onDragStart (targetId : string) : string * string := ("text", targetId).

Definition checkIfRecommended (isRecommended isSelected : bool) : bool :=
  isRecommended && negb isSelected.

Definition renderOptionsOnHover (isSelected : bool) (s : hover_state) : bool :=
  negb isSelected && mouseOver s.

(** ** The item on the page *)

(** What can happen to a rendered item: the two mouse events of its [li]
    (lines 102-103), a call of the listener by the options button, which
    exists only while it is rendered, and a new [isSelected] prop. *)
Inductive hover_event : Type :=
| EvMouseOver
| EvMouseLeave
| EvToggle
| EvSelected (b : bool).

Record item_ui := mkItemUi {
  ui_selected : bool;
  ui_hover : hover_state }.

Definition enabled (u : item_ui) (e : hover_event) : bool :=
  match e with
  | EvToggle => renderOptionsOnHover (ui_selected u) (ui_hover u)
  | _ => true
  end.

Definition hover_step (u : item_ui) (e : hover_event) : item_ui :=
  match e with
  | EvMouseOver => mkItemUi (ui_selected u) (onMouseOver (ui_hover u))
  | EvMouseLeave => mkItemUi (ui_selected u) (onMouseExit (ui_hover u))
  | EvToggle => mkItemUi (ui_selected u) (toggleHoverListener (ui_hover u))
  | EvSelected b => mkItemUi b (ui_hover u)
  end.

Inductive reachable : item_ui -> Prop :=
| reachable_init b : reachable (mkItemUi b initial_hover)
| reachable_step u e : reachable u -> enabled u e = true -> reachable (hover_step u e).

(** A run of events, each applied when it is enabled. *)
Fixpoint run_events (u : item_ui) (es : list hover_event) : item_ui :=
  match es with
  | [] => u
  | e :: es' => run_events (if enabled u e then hover_step u e else u) es'
  end.

End DimensionItem.

(** ** Facts about the hover state *)
Module DimensionItemFacts.
Import DimensionItem.

(** Every step keeps "clicked implies hovered". *)
Lemma hover_step_inv u e :
  enabled u e = true ->
  implb (optionButtonClicked (ui_hover u)) (mouseOver (ui_hover u)) = true ->
  implb (optionButtonClicked (ui_hover (hover_step u e))) (mouseOver (ui_hover (hover_step u e))) = true.
Proof.
  destruct u as [sel [m c]], e; simpl; unfold toggleHoverListener, onMouseExit;
    destruct sel, m, c; simpl; done.
Qed.

Lemma reachable_inv u :
  reachable u -> implb (optionButtonClicked (ui_hover u)) (mouseOver (ui_hover u)) = true.
Proof. induction 1; [done|]. by apply hover_step_inv. Qed.

Lemma run_events_reachable u es : reachable u -> reachable (run_events u es).
Proof.
  revert u. induction es as [|e es IH]; intros u Hu; simpl; [done|]. apply IH.
  destruct (enabled u e) eqn:He; [by constructor|done].
Qed.

(** C37: the states an item reaches are exactly those in which a clicked
    options button goes with the mouse over the item. *)
Theorem reachable_iff (u : item_ui) :
  reachable u <-> (optionButtonClicked (ui_hover u) = true -> mouseOver (ui_hover u) = true).
Proof.
  split.
  - intros Hr Hc. pose proof (reachable_inv u Hr) as Hi. rewrite Hc in Hi. done.
  - destruct u as [sel [m c]]; simpl. intros Himp.
    assert (reachable (run_events (mkItemUi false initial_hover)
                         ((if m then [EvMouseOver] else []) ++ (if c then [EvToggle] else [])
                          ++ [EvSelected sel])))
      as Hr by (apply run_events_reachable; constructor).
    destruct m, c; [| | by specialize (Himp eq_refl) |]; exact Hr.
Qed.

(** C38: once the options button is clicked, only the listener clears the
    hover: through any events other than a toggle the item stays hovered
    with the button clicked, so whenever it is not selected it renders its
    options, also after the mouse has left it. *)
Theorem hover_sticky_until_toggle (u : item_ui) (es : list hover_event) :
  reachable u -> optionButtonClicked (ui_hover u) = true -> Forall (fun e => e <> EvToggle) es ->
  let u' := run_events u es in
  mouseOver (ui_hover u') = true /\ optionButtonClicked (ui_hover u') = true /\
  renderOptionsOnHover (ui_selected u') (ui_hover u') = negb (ui_selected u').
Proof.
  intros Hr Hc Hes. pose proof (reachable_inv u Hr) as Hm. rewrite Hc in Hm. simpl in Hm.
  revert u Hr Hc Hm. induction Hes as [|e es He Hes IH]; intros u Hr Hc Hm; cbv zeta; simpl.
  - unfold renderOptionsOnHover. rewrite Hm. by rewrite andb_true_r.
  - assert (enabled u e = true) as He' by (destruct e; done). rewrite He'.
    apply IH; [by constructor | |]; destruct u as [sel [m c]]; simpl in *; subst;
      destruct e; done.
Qed.

(** C39: the options menu of an item can always be closed: from every
    reachable state, the mouse leaving the item, the item being deselected,
    a call of the listener (made only if the options button is rendered)
    and the item's selection being restored bring the hover state back to
    its initial value. *)
Theorem hover_recovers (u : item_ui) :
  reachable u ->
  run_events u [EvMouseLeave; EvSelected false; EvToggle; EvSelected (ui_selected u)] =
    mkItemUi (ui_selected u) initial_hover.
Proof.
  intros Hr. pose proof (reachable_inv u Hr) as Hi.
  destruct u as [sel [[] []]]; destruct sel; done.
Qed.

(** ** Witnesses *)

(** An unselected item whose options menu was opened. *)
Definition ex_clicked : item_ui :=
  hover_step (hover_step (mkItemUi false initial_hover) EvMouseOver) EvToggle.

Lemma hover_sticky_until_toggle_witness :
  let u' := run_events ex_clicked [EvSelected true; EvMouseLeave; EvSelected false] in
  mouseOver (ui_hover u') = true /\ optionButtonClicked (ui_hover u') = true /\
  renderOptionsOnHover (ui_selected u') (ui_hover u') = negb (ui_selected u').
Proof.
  apply hover_sticky_until_toggle.
  - apply (reachable_step _ EvToggle); [|reflexivity].
    apply (reachable_step _ EvMouseOver); [constructor | reflexivity].
  - reflexivity.
  - repeat constructor; discriminate.
Defined.

Lemma hover_recovers_witness :
  run_events ex_clicked [EvMouseLeave; EvSelected false; EvToggle; EvSelected false] =
    mkItemUi false initial_hover.
Proof.
  apply (hover_recovers ex_clicked).
  apply (reachable_step _ EvToggle); [|reflexivity].
  apply (reachable_step _ EvMouseOver); [constructor | reflexivity].
Defined.

End DimensionItemFacts.
