(* ===== verification/Integration.v ===== *)
(** * The axis adapter and the layout validator together

    A loaded visualization goes through [adaptAxisItems]
    ([actions/index.js]) before the UI validates its layout with
    [validateLayout] ([modules/layoutValidation.js]).  The adapter gives a
    dimension without items either the "All items" placeholder or [null],
    and the validator reads the first item of the first dimension of an
    axis: this file states which adapted axes the validator accepts. *)

From stdpp Require Import base strings list.
From Stdlib Require Import String.
From S2P Require Import Prelude JsValue Constants LayoutValidation AxisItems.

Open Scope string_scope.

Module Integration.
Import LayoutValidation AxisItems AxisItemsFacts.

(** C12: an axis whose first dimension is an object with a string id and
    no items passes the validator's axis check after adaptation exactly
    when the id is not one of the four fixed ids: a dynamic dimension
    carries the "All items" placeholder, whose [id] is a string, while
    [dx], [pe], [ou] and [co] get [null]. *)
Theorem adapted_axis_valid (fs : list (string * jsval)) (id : string) (ds ys : list jsval) :
  prop_of (JObj fs) "dimension" = JStr id ->
  truthy (opt_get (prop_of (JObj fs) "items") "length") = false ->
  adaptAxisItems (JArr (JObj fs :: ds)) = Ok ys ->
  isAxisValid (JArr ys) = negb (includes_str reservedDimensionIds (JStr id)).
Proof.
  intros Hid Hitems H. change (js_map adaptItem (JObj fs :: ds) = Ok ys) in H. apply js_map_Ok in H.
  inversion H as [|x y xs ys' Hy _]; subst. apply adaptItem_Ok' in Hy as [-> _].
  unfold isAxisValid, isDimensionValid, DIMENSION_ID_PROP_NAME, DIMENSION_ITEMS_PROP_NAME.
  cbn [isArray elem0 isObject spread_fields andb].
  rewrite prop_of_obj_set_items, prop_of_obj_set_other, Hid by discriminate.
  unfold adapted_items. rewrite items_length_truthy_nonnull, Hitems by done.
  rewrite Hid. by destruct (includes_str _ _).
Qed.

Lemma adapted_axis_valid_witness :
  isAxisValid (JArr [JObj [("dimension", JStr "J5jldMd8OHv"); ("items", allItemsPlaceholder)]]) =
  negb (includes_str reservedDimensionIds (JStr "J5jldMd8OHv")).
Proof.
  apply (adapted_axis_valid [("dimension", JStr "J5jldMd8OHv"); ("items", JArr [])] _ []);
    reflexivity.
Defined.

End Integration.
