(* ===== verification/HideLegend.v ===== *)
(** * The "Show legend key" option
    ([components/VisualizationOptions/Options/HideLegend.js])

    The component renders the shared [CheckboxBaseOption] (outside the
    sources) bound to the visualization option [hideLegend], inverted, so
    that the box reads "Show legend key", with the legend's font style key
    of [@dhis2/analytics].  The model is the props it passes. *)

From stdpp Require Import base strings.
From Stdlib Require Import String.
From S2P Require Import Prelude I18n.

Open Scope string_scope.

Module HideLegend.

(** The props of [CheckboxBaseOption] the option components pass. *)
Record checkbox_option_props := mkCheckboxOptionProps {
  label : string;
  option_name : string;
  inverted : bool;
  fontStyleKey : string }.

Section Legend.
(** [FONT_STYLE_LEGEND] of [@dhis2/analytics]. *)
Variable FONT_STYLE_LEGEND : string.

Definition HideLegend : checkbox_option_props :=
  mkCheckboxOptionProps (i18n_t "Show legend key" []) "hideLegend" true FONT_STYLE_LEGEND.
End Legend.

End HideLegend.
