(* ===== verification/FontStylesTest.v ===== *)
(** * The end-to-end test of font style options
    ([cypress/integration/options/fontStyles.cy.js])

    The Cypress test registers its steps when its [describe] callbacks run:
    every [it] is a titled list of commands, run later in the order of
    registration.  A command is modelled by the element helper it calls
    and that helper's arguments; the helpers themselves (under
    [cypress/elements] and [cypress/utils], outside the sources), the
    configuration defaults they compare with and the option tab names
    are parameters of the section.  The random choices the test makes
    ([generateRandomBool], [generateRandomNumber], [getRandomArrayItem])
    are the fields of [suite_draws], so the suite is a function of one
    run's draws.  The expected chart configurations are JavaScript object
    literals with spreads, [obj_literal].  The file models the test as
    data: it states no property, since what the test checks depends on the
    browser helpers and the chart library, which are not modelled. *)

From stdpp Require Import base list strings.
From Stdlib Require Import String ZArith Ascii.
From S2P Require Import Prelude JsValue Constants.

Open Scope string_scope.
#[local] Set Warnings "-register-all".

Module FontStylesTest.

(** The chart configuration an expectation reads through [window]. *)
Inductive config_target : Type :=
| WinTitle
| WinSubtitle
| WinLegend
| WinAxisPlotLines (axisType : string) (axisIndex lineIndex : Z)
| WinAxisTitle (axisType : string) (axisIndex : Z)
| WinAxisLabels (axisType : string) (axisIndex : Z).

(** The commands of the test, by the element helper they call. *)
Inductive step : Type :=
| GoToStartPage
| OpenDimension (dimensionId : string)
| SelectDataElements (names : list string)
| ClickDimensionModalUpdateButton
| ExpectVisualizationToBeVisible (visType : string)
| ExpectChartTitleToBeVisible
| ExpectChartSubtitleToBeVisible
| ExpectWindowConfig (target : config_target) (expected : jsval)
| OpenOptionsModal (tab : string)
| ChangeFontSizeOption (prefix : string) (fontSize : jsval)
| ChangeTextAlignOption (prefix : string) (textAlign : jsval)
| ClickBoldButton (prefix : string)
| ClickItalicButton (prefix : string)
| ChangeColor (prefix : string) (color : jsval)
| SetCustomSubtitle (text : string)
| CyLog (message : string)
| CheckTargetLineCheckbox
| SetTargetLineLabel (label : string)
| SetTargetLineValue (value : Z)
| CheckBaseLineCheckbox
| SetBaseLineLabel (label : string)
| SetBaseLineValue (value : Z)
| SetAxisTitleText (axis title : string)
| SetAxisTitleTextModeTo (mode : string)
| SwitchAxesTabTo (tab : string)
| ClickOptionsModalUpdateButton.

(** [it(title, body)] and [describe(name, callback)]. *)
Inductive test : Type :=
| It (title : string) (body : list step)
| Describe (name : string) (tests : list test).

Definition dq : string := String (ascii_of_nat 34) EmptyString.

(** Lines 61-69. *)
Definition TITLE_PREFIX : string := "option-chart-title".
Definition SUBTITLE_PREFIX : string := "option-chart-subtitle".
Definition SERIES_KEY_PREFIX : string := "option-series-key".
Definition TARGET_LINE_PREFIX : string := "option-target-line-label".
Definition BASE_LINE_PREFIX : string := "option-base-line-label".
Definition VERTICAL_AXIS_TITLE_PREFIX : string := "RANGE_0-axis-title".
Definition HORIZONTAL_AXIS_TITLE_PREFIX : string := "DOMAIN_0-axis-title".
Definition VERTICAL_AXIS_LABELS_PREFIX : string := "option-axis-label-RANGE_0".
Definition HORIZONTAL_AXIS_LABELS_PREFIX : string := "option-axis-label-DOMAIN_0".

(** [{ input, output }] of a test option; [x] only for the plot lines. *)
Record option_case := mkCase {
  case_input : jsval;
  case_output : string }.

(** Lines 71-79, with the random boolean as argument. *)
Definition randomizeBoldOption (useBold : bool) : option_case :=
  mkCase (JBool useBold) (if useBold then "bold" else "normal").

Definition randomizeItalicOption (useItalic : bool) : option_case :=
  mkCase (JBool useItalic) (if useItalic then "italic" else "normal").

(** Lines 81-106: one [it] per truthy option, in this order. *)
Definition setFontStyleOptions (fontSize textAlign bold italic color : jsval) (prefix : string)
    : list test :=
  (if truthy fontSize
   then [It ("changes the font size to " ++ js_to_string fontSize) [ChangeFontSizeOption prefix fontSize]]
   else []) ++
  (if truthy textAlign
   then [It ("changes the text align to " ++ js_to_string textAlign) [ChangeTextAlignOption prefix textAlign]]
   else []) ++
  (if truthy bold then [It "changes font to bold" [ClickBoldButton prefix]] else []) ++
  (if truthy italic then [It "changes font to italic" [ClickItalicButton prefix]] else []) ++
  (if truthy color then [It ("changes color to " ++ js_to_string color) [ChangeColor prefix color]] else []).

(** The title of the final [it] of a block. *)
Definition config_title (size : string) (align : option string) (bold italic : option_case)
    (color : string) : string :=
  "config has font size " ++ dq ++ size ++ dq ++
  match align with Some a => ", text align " ++ a | None => "" end ++
  ", bold " ++ js_to_string (case_input bold) ++ ", italic " ++ js_to_string (case_input italic) ++
  ", color " ++ color.

(** [{...base.style, fontSize, fontWeight, fontStyle, color}]. *)
Definition style_literal (baseStyle : jsval) (size : string) (bold italic : option_case)
    (color : string) : jsval :=
  obj_literal baseStyle [("fontSize", JStr size); ("fontWeight", JStr (case_output bold));
                         ("fontStyle", JStr (case_output italic)); ("color", JStr color)].

(** The random choices of one run. *)
Record suite_draws := mkDraws {
  TEST_DATA_ELEMENT_NAME : string;
  title_align : bool; title_bold : bool; title_italic : bool;
  subtitle_align : bool; subtitle_bold : bool; subtitle_italic : bool;
  target_align : bool; target_bold : bool; target_italic : bool; target_value : Z;
  base_align : bool; base_bold : bool; base_italic : bool; base_value : Z;
  series_align : bool; series_bold : bool; series_italic : bool;
  vlabels_bold : bool; vlabels_italic : bool;
  hlabels_bold : bool; hlabels_italic : bool;
  htitle_align : bool; htitle_bold : bool; htitle_italic : bool;
  vtitle_align : bool; vtitle_bold : bool; vtitle_italic : bool }.

Section Suite.
(** The tab names of [elements/optionsModal], the configuration defaults
    of [utils/config.js] and [VIS_TYPE_COLUMN] of [@dhis2/analytics]. *)
Variables OPTIONS_TAB_STYLE OPTIONS_TAB_DATA OPTIONS_TAB_AXES VIS_TYPE_COLUMN : string.
Variables CONFIG_DEFAULT_SUBTITLE CONFIG_DEFAULT_TITLE CONFIG_DEFAULT_LEGEND
  CONFIG_DEFAULT_TARGET_LINE CONFIG_DEFAULT_BASE_LINE CONFIG_DEFAULT_VERTICAL_AXIS_TITLE
  CONFIG_DEFAULT_HORIZONTAL_AXIS_TITLE CONFIG_DEFAULT_AXIS_LABELS : jsval.
Variable d : suite_draws.

(** Lines 109-115. *)
Definition navigate_it : test :=
  It "navigates to the start page and adds a data item"
    [GoToStartPage; OpenDimension DIMENSION_ID_DATA; SelectDataElements [TEST_DATA_ELEMENT_NAME d];
     ClickDimensionModalUpdateButton; ExpectVisualizationToBeVisible VIS_TYPE_COLUMN].

(** Lines 116-158. *)
Definition title_block : test :=
  let size := mkCase (JStr "Small") "13px" in
  let align := if title_align d then mkCase (JStr "Left") "left" else mkCase (JStr "Right") "right" in
  let bold := randomizeBoldOption (title_bold d) in
  let italic := randomizeItalicOption (title_italic d) in
  let color := "#fafa00" in
  let prefix := TITLE_PREFIX in
  Describe "title"
    ([It "has default value" [ExpectChartTitleToBeVisible; ExpectWindowConfig WinTitle CONFIG_DEFAULT_TITLE];
      It "opens Options -> Style" [OpenOptionsModal OPTIONS_TAB_STYLE]] ++
     setFontStyleOptions (case_input size) (case_input align) (case_input bold) (case_input italic)
       (JStr color) prefix ++
     [It "clicks the modal update button" [ClickOptionsModalUpdateButton];
      It (config_title (case_output size) (Some (case_output align)) bold italic color)
        [ExpectChartTitleToBeVisible;
         ExpectWindowConfig WinTitle
           (obj_literal CONFIG_DEFAULT_TITLE
              [("align", JStr (case_output align));
               ("style", style_literal (prop_of CONFIG_DEFAULT_TITLE "style") (case_output size)
                           bold italic color)])]]).

(** Lines 159-206. *)
Definition subtitle_block : test :=
  let size := mkCase (JStr "Regular") "18px" in
  let align := if subtitle_align d then mkCase (JStr "Left") "left" else mkCase (JStr "Right") "right" in
  let bold := randomizeBoldOption (subtitle_bold d) in
  let italic := randomizeItalicOption (subtitle_italic d) in
  let color := "#fa00fa" in
  let prefix := SUBTITLE_PREFIX in
  let TEST_SUBTITLE_TEXT := "S" in
  Describe "subtitle"
    ([It "has default value"
        [ExpectChartSubtitleToBeVisible; ExpectWindowConfig WinSubtitle CONFIG_DEFAULT_SUBTITLE];
      It "opens Options -> Style" [OpenOptionsModal OPTIONS_TAB_STYLE];
      It "sets a custom subtitle" [SetCustomSubtitle TEST_SUBTITLE_TEXT]] ++
     setFontStyleOptions (case_input size) (case_input align) (case_input bold) (case_input italic)
       (JStr color) prefix ++
     [It "clicks the modal update button" [ClickOptionsModalUpdateButton];
      It (config_title (case_output size) (Some (case_output align)) bold italic color)
        [ExpectChartSubtitleToBeVisible;
         ExpectWindowConfig WinSubtitle
           (obj_literal CONFIG_DEFAULT_SUBTITLE
              [("align", JStr (case_output align)); ("text", JStr TEST_SUBTITLE_TEXT);
               ("style", style_literal (prop_of CONFIG_DEFAULT_SUBTITLE "style") (case_output size)
                           bold italic color)])]]).

(** The text align of the plot lines: [{ input, output, x }]. *)
Definition line_align (center : bool) : option_case * Z :=
  if center then (mkCase (JStr "Center") "center", 0%Z) else (mkCase (JStr "Right") "right", (-10)%Z).

(** [{...default, value, color, label: {...default.label, x, text, align,
    style: {...default.label.style, ...}}}]. *)
Definition line_literal (default : jsval) (value : Z) (color : string) (x : Z) (label : string)
    (align : option_case) (size : string) (bold italic : option_case) : jsval :=
  obj_literal default
    [("value", JNum value); ("color", JStr color);
     ("label", obj_literal (prop_of default "label")
                 [("x", JNum x); ("text", JStr label); ("align", JStr (case_output align));
                  ("style", style_literal (prop_of (prop_of default "label") "style") size
                              bold italic color)])].

(** Lines 207-265. *)
Definition target_line_block : test :=
  let size := mkCase (JStr "Small") "11px" in
  let align := line_align (target_align d) in
  let bold := randomizeBoldOption (target_bold d) in
  let italic := randomizeItalicOption (target_italic d) in
  let color := "#00fafa" in
  let TEST_LABEL := "TL" in
  let TEST_VALUE := target_value d in
  let prefix := TARGET_LINE_PREFIX in
  Describe "target line"
    ([It "opens Options -> Data" [OpenOptionsModal OPTIONS_TAB_DATA];
      It "sets target line"
        [CyLog ("Test value: " ++ js_to_string (JNum TEST_VALUE)); CheckTargetLineCheckbox;
         SetTargetLineLabel TEST_LABEL; SetTargetLineValue TEST_VALUE]] ++
     setFontStyleOptions (case_input size) (case_input align.1) (case_input bold) (case_input italic)
       (JStr color) prefix ++
     [It "clicks the modal update button" [ClickOptionsModalUpdateButton];
      It (config_title (case_output size) (Some (case_output align.1)) bold italic color)
        [ExpectVisualizationToBeVisible VIS_TYPE_COLUMN;
         ExpectWindowConfig (WinAxisPlotLines "yAxis" 0 0)
           (line_literal CONFIG_DEFAULT_TARGET_LINE TEST_VALUE color align.2 TEST_LABEL align.1
              (case_output size) bold italic)]]).

(** Lines 266-324. *)
Definition base_line_block : test :=
  let size := mkCase (JStr "Large") "18px" in
  let align := line_align (base_align d) in
  let bold := randomizeBoldOption (base_bold d) in
  let italic := randomizeItalicOption (base_italic d) in
  let color := "#99fa99" in
  let TEST_LABEL := "BL" in
  let TEST_VALUE := base_value d in
  let prefix := BASE_LINE_PREFIX in
  Describe "base line"
    ([It "opens Options -> Data" [OpenOptionsModal OPTIONS_TAB_DATA];
      It "sets base line"
        [CyLog ("Test value: " ++ js_to_string (JNum TEST_VALUE)); CheckBaseLineCheckbox;
         SetBaseLineLabel TEST_LABEL; SetBaseLineValue TEST_VALUE]] ++
     setFontStyleOptions (case_input size) (case_input align.1) (case_input bold) (case_input italic)
       (JStr color) prefix ++
     [It "clicks the modal update button" [ClickOptionsModalUpdateButton];
      It (config_title (case_output size) (Some (case_output align.1)) bold italic color)
        [ExpectVisualizationToBeVisible VIS_TYPE_COLUMN;
         ExpectWindowConfig (WinAxisPlotLines "yAxis" 0 1)
           (line_literal CONFIG_DEFAULT_BASE_LINE TEST_VALUE color align.2 TEST_LABEL align.1
              (case_output size) bold italic)]]).

(** Lines 325-363. *)
Definition series_key_block : test :=
  let size := mkCase (JStr "Extra Large") "24px" in
  let align := if series_align d then mkCase (JStr "Left") "left" else mkCase (JStr "Right") "right" in
  let bold := randomizeBoldOption (series_bold d) in
  let italic := randomizeItalicOption (series_italic d) in
  let color := "#9090fa" in
  let prefix := SERIES_KEY_PREFIX in
  Describe "series key"
    ([It "opens Options -> Style" [OpenOptionsModal OPTIONS_TAB_STYLE]] ++
     setFontStyleOptions (case_input size) (case_input align) (case_input bold) (case_input italic)
       (JStr color) prefix ++
     [It "clicks the modal update button" [ClickOptionsModalUpdateButton];
      It (config_title (case_output size) (Some (case_output align)) bold italic color)
        [ExpectVisualizationToBeVisible VIS_TYPE_COLUMN;
         ExpectWindowConfig WinLegend
           (obj_literal CONFIG_DEFAULT_LEGEND
              [("align", JStr (case_output align));
               ("itemStyle", style_literal (prop_of CONFIG_DEFAULT_LEGEND "itemStyle")
                               (case_output size) bold italic color)])]]).

(** Lines 364-432: the axis labels, which have no text align; the
    horizontal ones switch to the tab of the x axis first. *)
Definition axis_labels_block (name : string) (size : option_case) (boldDraw italicDraw : bool)
    (color prefix axisType : string) (switchTab : bool) : test :=
  let bold := randomizeBoldOption boldDraw in
  let italic := randomizeItalicOption italicDraw in
  Describe name
    ([It "opens Options -> Axes"
        (OpenOptionsModal OPTIONS_TAB_AXES ::
         (if switchTab then [SwitchAxesTabTo "Horizontal (x) axis"] else []))] ++
     setFontStyleOptions (case_input size) JUndefined (case_input bold) (case_input italic)
       (JStr color) prefix ++
     [It "clicks the modal update button" [ClickOptionsModalUpdateButton];
      It (config_title (case_output size) None bold italic color)
        [ExpectVisualizationToBeVisible VIS_TYPE_COLUMN;
         ExpectWindowConfig (WinAxisLabels axisType 0)
           (obj_literal CONFIG_DEFAULT_AXIS_LABELS
              [("style", style_literal (prop_of CONFIG_DEFAULT_AXIS_LABELS "style")
                           (case_output size) bold italic color)])]]).

Definition vertical_axis_labels_block : test :=
  axis_labels_block "vertical axis labels" (mkCase (JStr "Regular") "13px")
    (vlabels_bold d) (vlabels_italic d) "#0909fa" VERTICAL_AXIS_LABELS_PREFIX "yAxis" false.

Definition horizontal_axis_labels_block : test :=
  axis_labels_block "horizontal axis labels" (mkCase (JStr "Large") "18px")
    (hlabels_bold d) (hlabels_italic d) "#fa0909" HORIZONTAL_AXIS_LABELS_PREFIX "xAxis" true.

(** Lines 433-526: the axis titles, set to a custom text first. *)
Definition axis_title_block (name : string) (default : jsval) (size : option_case)
    (alignDraw boldDraw italicDraw : bool) (color title axis prefix axisType : string)
    (switchTab : bool) : test :=
  let align := if alignDraw then mkCase (JStr "Start") "low" else mkCase (JStr "End") "high" in
  let bold := randomizeBoldOption boldDraw in
  let italic := randomizeItalicOption italicDraw in
  Describe name
    ([It "opens Options -> Axes" [OpenOptionsModal OPTIONS_TAB_AXES];
      It ("sets " ++ (if switchTab then "horizontal" else "vertical") ++ " axis title to " ++
          dq ++ title ++ dq)
        ((if switchTab then [SwitchAxesTabTo "Horizontal (x) axis"] else []) ++
         [SetAxisTitleTextModeTo "Custom"; SetAxisTitleText axis title])] ++
     setFontStyleOptions (case_input size) (case_input align) (case_input bold) (case_input italic)
       (JStr color) prefix ++
     [It "clicks the modal update button" [ClickOptionsModalUpdateButton];
      It (config_title (case_output size) (Some (case_output align)) bold italic color)
        [ExpectVisualizationToBeVisible VIS_TYPE_COLUMN;
         ExpectWindowConfig (WinAxisTitle axisType 0)
           (obj_literal default
              [("text", JStr title); ("align", JStr (case_output align));
               ("style", style_literal (prop_of default "style") (case_output size)
                           bold italic color)])]]).

Definition horizontal_axis_title_block : test :=
  axis_title_block "horizontal axis title" CONFIG_DEFAULT_HORIZONTAL_AXIS_TITLE
    (mkCase (JStr "Extra Small") "9px") (htitle_align d) (htitle_bold d) (htitle_italic d)
    "#0f9a09" "HT" "DOMAIN_0" HORIZONTAL_AXIS_TITLE_PREFIX "xAxis" true.

Definition vertical_axis_title_block : test :=
  axis_title_block "vertical axis title" CONFIG_DEFAULT_VERTICAL_AXIS_TITLE
    (mkCase (JStr "Large") "18px") (vtitle_align d) (vtitle_bold d) (vtitle_italic d)
    "#a090f9" "VT" "RANGE_0" VERTICAL_AXIS_TITLE_PREFIX "yAxis" false.

(** The blocks that set font styles, in the order of registration. *)
Definition font_blocks : list test :=
  [title_block; subtitle_block; target_line_block; base_line_block; series_key_block;
   vertical_axis_labels_block; horizontal_axis_labels_block; horizontal_axis_title_block;
   vertical_axis_title_block].

(** Lines 108-527. *)
Definition suite : test := Describe "Options - Font styles" (navigate_it :: font_blocks).

End Suite.

End FontStylesTest.
